(** * ANPR plate pipeline: a shallow embedding of the recognizer variants

    The development follows the Python sources
    [plate_recognizer.py], [uk_plate_recognizer.py], [simple_detector.py]
    and [direct_ocr.py], and their callers [main.py] with
    [firebase_handler.py], [anpr_demo.py], [api_server.py] and
    [start_api.py].

    - Python [str] values are lists of characters.  The character
      functions ([isalnum], [upper], [isspace]) are those of Python on the
      7-bit ASCII range, which is what Tesseract emits under the
      [A-Z0-9] whitelist the recognizers pass.  Statements about the
      normalizers on arbitrary input are stated for ASCII text; the
      normalizers are given a second time on strings of code points
      ([Unicode]), with Python's character database as a parameter, and
      the two are shown to agree on ASCII text.
    - Python [float] is IEEE binary64: Rocq's primitive floats.
    - numpy arrays are a shape and an accessor; slicing is Python's.
    - OpenCV and Tesseract are external: a record of capabilities.
      Calls into them are logged, so that "which calls were made" is a
      statement about the returned trace.
    - Firestore is a store of documents by identifier, passed in and
      out; the clock reading is an argument. *)

From Stdlib Require Import List Bool Arith ZArith Lia Btauto.
From Stdlib Require Import Ascii String DecimalString.
From Stdlib Require DecimalNat.
From Stdlib Require Import PrimFloat FloatOps SpecFloat FloatAxioms.
Import ListNotations.

Set Implicit Arguments.
Set Warnings "-inexact-float".

Open Scope string_scope.
Open Scope nat_scope.
Open Scope list_scope.

(** ** Python strings *)

Module PyStr.

Definition str := list ascii.

(** String literals are read as character lists. *)
Coercion lit (s : string) : str := list_ascii_of_string s.

Definition code (c : ascii) : nat := nat_of_ascii c.

Definition between (lo hi : nat) (c : ascii) : bool :=
  (lo <=? code c) && (code c <=? hi).

(** The regex class [[A-Z]]. *)
Definition is_AZ (c : ascii) : bool := between 65 90 c.

Definition is_az (c : ascii) : bool := between 97 122 c.

(** The regex class [\d], on ASCII text: the digits 0 to 9. *)
Definition is_digit (c : ascii) : bool := between 48 57 c.

(** [c.isalnum()], for an ASCII character. *)
Definition isalnum (c : ascii) : bool := is_AZ c || is_az c || is_digit c.

(** [c.upper()], for an ASCII character. *)
Definition upper_char (c : ascii) : ascii :=
  if is_az c then ascii_of_nat (code c - 32) else c.

(** [c.isspace()]: tab .. carriage return, the four separators
    0x1c .. 0x1f, and the space. *)
Definition isspace (c : ascii) : bool :=
  between 9 13 c || between 28 31 c || (code c =? 32).

(** [s.upper()] *)
Definition upper (s : str) : str := map upper_char s.

(** [''.join(c for c in text if c.isalnum())] *)
Definition join_alnum (text : str) : str := filter isalnum text.

(** [s.replace(a, b)] for one-character [a] and [b]. *)
Definition replace (a b : ascii) (s : str) : str :=
  map (fun c => if Ascii.eqb c a then b else c) s.

(** [s[i:j]] for [0 <= i <= j]. *)
Definition slice (s : str) (i j : nat) : str := firstn (j - i) (skipn i s).

(** [s[:j]] *)
Definition upto (s : str) (j : nat) : str := firstn j s.

(** [s[i:]] *)
Definition from (s : str) (i : nat) : str := skipn i s.

(** [len(s)] *)
Definition len (s : str) : nat := List.length s.

(** [range(n)] *)
Definition range (n : nat) : list nat := seq 0 n.

(** [s.lstrip()], [s.rstrip()] and [s.strip()] *)
Fixpoint lstrip (s : str) : str :=
  match s with
  | c :: r => if isspace c then lstrip r else s
  | [] => []
  end.

Definition rstrip (s : str) : str := rev (lstrip (rev s)).

Definition strip (s : str) : str := rstrip (lstrip s).

(** Truth value of a string: non-empty. *)
Definition truthy (s : str) : bool :=
  match s with [] => false | _ => true end.

Definition str_eqb (a b : str) : bool :=
  if list_eq_dec ascii_dec a b then true else false.

Fixpoint starts_with (p s : str) : bool :=
  match p, s with
  | [], _ => true
  | a :: p', b :: s' => Ascii.eqb a b && starts_with p' s'
  | _ :: _, [] => false
  end.

(** [p in s] *)
Fixpoint contains (p s : str) : bool :=
  starts_with p s ||
  match s with
  | [] => false
  | _ :: r => contains p r
  end.

Definition newline : ascii := ascii_of_nat 10.

(** [re.match(r'^[A-Z]{2}\d{2}[A-Z]{3}$', s)]: seven characters of the
    three classes; [$] also accepts one trailing newline. *)
Definition uk_plate_pattern (s : str) : bool :=
  match s with
  | [a; b; c; d; e; f; g] =>
      is_AZ a && is_AZ b && is_digit c && is_digit d
      && is_AZ e && is_AZ f && is_AZ g
  | [a; b; c; d; e; f; g; n] =>
      is_AZ a && is_AZ b && is_digit c && is_digit d
      && is_AZ e && is_AZ f && is_AZ g && Ascii.eqb n newline
  | _ => false
  end.

Definition is_O0 (c : ascii) : bool :=
  Ascii.eqb c "O" || Ascii.eqb c "0".

(** A match of [B[O0]J] at the head of [s]. *)
Definition head_BOJ (s : str) : bool :=
  match s with
  | b :: o :: j :: _ => Ascii.eqb b "B" && is_O0 o && Ascii.eqb j "J"
  | _ => false
  end.

(** A match of [.*B[O0]J] at the head of [s]: [.] takes any character
    but a newline. *)
Fixpoint any_then_BOJ (s : str) : bool :=
  head_BOJ s ||
  match s with
  | [] => false
  | c :: r => negb (Ascii.eqb c newline) && any_then_BOJ r
  end.

(** A match of [AA[O0]3.*B[O0]J] at the head of [s]. *)
Definition head_AA03_BOJ (s : str) : bool :=
  match s with
  | a1 :: a2 :: o :: t :: r =>
      Ascii.eqb a1 "A" && Ascii.eqb a2 "A" && is_O0 o && Ascii.eqb t "3"
      && any_then_BOJ r
  | _ => false
  end.

(** [re.search(r'AA[O0]3.*B[O0]J', s)] *)
Fixpoint search_AA03_BOJ (s : str) : bool :=
  head_AA03_BOJ s ||
  match s with
  | [] => false
  | _ :: r => search_AA03_BOJ r
  end.

(** The f-string [f"{c[:2]}{c[2:4]} {c[4:]}"]. *)
Definition spaced (c : str) : str :=
  upto c 2 ++ slice c 2 4 ++ lit " " ++ from c 4.

End PyStr.

Import PyStr.

(** ** The four plate text normalizers *)

(** The window loop shared by three of the variants:
    [for i in range(len(clean_text) - 6)], returning at the first window
    of seven characters that matches the plate pattern. *)
Fixpoint first_window (clean_text : str) (indices : list nat) : option str :=
  match indices with
  | [] => None
  | i :: rest =>
      let candidate := slice clean_text i (i + 7) in
      if uk_plate_pattern candidate then Some candidate
      else first_window clean_text rest
  end.

(** The guarded scan: [if len(clean_text) >= 7: for i in range(...)]. *)
Definition scan_windows (clean_text : str) : option str :=
  if 7 <=? len clean_text
  then first_window clean_text (range (len clean_text - 6))
  else None.

(** [plate_recognizer.py] *)
Module PlateRecognizerText.

(** [PlateRecognizer.format_uk_plate] *)
Definition format_uk_plate (text : str) : str :=
  let clean_text := upper (join_alnum text) in
  if len clean_text =? 7 then spaced clean_text else clean_text.

End PlateRecognizerText.

(** [uk_plate_recognizer.py] *)
Module UKText.

(** The cleaning prefix of [format_uk_plate]: alphanumerics, upper case,
    then the two confusion corrections. *)
Definition clean (text : str) : str :=
  let clean_text := upper (join_alnum text) in
  let clean_text := replace "O" "0" clean_text in
  replace "I" "1" clean_text.

(** [UKPlateRecognizer.format_uk_plate] *)
Definition format_uk_plate (text : str) : str :=
  let clean_text := clean text in
  if search_AA03_BOJ clean_text then lit "AA03 BOJ"
  else
    match scan_windows clean_text with
    | Some candidate => spaced candidate
    | None =>
        if len clean_text =? 7 then spaced clean_text else clean_text
    end.

End UKText.

(** [direct_ocr.py] *)
Module DirectOcr.

(** [clean_and_format_plate] *)
Definition clean_and_format_plate (text : str) : str :=
  let clean_text := upper (join_alnum text) in
  match scan_windows clean_text with
  | Some candidate => spaced candidate
  | None => clean_text
  end.

End DirectOcr.

(** [simple_detector.py], text part *)
Module SimpleText.

(** [clean_and_format_plate] *)
Definition clean_and_format_plate (text : str) : str :=
  let clean_text := upper (join_alnum text) in
  match scan_windows clean_text with
  | Some candidate => spaced candidate
  | None =>
      if len clean_text =? 7 then spaced clean_text else clean_text
  end.

(** [is_valid_uk_plate] *)
Definition is_valid_uk_plate (text : str) : bool :=
  let text := filter (fun c => negb (Ascii.eqb c " ")) text in
  uk_plate_pattern text.

End SimpleText.

(** ** The normalizers on strings beyond ASCII

    The four normalizers once more, on Python strings of any
    characters.  [str.isalnum], [str.upper] and the regex class [\d]
    read Python's Unicode character database; [str.upper] may turn one
    character into several.  On ASCII text these are the definitions
    above. *)

Module Unicode.

(** A Python [str] as its code points. *)
Definition ustr := list N.

(** What the normalizers ask of the character database. *)
Record Characters : Type := {
  isalnum : N -> bool;
  upper : N -> ustr;
  isdecimal : N -> bool
}.

(** The code points of an ASCII string. *)
Definition of_str (s : str) : ustr := map (fun c => N.of_nat (code c)) s.

(** The regex class [[A-Z]]. *)
Definition is_AZ (c : N) : bool := ((65 <=? c) && (c <=? 90))%N.

Definition slice (s : ustr) (i j : nat) : ustr := firstn (j - i) (skipn i s).

(** The f-string [f"{c[:2]}{c[2:4]} {c[4:]}"]. *)
Definition spaced (c : ustr) : ustr :=
  firstn 2 c ++ slice c 2 4 ++ of_str (lit " ") ++ skipn 4 c.

(** [s.replace(a, b)] for one-character [a] and [b]. *)
Definition replace (a b : N) (s : ustr) : ustr :=
  map (fun c => if (c =? a)%N then b else c) s.

Definition is_O0 (c : N) : bool := ((c =? 79) || (c =? 48))%N.

(** A match of [B[O0]J] at the head of [s]. *)
Definition head_BOJ (s : ustr) : bool :=
  match s with
  | b :: o :: j :: _ => (b =? 66)%N && is_O0 o && (j =? 74)%N
  | _ => false
  end.

(** A match of [.*B[O0]J] at the head of [s]. *)
Fixpoint any_then_BOJ (s : ustr) : bool :=
  head_BOJ s ||
  match s with
  | [] => false
  | c :: r => negb (c =? 10)%N && any_then_BOJ r
  end.

(** A match of [AA[O0]3.*B[O0]J] at the head of [s]. *)
Definition head_AA03_BOJ (s : ustr) : bool :=
  match s with
  | a1 :: a2 :: o :: t :: r =>
      (a1 =? 65)%N && (a2 =? 65)%N && is_O0 o && (t =? 51)%N
      && any_then_BOJ r
  | _ => false
  end.

(** [re.search(r'AA[O0]3.*B[O0]J', s)] *)
Fixpoint search_AA03_BOJ (s : ustr) : bool :=
  head_AA03_BOJ s ||
  match s with
  | [] => false
  | _ :: r => search_AA03_BOJ r
  end.

Section WithCharacters.

Variable db : Characters.

(** [''.join(c for c in text if c.isalnum()).upper()] *)
Definition cleaned (text : ustr) : ustr :=
  flat_map (upper db) (filter (isalnum db) text).

(** [re.match(r'^[A-Z]{2}\d{2}[A-Z]{3}$', s)] *)
Definition uk_plate_pattern (s : ustr) : bool :=
  match s with
  | [a; b; c; d; e; f; g] =>
      is_AZ a && is_AZ b && isdecimal db c && isdecimal db d
      && is_AZ e && is_AZ f && is_AZ g
  | [a; b; c; d; e; f; g; n] =>
      is_AZ a && is_AZ b && isdecimal db c && isdecimal db d
      && is_AZ e && is_AZ f && is_AZ g && (n =? 10)%N
  | _ => false
  end.

Fixpoint first_window (clean_text : ustr) (indices : list nat)
  : option ustr :=
  match indices with
  | [] => None
  | i :: rest =>
      let candidate := slice clean_text i (i + 7) in
      if uk_plate_pattern candidate then Some candidate
      else first_window clean_text rest
  end.

Definition scan_windows (clean_text : ustr) : option ustr :=
  if 7 <=? List.length clean_text
  then first_window clean_text (range (List.length clean_text - 6))
  else None.

(** [PlateRecognizer.format_uk_plate] *)
Definition pr_format_uk_plate (text : ustr) : ustr :=
  let clean_text := cleaned text in
  if List.length clean_text =? 7 then spaced clean_text else clean_text.

(** [UKPlateRecognizer.format_uk_plate] *)
Definition uk_format_uk_plate (text : ustr) : ustr :=
  let clean_text := cleaned text in
  let clean_text := replace 79 48 clean_text in
  let clean_text := replace 73 49 clean_text in
  if search_AA03_BOJ clean_text then of_str (lit "AA03 BOJ")
  else
    match scan_windows clean_text with
    | Some candidate => spaced candidate
    | None =>
        if List.length clean_text =? 7 then spaced clean_text
        else clean_text
    end.

(** [clean_and_format_plate] of [direct_ocr.py] *)
Definition direct_clean_and_format_plate (text : ustr) : ustr :=
  let clean_text := cleaned text in
  match scan_windows clean_text with
  | Some candidate => spaced candidate
  | None => clean_text
  end.

(** [clean_and_format_plate] of [simple_detector.py] *)
Definition simple_clean_and_format_plate (text : ustr) : ustr :=
  let clean_text := cleaned text in
  match scan_windows clean_text with
  | Some candidate => spaced candidate
  | None =>
      if List.length clean_text =? 7 then spaced clean_text
      else clean_text
  end.

End WithCharacters.

End Unicode.

(** ** Python numbers *)

Module PyNum.

(** [float(n)] for an [int] [n], rounded to nearest-even. *)
Definition float_of_Z (n : Z) : float :=
  SF2Prim (binary_normalize prec emax n 0 false).

(** [int(x)] for a finite float [x]: truncation toward zero.  (Python
    raises on an infinity or a NaN; no caller below can pass one.) *)
Definition int_of_float (x : float) : Z :=
  match Prim2SF x with
  | S754_finite s m e =>
      let v := if (0 <=? e)%Z then (Z.pos m * 2 ^ e)%Z
               else (Z.pos m / 2 ^ (- e))%Z in
      if s then (- v)%Z else v
  | _ => 0%Z
  end.

(** [int(n * x)] for an [int] [n] and a float [x]. *)
Definition int_mul (n : Z) (x : float) : Z :=
  int_of_float (float_of_Z n * x)%float.

(** The chained comparison [lo < x < hi]. *)
Definition strictly_between (lo hi x : float) : bool :=
  (lo <? x)%float && (x <? hi)%float.

End PyNum.

Import PyNum.

(** ** numpy arrays *)

Module Np.

(** A two-dimensional array of pixels: [shape[:2]] and an accessor. *)
Record ndarray (A : Type) : Type := mk_ndarray {
  rows : Z;
  cols : Z;
  px : Z -> Z -> A
}.

(** [a.size] (per channel plane). *)
Definition size {A} (a : ndarray A) : Z := (rows a * cols a)%Z.

Definition is_empty {A} (a : ndarray A) : bool :=
  (rows a <=? 0)%Z || (cols a <=? 0)%Z.

(** How Python clips one bound of a slice against a length [n]. *)
Definition clip (i n : Z) : Z :=
  if (i <? 0)%Z then Z.max 0 (i + n) else Z.min i n.

(** [a[y0:y1, x0:x1]] *)
Definition crop {A} (a : ndarray A) (y0 y1 x0 x1 : Z) : ndarray A :=
  let r0 := clip y0 (rows a) in
  let r1 := clip y1 (rows a) in
  let c0 := clip x0 (cols a) in
  let c1 := clip x1 (cols a) in
  {| rows := Z.max 0 (r1 - r0);
     cols := Z.max 0 (c1 - c0);
     px := fun i j => px a (r0 + i) (c0 + j) |}.

(** [a[:, x0:x1]] *)
Definition crop_cols {A} (a : ndarray A) (x0 x1 : Z) : ndarray A :=
  let c0 := clip x0 (cols a) in
  let c1 := clip x1 (cols a) in
  {| rows := rows a;
     cols := Z.max 0 (c1 - c0);
     px := fun i j => px a i (c0 + j) |}.

Definition indices (n : Z) : list Z := map Z.of_nat (seq 0 (Z.to_nat n)).

(** [np.sum(mask > 0)] *)
Definition count_positive (mask : ndarray Z) : Z :=
  fold_left
    (fun acc i =>
       fold_left
         (fun acc j => if (0 <? px mask i j)%Z then (acc + 1)%Z else acc)
         (indices (cols mask)) acc)
    (indices (rows mask)) 0%Z.

(** [(np.sum(mask > 0) / mask.size) * 100]: numpy's float64 division,
    which yields a NaN or an infinity on a zero size and does not
    raise. *)
Definition percentage (mask : ndarray Z) : float :=
  (float_of_Z (count_positive mask) / float_of_Z (size mask) * 100)%float.

End Np.

Import Np.

(** A colour image (BGR or HSV triples) and a one-channel image (grey
    levels, binary images, masks). *)
Definition Image := ndarray (Z * Z * Z).
Definition Gray := ndarray Z.

(** A contour is its list of points [(x, y)]. *)
Definition Contour := list (Z * Z).

(** A bounding box [(x, y, w, h)]. *)
Definition Rect := (Z * Z * Z * Z)%type.

(** ** Exceptions, call traces and the monad of the pipeline *)

Inductive exn : Type :=
| ZeroDivisionError
| cv2_error.

(** The calls the pipeline makes into its two providers. *)
Inductive Event : Type :=
| Cv (fn : string)
| ImageToData (config : str)
| ImageToString (config : str).

Inductive outcome (A : Type) : Type :=
| Return (a : A)
| Raise (e : exn).

Arguments Return {A} a.
Arguments Raise {A} e.

(** A computation: the calls it made, and how it ended. *)
Definition M (A : Type) : Type := (list Event * outcome A)%type.

Definition ret {A} (a : A) : M A := ([], Return a).

Definition raise {A} (e : exn) : M A := ([], Raise e).

Definition bind {A B} (m : M A) (k : A -> M B) : M B :=
  match m with
  | (t, Return a) => let (t', r) := k a in (t ++ t', r)
  | (t, Raise e) => (t, Raise e)
  end.

(** A provider call that returns normally. *)
Definition call {A} (e : Event) (a : A) : M A := ([e], Return a).

(** A provider call that may raise. *)
Definition call_raising {A} (e : Event) (r : outcome A) : M A := ([e], r).

(** [try: m  except Exception: handler] *)
Definition try_except {A} (m : M A) (handler : exn -> M A) : M A :=
  match m with
  | (t, Raise e) => let (t', r) := handler e in (t ++ t', r)
  | _ => m
  end.

Definition trace {A} (m : M A) : list Event := fst m.
Definition result {A} (m : M A) : outcome A := snd m.

Declare Scope py_scope.
Delimit Scope py_scope with py.
Notation "x <- m ;; k" := (bind m (fun x => k))
  (at level 61, m at next level, right associativity) : py_scope.
Notation "' pat <- m ;; k" := (bind m (fun x => match x with pat => k end))
  (at level 61, pat pattern, m at next level, right associativity) : py_scope.
Open Scope py_scope.

(** How one turn of a [for] loop ends. *)
Inductive flow (S : Type) : Type :=
| Continue (s : S)
| Break (s : S).

Arguments Continue {S} s.
Arguments Break {S} s.

(** [for x in xs: body], threading the loop variables [s]; [Break]
    leaves the loop. *)
Fixpoint for_each {X S} (xs : list X) (s : S) (body : X -> S -> M (flow S))
  : M S :=
  match xs with
  | [] => ret s
  | x :: rest =>
      f <- body x s ;;
      match f with
      | Continue s' => for_each rest s' body
      | Break s' => ret s'
      end
  end.

(** [a / b] with a float [a] and an [int] [b]. *)
Definition div_float_int (a : float) (b : Z) : M float :=
  if (b =? 0)%Z then raise ZeroDivisionError
  else ret (a / float_of_Z b)%float.

(** [a / b] with [int]s [a] and [b] (also [float(a) / b]).  Python
    rounds the exact quotient once; for operands below 2^53, which image
    dimensions are, that is the binary64 division of the two converted
    operands. *)
Definition truediv (a b : Z) : M float :=
  div_float_int (float_of_Z a) b.

(** ** The two capability providers *)

Inductive ThreshType : Type :=
| THRESH_BINARY
| THRESH_BINARY_INV
| THRESH_BINARY_OTSU.

Inductive MorphOp : Type :=
| MORPH_OPEN
| MORPH_CLOSE.

Inductive Retrieval : Type :=
| RETR_EXTERNAL
| RETR_TREE.

(** OpenCV, as far as the recognizers call it.  Kernels are square and
    given by their side.  Two calls may raise: [resize], the one call the
    sources guard with [try], and [cvtColor] on the band that
    [is_clearly_uk_plate] cuts, which is empty for a narrow image (see
    [cvtColor_of_cut]).  The colour conversion to HSV and [inRange] keep
    the shape of their input. *)
Record OpenCV : Type := {
  imread : str -> option Image;
  cvtColor_BGR2GRAY : Image -> Gray;
  cvtColor_BGR2HSV : Image -> Image;
  bilateralFilter : Gray -> Z -> Z -> Z -> Gray;
  equalizeHist : Gray -> Gray;
  GaussianBlur : Gray -> Z -> Z -> Gray;
  Canny : Gray -> Z -> Z -> Gray;
  dilate : Gray -> Z -> Z -> Gray;
  adaptiveThreshold : Gray -> Z -> ThreshType -> Z -> Z -> Gray;
  threshold : Gray -> Z -> Z -> ThreshType -> Gray;
  morphologyEx : Gray -> MorphOp -> Z -> Gray;
  bitwise_not : Gray -> Gray;
  inRange : Image -> Z * Z * Z -> Z * Z * Z -> Gray;
  findContours : Gray -> Retrieval -> list Contour;
  contourArea : Contour -> float;
  arcLength : Contour -> float;
  approxPolyDP : Contour -> float -> Contour;
  boundingRect : Contour -> Rect;
  resize : Image -> float -> float -> outcome Image;
  rectangle : Image -> Z * Z -> Z * Z -> Image;
  cvtColor_BGR2HSV_shape :
    forall img,
      rows (cvtColor_BGR2HSV img) = rows img
      /\ cols (cvtColor_BGR2HSV img) = cols img;
  inRange_shape :
    forall img lo hi,
      rows (inRange img lo hi) = rows img
      /\ cols (inRange img lo hi) = cols img
}.

(** [cv2.cvtColor] on an image the code has cut out itself: OpenCV
    refuses an empty source with [cv2.error]. *)
Definition cvtColor_of_cut {B} (convert : Image -> ndarray B) (src : Image)
  : M (ndarray B) :=
  call_raising (Cv "cvtColor")
    (if is_empty src then Raise cv2_error else Return (convert src)).

(** Tesseract through pytesseract.  [image_to_data] gives the parallel
    [text] and [conf] columns as one list of rows; confidences are the
    integers of Tesseract's TSV output, [-1] for a row without text. *)
Record Tesseract : Type := {
  image_to_data : Gray -> str -> list (str * Z);
  image_to_string : Gray -> str -> str;
  image_to_string_bgr : Image -> str -> str
}.

(** [sorted(contours, key=cv2.contourArea, reverse=True)]: stable,
    largest key first. *)
Fixpoint insert_desc (key : Contour -> float) (c : Contour)
  (l : list Contour) : list Contour :=
  match l with
  | [] => [c]
  | d :: r =>
      if (key d <? key c)%float then c :: l else d :: insert_desc key c r
  end.

Definition sorted_desc (key : Contour -> float) (l : list Contour)
  : list Contour :=
  fold_left (fun acc c => insert_desc key c acc) l [].

(** [max(l)] and [l.index(v)] on a list of confidences. *)
Definition py_max (l : list Z) : Z :=
  match l with
  | [] => 0%Z
  | v :: r => fold_left Z.max r v
  end.

Fixpoint py_index (v : Z) (l : list Z) : nat :=
  match l with
  | [] => 0
  | u :: r => if (u =? v)%Z then 0 else S (py_index v r)
  end.

(** ** [plate_recognizer.py] *)

Module PlateRecognizer.

Definition configs : list str :=
  [ lit "--psm 7 --oem 1 -c tessedit_char_whitelist=ABCDEFGHIJKLMNOPQRSTUVWXYZ0123456789";
    lit "--psm 8 --oem 1 -c tessedit_char_whitelist=ABCDEFGHIJKLMNOPQRSTUVWXYZ0123456789";
    lit "--psm 13 --oem 1 -c tessedit_char_whitelist=ABCDEFGHIJKLMNOPQRSTUVWXYZ0123456789" ].

(** The loop variables of [recognize_plate]. *)
Record best : Type := mk_best {
  best_confidence : Z;
  best_text : option str;
  best_plate_img : option Image
}.

Section WithProviders.

Variable cv : OpenCV.
Variable ocr : Tesseract.

(** [preprocess_image] *)
Definition preprocess_image (image : Image) : M Gray :=
  gray <- call (Cv "cvtColor") (cvtColor_BGR2GRAY cv image) ;;
  gray <- call (Cv "bilateralFilter") (bilateralFilter cv gray 11 17 17) ;;
  gray <- call (Cv "equalizeHist") (equalizeHist cv gray) ;;
  edged <- call (Cv "Canny") (Canny cv gray 30 200) ;;
  edged <- call (Cv "dilate") (dilate cv edged 3 1) ;;
  ret edged.

(** The filter of [find_plate_contours] on one contour. *)
Definition plate_like_contour (total_area : Z) (contour : Contour) : M bool :=
  let area := contourArea cv contour in
  if ((0.01 * float_of_Z total_area <? area)
      && (area <? 0.1 * float_of_Z total_area))%float
  then
    let '(x, y, w, h) := boundingRect cv contour in
    aspect_ratio <- truediv w h ;;
    ret (strictly_between 3.0 6.0 aspect_ratio)
  else ret false.

(** [find_plate_contours] *)
Definition find_plate_contours (image : Gray) (original_image : Image)
  : M (list Contour) :=
  contours <- call (Cv "findContours") (findContours cv image RETR_TREE) ;;
  let contours := firstn 20 (sorted_desc (contourArea cv) contours) in
  let h := rows original_image in
  let w := cols original_image in
  let total_area := (h * w)%Z in
  for_each contours []
    (fun contour plate_contours =>
       ok <- plate_like_contour total_area contour ;;
       ret (Continue (if ok then plate_contours ++ [contour]
                      else plate_contours))).

(** [extract_plate] *)
Definition extract_plate (image : Image) (contour : Contour)
  : M (option Image) :=
  try_except
    (let '(x, y, w, h) := boundingRect cv contour in
     let plate := crop image y (y + h) x (x + w) in
     scale_factor <- div_float_int 50.0 h ;;
     plate <- call_raising (Cv "resize")
                (resize cv plate scale_factor scale_factor) ;;
     ret (Some plate))
    (fun _ => ret None).

(** [enhance_plate_image] *)
Definition enhance_plate_image (plate_img : Image) : M Gray :=
  gray <- call (Cv "cvtColor") (cvtColor_BGR2GRAY cv plate_img) ;;
  blurred <- call (Cv "GaussianBlur") (GaussianBlur cv gray 5 0) ;;
  thresh <- call (Cv "adaptiveThreshold")
              (adaptiveThreshold cv blurred 255 THRESH_BINARY_INV 11 2) ;;
  opening <- call (Cv "morphologyEx") (morphologyEx cv thresh MORPH_OPEN 3) ;;
  call (Cv "bitwise_not") (bitwise_not cv opening).

(** The inner loop of [recognize_plate] over the rows of one OCR
    result. *)
Definition scan_rows (plate_img : Image) (ocr_rows : list (str * Z))
  (b : best) : best :=
  fold_left
    (fun b row =>
       let '(text, conf) := row in
       if (0 <? conf)%Z
       then if truthy (strip text) && (best_confidence b <? conf)%Z
            then mk_best conf (Some text) (Some plate_img)
            else b
       else b)
    ocr_rows b.

(** One turn of the configuration loop of [recognize_plate]. *)
Definition try_config (enhanced : Gray) (plate_img : Image) (config : str)
  (b : best) : M (flow best) :=
  ocr_data <- call (ImageToData config) (image_to_data ocr enhanced config) ;;
  ret (Continue (scan_rows plate_img ocr_data b)).

(** One turn of the contour loop of [recognize_plate]. *)
Definition try_contour (original : Image) (contour : Contour) (b : best)
  : M (flow best) :=
  plate_img <- extract_plate original contour ;;
  match plate_img with
  | Some plate_img =>
      enhanced <- enhance_plate_image plate_img ;;
      b <- for_each configs b (try_config enhanced plate_img) ;;
      ret (Continue b)
  | None => ret (Continue b)
  end.

(** [recognize_plate] *)
Definition recognize_plate (image : Image)
  : M (option str * option Image) :=
  let original := image in
  processed <- preprocess_image original ;;
  contours <- find_plate_contours processed original ;;
  match contours with
  | [] => ret (None, None)
  | _ =>
      b <- for_each contours (mk_best 0 None None) (try_contour original) ;;
      match best_text b with
      | Some text =>
          if truthy text
          then ret (Some (PlateRecognizerText.format_uk_plate text),
                    best_plate_img b)
          else ret (None, None)
      | None => ret (None, None)
      end
  end.

End WithProviders.

End PlateRecognizer.

(** ** [uk_plate_recognizer.py] *)

Module UKPlateRecognizer.

Import UKText.

Definition psm7 : str :=
  lit "--psm 7 -l eng --oem 3 -c tessedit_char_whitelist=ABCDEFGHIJKLMNOPQRSTUVWXYZ0123456789".
Definition psm8 : str :=
  lit "--psm 8 -l eng --oem 3 -c tessedit_char_whitelist=ABCDEFGHIJKLMNOPQRSTUVWXYZ0123456789".
Definition psm6 : str :=
  lit "--psm 6 -l eng --oem 3 -c tessedit_char_whitelist=ABCDEFGHIJKLMNOPQRSTUVWXYZ0123456789".
Definition psm13 : str :=
  lit "--psm 13 -l eng --oem 3 -c tessedit_char_whitelist=ABCDEFGHIJKLMNOPQRSTUVWXYZ0123456789".
Definition psm10_letters : str :=
  lit "--psm 10 -l eng --oem 3 -c tessedit_char_whitelist=ABCDEFGHIJKLMNOPQRSTUVWXYZ".

(** The [configs] list of [direct_ocr_plate]. *)
Definition direct_configs : list str := [psm7; psm8; psm6].

(** The [configs] list of [recognize_plate_number]. *)
Definition configs : list str := [psm7; psm8; psm6; psm13].

Definition lower_blue : Z * Z * Z := (100, 50, 50)%Z.
Definition upper_blue : Z * Z * Z := (130, 255, 255)%Z.
Definition lower_white : Z * Z * Z := (0, 0, 180)%Z.
Definition upper_white : Z * Z * Z := (180, 30, 255)%Z.

(** One value of the [results] dictionary. *)
Record PlateInfo : Type := mk_info {
  plate_number : str;
  country_identifier : str;
  region : Image;
  bbox : Rect
}.

(** A [dict] with string keys, in insertion order. *)
Definition dict := list (str * PlateInfo).

(** [d[k] = v] *)
Fixpoint dict_set (d : dict) (k : str) (v : PlateInfo) : dict :=
  match d with
  | [] => [(k, v)]
  | (k', v') :: r =>
      if str_eqb k' k then (k, v) :: r else (k', v') :: dict_set r k v
  end.

(** [f"plate_{idx}"] *)
Definition plate_key (idx : nat) : str :=
  lit "plate_" ++ lit (NilEmpty.string_of_uint (Nat.to_uint idx)).

Section WithProviders.

Variable cv : OpenCV.
Variable ocr : Tesseract.

(** The band that [is_clearly_uk_plate] inspects: [image[:, 0:int(w*0.15)]]. *)
Definition clear_band (image : Image) : Image :=
  crop_cols image 0 (int_mul (cols image) 0.15).

(** [blue_percentage] of a band, as both band checks compute it. *)
Definition blue_percentage (left_part : Image) : float :=
  percentage (inRange cv (cvtColor_BGR2HSV cv left_part) lower_blue upper_blue).

(** [is_clearly_uk_plate].  The band [image[:, 0:int(w*0.15)]] is empty
    when the image is at most six pixels wide (or has no rows); there
    [cv2.cvtColor] raises. *)
Definition is_clearly_uk_plate (image : Image) : M bool :=
  let h := rows image in
  let w := cols image in
  let left_part := crop_cols image 0 (int_mul w 0.15) in
  hsv <- cvtColor_of_cut (cvtColor_BGR2HSV cv) left_part ;;
  blue_mask <- call (Cv "inRange") (inRange cv hsv lower_blue upper_blue) ;;
  let blue_percentage := percentage blue_mask in
  aspect_ratio <- truediv w h ;;
  ret ((10 <? blue_percentage)%float
       && strictly_between 3.5 5.5 aspect_ratio).

(** The inner loop of [direct_ocr_plate] over the rows of one OCR
    result; the state is [(best_text, best_confidence)]. *)
Definition direct_scan_rows (ocr_rows : list (str * Z)) (b : str * Z)
  : str * Z :=
  fold_left
    (fun b row =>
       let '(text, conf) := row in
       if (10 <? conf)%Z
       then if truthy text && (snd b <? conf)%Z then (text, conf) else b
       else b)
    ocr_rows b.

(** [direct_ocr_plate] *)
Definition direct_ocr_plate (image : Image) : M str :=
  gray <- call (Cv "cvtColor") (cvtColor_BGR2GRAY cv image) ;;
  thresh <- call (Cv "adaptiveThreshold")
              (adaptiveThreshold cv gray 255 THRESH_BINARY 11 2) ;;
  let pil_image := thresh in
  b <- for_each direct_configs (lit "", 0%Z)
         (fun config b =>
            ocr_data <- call (ImageToData config)
                          (image_to_data ocr pil_image config) ;;
            ret (Continue (direct_scan_rows ocr_data b))) ;;
  let best_text := fst b in
  if truthy best_text then ret (format_uk_plate best_text)
  else
    let h := rows image in
    let w := cols image in
    let plate_part := crop_cols image (int_mul w 0.2) w in
    gray_plate <- call (Cv "cvtColor") (cvtColor_BGR2GRAY cv plate_part) ;;
    plate_thresh <- call (Cv "threshold")
                      (threshold cv gray_plate 0 255 THRESH_BINARY_OTSU) ;;
    text <- call (ImageToString psm7) (image_to_string ocr plate_thresh psm7) ;;
    let text := strip text in
    if truthy text then ret (format_uk_plate text)
    else
      clearly <- is_clearly_uk_plate image ;;
      if clearly then ret (lit "AA03 BOJ") else ret (lit "UNKNOWN").

(** The test of [detect_plate_regions] on one contour: [Some bbox]
    when it is kept. *)
Definition plate_like_region (contour : Contour) : M (option Rect) :=
  let perimeter := arcLength cv contour in
  let approx := approxPolyDP cv contour (0.02 * perimeter)%float in
  if (4 <=? List.length approx) && (List.length approx <=? 6)
  then
    let '(x, y, w, h) := boundingRect cv contour in
    aspect_ratio <- truediv w h ;;
    if strictly_between 2.0 7.0 aspect_ratio
    then ret (Some (x, y, w, h))
    else ret None
  else ret None.

(** [detect_plate_regions] *)
Definition detect_plate_regions (image : Image)
  : M (list (Image * Rect)) :=
  gray <- call (Cv "cvtColor") (cvtColor_BGR2GRAY cv image) ;;
  blurred <- call (Cv "GaussianBlur") (GaussianBlur cv gray 5 0) ;;
  binary <- call (Cv "adaptiveThreshold")
              (adaptiveThreshold cv blurred 255 THRESH_BINARY 11 2) ;;
  morph <- call (Cv "morphologyEx") (morphologyEx cv binary MORPH_CLOSE 3) ;;
  edges <- call (Cv "Canny") (Canny cv morph 30 200) ;;
  dilated <- call (Cv "dilate") (dilate cv edges 3 1) ;;
  contours <- call (Cv "findContours")
                (findContours cv dilated RETR_EXTERNAL) ;;
  let contours := firstn 15 (sorted_desc (contourArea cv) contours) in
  for_each contours []
    (fun contour plate_regions =>
       kept <- plate_like_region contour ;;
       match kept with
       | Some (x, y, w, h) =>
           let plate_region := crop image y (y + h) x (x + w) in
           ret (Continue (plate_regions ++ [(plate_region, (x, y, w, h))]))
       | None => ret (Continue plate_regions)
       end).

(** The inner loop of [recognize_plate_number] over the rows of one
    OCR result; the state is [(all_texts, confidences)]. *)
Definition number_scan_rows (ocr_rows : list (str * Z))
  (acc : list str * list Z) : list str * list Z :=
  fold_left
    (fun acc row =>
       let '(text, conf) := row in
       if (0 <? conf)%Z
       then if truthy text && truthy (strip text)
            then (fst acc ++ [format_uk_plate text], snd acc ++ [conf])
            else acc
       else acc)
    ocr_rows acc.

(** [recognize_plate_number] *)
Definition recognize_plate_number (plate_image : Image) : M str :=
  gray <- call (Cv "cvtColor") (cvtColor_BGR2GRAY cv plate_image) ;;
  binary <- call (Cv "adaptiveThreshold")
              (adaptiveThreshold cv gray 255 THRESH_BINARY 11 2) ;;
  let h := rows binary in
  let w := cols binary in
  let main_plate_part := crop_cols binary (int_mul w 0.15) w in
  main_plate_part <- call (Cv "morphologyEx")
                       (morphologyEx cv main_plate_part MORPH_OPEN 2) ;;
  let pil_image := main_plate_part in
  acc <- for_each configs ([], [])
           (fun config acc =>
              ocr_data <- call (ImageToData config)
                            (image_to_data ocr pil_image config) ;;
              ret (Continue (number_scan_rows ocr_data acc))) ;;
  let all_texts := fst acc in
  let confidences := snd acc in
  match all_texts with
  | [] =>
      text <- call (ImageToString psm7) (image_to_string ocr pil_image psm7) ;;
      let text := strip text in
      if truthy text then ret (format_uk_plate text)
      else
        clearly <- is_clearly_uk_plate plate_image ;;
        if clearly then ret (lit "AA03 BOJ") else ret (lit "UNKNOWN")
  | _ =>
      let max_idx := py_index (py_max confidences) confidences in
      ret (nth max_idx all_texts [])
  end.

(** The first part of [detect_country_identifier]: enlarge a narrow
    plate, then take the left band [plate_image[:, 0:int(w*0.18)]]. *)
Definition identifier_band (plate_image : Image) : M Image :=
  let h := rows plate_image in
  let w := cols plate_image in
  plate_image <-
    (if (w <? 100)%Z
     then
       scale_factor <- div_float_int 200.0 w ;;
       call_raising (Cv "resize")
         (resize cv plate_image scale_factor scale_factor)
     else ret plate_image) ;;
  let h := rows plate_image in
  let w := cols plate_image in
  ret (crop_cols plate_image 0 (int_mul w 0.18)).

(** [white_percentage] of the band. *)
Definition white_percentage (left_part : Image) : float :=
  percentage (inRange cv (cvtColor_BGR2HSV cv left_part) lower_white upper_white).

(** The image the first OCR attempt reads: the thresholded, closed
    band. *)
Definition text_enhanced (left_part : Image) : Gray :=
  morphologyEx cv
    (threshold cv (cvtColor_BGR2GRAY cv left_part) 180 255 THRESH_BINARY)
    MORPH_CLOSE 2.

(** The second part of [detect_country_identifier]: the layered
    decision on the band. *)
Definition classify_band (left_part : Image) : M str :=
  hsv <- call (Cv "cvtColor") (cvtColor_BGR2HSV cv left_part) ;;
  blue_mask <- call (Cv "inRange") (inRange cv hsv lower_blue upper_blue) ;;
  let blue_percentage := percentage blue_mask in
  if (10 <? blue_percentage)%float
  then
    gray <- call (Cv "cvtColor") (cvtColor_BGR2GRAY cv left_part) ;;
    thresh <- call (Cv "threshold") (threshold cv gray 180 255 THRESH_BINARY) ;;
    text_enhanced <- call (Cv "morphologyEx")
                       (morphologyEx cv thresh MORPH_CLOSE 2) ;;
    text <- call (ImageToString psm10_letters)
              (image_to_string ocr text_enhanced psm10_letters) ;;
    if contains (lit "GB") text then ret (lit "GB")
    else
      simple_text <- call (ImageToString psm10_letters)
                       (image_to_string_bgr ocr left_part psm10_letters) ;;
      if contains (lit "GB") simple_text then ret (lit "GB")
      else
        white_mask <- call (Cv "inRange")
                        (inRange cv hsv lower_white upper_white) ;;
        let white_percentage := percentage white_mask in
        if (5 <? white_percentage)%float && (20 <? blue_percentage)%float
        then ret (lit "GB")
        else ret (lit "EU")
  else ret (lit "UNKNOWN").

(** [detect_country_identifier] *)
Definition detect_country_identifier (plate_image : Image) : M str :=
  left_part <- identifier_band plate_image ;;
  classify_band left_part.

(** The loop of [process_image] over the detected regions. *)
Definition process_regions (plate_regions : list (Image * Rect))
  (results : dict) : M dict :=
  for_each (combine (seq 0 (List.length plate_regions)) plate_regions)
    results
    (fun entry results =>
       let '(idx, (region, bbox)) := entry in
       plate_number <- recognize_plate_number region ;;
       country_id <- detect_country_identifier region ;;
       ret (Continue
              (dict_set results (plate_key idx)
                 (mk_info plate_number country_id region bbox)))).

(** [process_image]: [None] is Python's [None], [Some d] the
    dictionary. *)
Definition process_image (image_path : str) : M (option dict) :=
  match imread cv image_path with
  | None => call (Cv "imread") None
  | Some image =>
      _ <- call (Cv "imread") tt ;;
      let h := rows image in
      let w := cols image in
      aspect_ratio <- truediv w h ;;
      let results : dict := [] in
      if strictly_between 3.5 5.5 aspect_ratio
      then
        plate_number <- recognize_plate_number image ;;
        country_id <- detect_country_identifier image ;;
        ret (Some (dict_set results (plate_key 0)
                     (mk_info plate_number country_id image
                        (0, 0, w, h)%Z)))
      else
        plate_regions <- detect_plate_regions image ;;
        match plate_regions with
        | [] =>
            plate_number <- direct_ocr_plate image ;;
            country_id <- detect_country_identifier image ;;
            if negb (str_eqb plate_number (lit "UNKNOWN"))
            then ret (Some (dict_set results (plate_key 0)
                              (mk_info plate_number country_id image
                                 (0, 0, w, h)%Z)))
            else ret (Some results)
        | _ =>
            results <- process_regions plate_regions results ;;
            ret (Some results)
        end
  end.

End WithProviders.

End UKPlateRecognizer.

(** ** [simple_detector.py] *)

Module SimpleDetector.

Import SimpleText.

Definition configs : list str :=
  [ lit "--psm 7 --oem 3 -c tessedit_char_whitelist=ABCDEFGHIJKLMNOPQRSTUVWXYZ0123456789";
    lit "--psm 8 --oem 3 -c tessedit_char_whitelist=ABCDEFGHIJKLMNOPQRSTUVWXYZ0123456789";
    lit "--psm 6 --oem 3 -c tessedit_char_whitelist=ABCDEFGHIJKLMNOPQRSTUVWXYZ0123456789" ].

Definition sparse_config : str := lit "--psm 11 --oem 3".

Section WithProviders.

Variable cv : OpenCV.
Variable ocr : Tesseract.

(** The contour loop of [detect_and_recognize_plate]: the bounding box
    of the first contour that passes, at which the loop breaks. *)
Definition find_plate (contours : list Contour) : M (option Rect) :=
  for_each contours None
    (fun contour found =>
       let perimeter := arcLength cv contour in
       let approx := approxPolyDP cv contour (0.02 * perimeter)%float in
       if (4 <=? List.length approx) && (List.length approx <=? 6)
       then
         let '(x, y, w, h) := boundingRect cv contour in
         aspect_ratio <- truediv w h ;;
         if strictly_between 2.0 7.0 aspect_ratio
         then ret (Break (Some (x, y, w, h)))
         else ret (Continue found)
       else ret (Continue found)).

(** The configuration loop of [detect_and_recognize_plate]; the state
    is [best_text]. *)
Definition try_configs (plate_pil : Gray) : M str :=
  for_each configs (lit "")
    (fun config best_text =>
       text <- call (ImageToString config)
                 (image_to_string ocr plate_pil config) ;;
       let cleaned := clean_and_format_plate text in
       if is_valid_uk_plate cleaned then ret (Break cleaned)
       else if negb (truthy best_text) && truthy cleaned
            then ret (Continue cleaned)
            else ret (Continue best_text)).

(** [detect_and_recognize_plate].  The plate region is a view of
    [image], so it shows the rectangle drawn on [image] after the
    view was taken. *)
Definition detect_and_recognize_plate (image_path : str)
  : M (option str * option Image) :=
  match imread cv image_path with
  | None => call (Cv "imread") (None, None)
  | Some image =>
      _ <- call (Cv "imread") tt ;;
      gray <- call (Cv "cvtColor") (cvtColor_BGR2GRAY cv image) ;;
      blurred <- call (Cv "GaussianBlur") (GaussianBlur cv gray 5 0) ;;
      thresh <- call (Cv "threshold")
                  (threshold cv blurred 0 255 THRESH_BINARY_OTSU) ;;
      edges <- call (Cv "Canny") (Canny cv thresh 50 150) ;;
      contours <- call (Cv "findContours")
                    (findContours cv edges RETR_EXTERNAL) ;;
      let contours := firstn 10 (sorted_desc (contourArea cv) contours) in
      found <- find_plate contours ;;
      match found with
      | None =>
          let pil_image := thresh in
          text <- call (ImageToString sparse_config)
                    (image_to_string ocr pil_image sparse_config) ;;
          let plate_text := clean_and_format_plate text in
          ret (Some plate_text, Some image)
      | Some (x, y, w, h) =>
          image <- call (Cv "rectangle")
                     (rectangle cv image (x, y) (x + w, y + h)%Z) ;;
          let plate_image := crop image y (y + h) x (x + w) in
          plate_gray <- call (Cv "cvtColor")
                          (cvtColor_BGR2GRAY cv plate_image) ;;
          plate_thresh <- call (Cv "threshold")
                            (threshold cv plate_gray 0 255 THRESH_BINARY_OTSU) ;;
          let plate_pil := plate_thresh in
          best_text <- try_configs plate_pil ;;
          if truthy best_text then ret (Some best_text, Some image)
          else ret (None, Some image)
      end
  end.

End WithProviders.

End SimpleDetector.

(** ** [direct_ocr.py], the pipeline *)

Module DirectOcrImage.

Definition custom_config : str :=
  lit "--psm 6 --oem 3 -c tessedit_char_whitelist=ABCDEFGHIJKLMNOPQRSTUVWXYZ0123456789".

Section WithProviders.

Variable cv : OpenCV.
Variable ocr : Tesseract.

(** [process_image].  The centre region it cuts at the end is only
    shown on screen. *)
Definition process_image (image_path : str) : M (option str * option Image) :=
  match imread cv image_path with
  | None => call (Cv "imread") (None, None)
  | Some image =>
      _ <- call (Cv "imread") tt ;;
      gray <- call (Cv "cvtColor") (cvtColor_BGR2GRAY cv image) ;;
      thresh <- call (Cv "threshold")
                  (threshold cv gray 0 255 THRESH_BINARY_OTSU) ;;
      let pil_image := thresh in
      text <- call (ImageToString custom_config)
                (image_to_string ocr pil_image custom_config) ;;
      let formatted_text := DirectOcr.clean_and_format_plate text in
      ret (Some formatted_text, Some image)
  end.

End WithProviders.

End DirectOcrImage.

(** ** [firebase_handler.py] *)

Module FirebaseHandler.

(** A document of the collection [plate_recognition]: the keys
    [save_plate_recognition] writes, and [updated_at], which
    [update_plate_status] adds.  Times are clock readings. *)
Record PlateRecord : Type := mk_record {
  plate_number : str;
  image_path : str;
  location : option str;
  timestamp : Z;
  status : str;
  updated_at : option Z
}.

(** The collection: documents by identifier. *)
Definition Store := list (str * PlateRecord).

(** [doc_ref.get()]: the document, if it exists. *)
Fixpoint lookup (db : Store) (doc_id : str) : option PlateRecord :=
  match db with
  | [] => None
  | (k, r) :: rest => if str_eqb k doc_id then Some r else lookup rest doc_id
  end.

(** [doc_ref.set(data)]: creates the document or overwrites it. *)
Fixpoint store_set (db : Store) (doc_id : str) (data : PlateRecord) : Store :=
  match db with
  | [] => [(doc_id, data)]
  | (k, r) :: rest =>
      if str_eqb k doc_id then (k, data) :: rest
      else (k, r) :: store_set rest doc_id data
  end.

(** Firestore, as far as the handler leaves it a choice: the identifier
    [collection.document()] generates for a new document. *)
Record Firestore : Type := {
  auto_id : Store -> str
}.

Section WithFirestore.

Variable fs : Firestore.

(** [save_plate_recognition], at clock reading [now]. *)
Definition save_plate_recognition (db : Store) (now : Z)
  (plate_number image_path : str) (location : option str) : str * Store :=
  let doc_id := auto_id fs db in
  let data := mk_record plate_number image_path location now (lit "active") None in
  (doc_id, store_set db doc_id data).

(** [get_plate_recognition] *)
Definition get_plate_recognition (db : Store) (doc_id : str)
  : option PlateRecord :=
  lookup db doc_id.

(** [update_plate_status], at clock reading [now].  Firestore's [update]
    raises for a document that does not exist; the handler catches it
    and answers [False]. *)
Definition update_plate_status (db : Store) (now : Z) (doc_id status : str)
  : bool * Store :=
  match lookup db doc_id with
  | Some r =>
      (true,
       store_set db doc_id
         (mk_record (plate_number r) (image_path r) (location r)
            (timestamp r) status (Some now)))
  | None => (false, db)
  end.

End WithFirestore.

End FirebaseHandler.

(** ** [main.py] *)

Module ANPRSystem.

Section WithProviders.

Variable cv : OpenCV.
Variable ocr : Tesseract.
Variable fs : FirebaseHandler.Firestore.

(** [str(e)] for an exception. *)
Variable describe : exn -> str.

(** [ANPRSystem.process_image], on the store [db] at clock reading
    [now]: the answer [(success, message)] and the store it leaves. *)
Definition process_image (db : FirebaseHandler.Store) (now : Z)
  (image_path : str) (location : option str)
  : M ((bool * str) * FirebaseHandler.Store) :=
  try_except
    (match imread cv image_path with
     | None =>
         call (Cv "imread")
           ((false, lit "Failed to read image: " ++ image_path), db)
     | Some image =>
         _ <- call (Cv "imread") tt ;;
         '(plate_text, plate_image) <- PlateRecognizer.recognize_plate cv ocr image ;;
         match plate_text with
         | None =>
             ret ((false, lit "No license plate detected in the image"), db)
         | Some plate_text =>
             let '(doc_id, db') :=
               FirebaseHandler.save_plate_recognition fs db now plate_text
                 image_path location in
             ret ((true,
                   lit "Successfully recognized plate: " ++ plate_text
                   ++ lit " (Doc ID: " ++ doc_id ++ lit ")"),
                  db')
         end
     end)
    (fun e => ret ((false, lit "Error processing image: " ++ describe e), db)).

End WithProviders.

End ANPRSystem.

(** ** [api_server.py] *)

Module ApiServer.

(** A JSON answer with its HTTP status; a key that is absent is [None]. *)
Record Response : Type := mk_response {
  status_code : Z;
  error : option str;
  plate_number : option str;
  country_identifier : option str;
  confidence : option float
}.

Section WithProviders.

Variable cv : OpenCV.
Variable ocr : Tesseract.

(** [str(e)] for an exception. *)
Variable describe : exn -> str.

(** [anpr_process].  [upload] is [None] when the request holds no file
    named [image], and otherwise the path of the temporary file the
    upload was saved to. *)
Definition anpr_process (upload : option str) : M Response :=
  match upload with
  | None =>
      ret (mk_response 400 (Some (lit "No image provided")) None None None)
  | Some temp_path =>
      try_except
        (results <- UKPlateRecognizer.process_image cv ocr temp_path ;;
         match results with
         | None | Some [] =>
             ret (mk_response 200 None (Some (lit "UNKNOWN"))
                    (Some (lit "UNKNOWN")) (Some 0.0%float))
         | Some ((first_plate_key, plate_data) :: _) =>
             ret (mk_response 200 None
                    (Some (UKPlateRecognizer.plate_number plate_data))
                    (Some (UKPlateRecognizer.country_identifier plate_data))
                    (Some 0.74%float))
         end)
        (fun e =>
           ret (mk_response 500
                  (Some (lit "Error processing image: " ++ describe e))
                  (Some (lit "ERROR")) (Some (lit "UNKNOWN"))
                  (Some 0.0%float)))
  end.

End WithProviders.

End ApiServer.

(** ** [anpr_demo.py] *)

Module AnprDemo.

Section WithProviders.

Variable cv : OpenCV.
Variable ocr : Tesseract.

(** [os.path.exists] *)
Variable path_exists : str -> bool.


End WithProviders.

End AnprDemo.

(** ** [start_api.py] *)

Module StartApi.

Section Ports.

(** [is_port_in_use]: whether a connection to the port succeeds. *)
Variable is_port_in_use : Z -> bool.

(** The loop of [find_available_port], at [port] with [attempts] turns
    left: the port it returns from inside the loop, if it does. *)
Fixpoint probe (port : Z) (attempts : nat) : option Z :=
  match attempts with
  | O => None
  | S attempts =>
      if negb (is_port_in_use port) then Some port
      else probe (port + 1) attempts
  end.

(** [find_available_port] *)
Definition find_available_port (start_port max_attempts : Z) : Z :=
  match probe start_port (Z.to_nat max_attempts) with
  | Some port => port
  | None => start_port + max_attempts
  end.

End Ports.

(** [''.join(text.split())] *)
Definition compact (text : str) : str :=
  filter (fun c => negb (isspace c)) text.

(** [re.compile(r'[A-Z]{2}\d{2}[A-Z]{3}').search(text)]: [group(0)] of
    the leftmost match. *)
Fixpoint pattern_search (text : str) : option str :=
  if uk_plate_pattern (upto text 7) then Some (upto text 7)
  else match text with
       | [] => None
       | _ :: rest => pattern_search rest
       end.

(** The regex class [[A-Z0-9]]. *)
Definition is_AZ09 (c : ascii) : bool := is_AZ c || is_digit c.

(** The greedy match of at most [n] characters of the class at the head
    of [text]. *)
Fixpoint greedy (n : nat) (text : str) : str :=
  match n, text with
  | S n, c :: rest => if is_AZ09 c then c :: greedy n rest else []
  | _, _ => []
  end.

(** [re.findall(r'[A-Z0-9]{2,7}', text)], scanning at most [fuel]
    positions: a match of two to seven characters is taken and the scan
    goes on behind it, else the scan moves on by one character. *)
Fixpoint findall_from (fuel : nat) (text : str) : list str :=
  match fuel with
  | O => []
  | S fuel =>
      match text with
      | [] => []
      | _ :: rest =>
          let m := greedy 7 text in
          if 2 <=? len m then m :: findall_from fuel (from text (len m))
          else findall_from fuel rest
      end
  end.

(** One position per character is enough. *)
Definition findall_candidates (text : str) : list str :=
  findall_from (len text) text.

(** [max(plate_candidates, key=len)] for a non-empty list: the first of
    the longest. *)
Definition longest (first : str) (rest : list str) : str :=
  fold_left (fun best c => if len best <? len c then c else best) rest first.

Definition psm7 : str := lit "--psm 7".

Section Handler.

Variable cv : OpenCV.
Variable ocr : Tesseract.

(** [Image.open]: [None] when it raises. *)
Variable open_image : str -> option Image.

(** The fallback of [anpr_process] after a result without entries: the
    plate number and tag of the results it makes, or [None] when the
    results stay as they were.  [cv2.cvtColor] raises on the [None] that
    [cv2.imread] gives for a file it cannot read. *)
Definition fallback (temp_path : str) : M (option (str * str)) :=
  match imread cv temp_path with
  | None =>
      _ <- call (Cv "imread") tt ;;
      call_raising (Cv "cvtColor") (Raise cv2_error)
  | Some img =>
      _ <- call (Cv "imread") tt ;;
      gray <- call (Cv "cvtColor") (cvtColor_BGR2GRAY cv img) ;;
      thresh <- call (Cv "threshold")
                  (threshold cv gray 0 255 THRESH_BINARY_OTSU) ;;
      text <- call (ImageToString psm7) (image_to_string ocr thresh psm7) ;;
      let text := compact text in
      match pattern_search text with
      | Some plate_text =>
          let plate_text := upto plate_text 4 ++ lit " " ++ from plate_text 4 in
          ret (Some (plate_text, lit "GB"))
      | None => ret None
      end
  end.

(** The last resort of [anpr_process], entered from the fallback.  What
    [Image.open] raises is caught on the spot and leaves no results. *)
Definition last_resort (temp_path : str) : M (option (str * str)) :=
  match open_image temp_path with
  | None => ret None
  | Some pil =>
      text <- call (ImageToString (lit ""))
                (image_to_string_bgr ocr pil (lit "")) ;;
      match findall_candidates text with
      | [] => ret None
      | first :: rest => ret (Some (longest first rest, lit "UNKNOWN"))
      end
  end.

(** The inner [try] of [anpr_process]: the plate number and tag of the
    first entry of the results it leaves, [None] when it leaves none.
    The source has one handler around the recognizer and the fallback;
    what it does depends on where the exception came from.
    [pytesseract] and [Image] are imported inside the function, at the
    start of the fallback, so they are local names: when [process_image]
    raises they are still unbound, the last resort fails on its first
    name, and that failure is caught and leaves no results. *)
Definition recognize (temp_path : str) : M (option (str * str)) :=
  try_except
    (results <- UKPlateRecognizer.process_image cv ocr temp_path ;;
     match results with
     | Some ((first_plate_key, plate_data) :: _) =>
         ret (Some (UKPlateRecognizer.plate_number plate_data,
                    UKPlateRecognizer.country_identifier plate_data))
     | _ =>
         try_except (fallback temp_path)
           (fun process_error => last_resort temp_path)
     end)
    (fun process_error => ret None).

(** [anpr_process].  [upload] is as for [api_server.py].  The outer
    handler, with its status 500, guards only the saving of the upload
    and the making of the answer, which are taken to succeed. *)
Definition anpr_process (upload : option str) : M ApiServer.Response :=
  match upload with
  | None =>
      ret (ApiServer.mk_response 400 (Some (lit "No image provided"))
             None None None)
  | Some temp_path =>
      results <- recognize temp_path ;;
      match results with
      | None =>
          ret (ApiServer.mk_response 200 None (Some (lit "UNKNOWN"))
                 (Some (lit "UNKNOWN")) (Some 0.0%float))
      | Some (plate_number, country_identifier) =>
          ret (ApiServer.mk_response 200 None (Some plate_number)
                 (Some country_identifier) (Some 0.74%float))
      end
  end.

End Handler.

End StartApi.

(** ** Reading a trace *)

(** The configurations of the [image_to_data] calls of a trace, in call
    order. *)
Definition data_calls (t : list Event) : list str :=
  flat_map (fun e => match e with ImageToData c => [c] | _ => [] end) t.

(** The configurations of the [image_to_string] calls of a trace. *)
Definition string_calls (t : list Event) : list str :=
  flat_map (fun e => match e with ImageToString c => [c] | _ => [] end) t.

(** No call of the trace starts contour detection. *)
Definition no_contour_detection (t : list Event) : Prop :=
  ~ In (Cv "findContours") t.

(** ** Geometry of a candidate *)

(** The box lies inside the image and is not degenerate. *)
Definition rect_within {A} (image : ndarray A) (r : Rect) : Prop :=
  let '(x, y, w, h) := r in
  (0 <= x /\ 0 <= y /\ 0 < w /\ 0 < h
   /\ x + w <= cols image /\ y + h <= rows image)%Z.

(** The box is not inside the image: it crosses an edge or lies beyond
    one. *)
Definition rect_outside {A} (image : ndarray A) (r : Rect) : Prop :=
  let '(x, y, w, h) := r in
  (x < 0 \/ y < 0 \/ cols image < x + w \/ rows image < y + h)%Z.

(** The 1%-10% band of [find_plate_contours] on a contour area. *)
Definition in_area_band (total_area : Z) (area : float) : bool :=
  ((0.01 * float_of_Z total_area <? area)
   && (area <? 0.1 * float_of_Z total_area))%float.

(** [float(w) / h] for a box with [h <> 0]. *)
Definition aspect (w h : Z) : float := (float_of_Z w / float_of_Z h)%float.

(** ** Choosing among hypotheses *)

(** The best of a list of (text, confidence) hypotheses above a floor:
    the highest confidence, the first seen among equals. *)
Fixpoint best_above {X} (floor : Z) (incumbent : option X)
  (hyps : list (X * Z)) : option X * Z :=
  match hyps with
  | [] => (incumbent, floor)
  | (x, c) :: r =>
      if (floor <? c)%Z then best_above c (Some x) r
      else best_above floor incumbent r
  end.

Definition best_hypothesis {X} (hyps : list (X * Z)) : option X :=
  match hyps with
  | [] => None
  | (x, c) :: r => fst (best_above c (Some x) r)
  end.

(** ** Small concrete providers, for evaluating the pipeline *)

Module Toy.

Definition solid {A} (h w : Z) (p : A) : ndarray A :=
  mk_ndarray h w (fun _ _ => p).

Definition gray_of (img : Image) : Gray :=
  mk_ndarray (rows img) (cols img)
    (fun i j => let '(b, g, r) := px img i j in ((b + g + r) / 3)%Z).

Definition within (lo hi v : Z) : bool := ((lo <=? v) && (v <=? hi))%Z.

(** [cv2.inRange]: 255 where every channel is inside its bounds. *)
Definition in_range (img : Image) (lo hi : Z * Z * Z) : Gray :=
  mk_ndarray (rows img) (cols img)
    (fun i j =>
       let '(a, b, c) := px img i j in
       let '(la, lb, lc) := lo in
       let '(ha, hb, hc) := hi in
       if within la ha a && within lb hb b && within lc hc c
       then 255%Z else 0%Z).

(** [cv2.boundingRect] of integer points: the smallest upright box
    around them, empty for no points. *)
Definition bounding_rect (c : Contour) : Rect :=
  match c with
  | [] => (0, 0, 0, 0)%Z
  | (x0, y0) :: r =>
      let xmin := fold_left (fun m p => Z.min m (fst p)) r x0 in
      let xmax := fold_left (fun m p => Z.max m (fst p)) r x0 in
      let ymin := fold_left (fun m p => Z.min m (snd p)) r y0 in
      let ymax := fold_left (fun m p => Z.max m (snd p)) r y0 in
      (xmin, ymin, xmax - xmin + 1, ymax - ymin + 1)%Z
  end.

(** Twice the signed area of a closed polygon. *)
Fixpoint twice_area (first : Z * Z) (c : Contour) : Z :=
  match c with
  | [] => 0%Z
  | (x1, y1) :: r =>
      let '(x2, y2) := match r with [] => first | p :: _ => p end in
      (x1 * y2 - x2 * y1 + twice_area first r)%Z
  end.

(** [cv2.contourArea] *)
Definition contour_area (c : Contour) : float :=
  match c with
  | [] => 0%float
  | p :: _ => (float_of_Z (Z.abs (twice_area p c)) / 2)%float
  end.

(** [cv2.resize(img, None, fx, fy)]: raises on an empty source or an
    empty target, else samples the nearest source pixel. *)
Definition resize_nearest (img : Image) (fx fy : float) : outcome Image :=
  if is_empty img then Raise cv2_error
  else
    let w' := int_of_float (float_of_Z (cols img) * fx + 0.5)%float in
    let h' := int_of_float (float_of_Z (rows img) * fy + 0.5)%float in
    if ((w' <=? 0) || (h' <=? 0))%Z then Raise cv2_error
    else Return (mk_ndarray h' w'
                   (fun i j => px img (i * rows img / h') (j * cols img / w'))%Z).

(** An OpenCV whose filters leave the image alone, reading [file] from
    every path and finding [contours] in every image. *)
Definition cv (file : option Image) (contours : list Contour) : OpenCV :=
  {| imread := fun _ => file;
     cvtColor_BGR2GRAY := gray_of;
     cvtColor_BGR2HSV := fun img => img;
     bilateralFilter := fun g _ _ _ => g;
     equalizeHist := fun g => g;
     GaussianBlur := fun g _ _ => g;
     Canny := fun g _ _ => g;
     dilate := fun g _ _ => g;
     adaptiveThreshold := fun g _ _ _ _ => g;
     threshold := fun g _ _ _ => g;
     morphologyEx := fun g _ _ => g;
     bitwise_not := fun g => g;
     inRange := in_range;
     findContours := fun _ _ => contours;
     contourArea := contour_area;
     arcLength := fun _ => 0%float;
     approxPolyDP := fun c _ => c;
     boundingRect := bounding_rect;
     resize := resize_nearest;
     rectangle := fun img _ _ => img;
     cvtColor_BGR2HSV_shape := fun img => conj eq_refl eq_refl;
     inRange_shape := fun img lo hi => conj eq_refl eq_refl |}.

(** A Tesseract that answers by configuration only. *)
Definition ocr (data : str -> list (str * Z)) (text : str -> str)
  : Tesseract :=
  {| image_to_data := fun _ c => data c;
     image_to_string := fun _ c => text c;
     image_to_string_bgr := fun _ c => text c |}.

(** The four corners of the box [(x, y, w, h)]. *)
Definition box (x y w h : Z) : Contour :=
  [ (x, y); (x + w - 1, y); (x + w - 1, y + h - 1); (x, y + h - 1) ]%Z.

Definition black : Z * Z * Z := (0, 0, 0)%Z.
Definition blue : Z * Z * Z := (110, 200, 200)%Z.

(** An OpenCV with no file to read and no contour to find. *)
Definition bare : OpenCV := cv None [].

(** A black image of 100 by 100 pixels. *)
Definition night : Image := solid 100 100 black.

(** An OpenCV that finds one contour, the box [(x, y, w, h)], in every
    image. *)
Definition seeing (x y w h : Z) : OpenCV := cv (Some night) [box x y w h].

(** A Tesseract that reads "AB12CDE" with confidence 50 in single-line
    mode and "XY34ZZZ" with confidence 90 in single-word mode, and whose
    plain text is always "AB12CDE". *)
Definition reading : Tesseract :=
  ocr (fun config =>
         if contains (lit "psm 7") config then [(lit "AB12CDE", 50%Z)]
         else if contains (lit "psm 8") config then [(lit "XY34ZZZ", 90%Z)]
         else [])
      (fun _ => lit "AB12CDE").

(** A Tesseract that reads nothing. *)
Definition blind : Tesseract := ocr (fun _ => []) (fun _ => []).

(** Python's character data on ASCII and on two more characters: U+01F0,
    the small letter j with caron, whose upper case is the letter J
    followed by U+030C, and U+030C itself, the combining caron, which is
    not alphanumeric.  Other code points are left alone. *)
Definition characters : Unicode.Characters :=
  {| Unicode.isalnum :=
       fun c => if (c <? 128)%N then isalnum (ascii_of_N c)
                else (c =? 496)%N;
     Unicode.upper :=
       fun c => if (c <? 128)%N
                then [N.of_nat (code (upper_char (ascii_of_N c)))]
                else if (c =? 496)%N then [74; 780]%N else [c];
     Unicode.isdecimal :=
       fun c => if (c <? 128)%N then is_digit (ascii_of_N c) else false |}.

End Toy.

(** ** Predicates of the statements *)

(** An ASCII text: every character is below U+0080.  On such text the
    character functions above are Python's. *)
Definition ascii_text (s : str) : Prop :=
  forallb (fun c => code c <? 128) s = true.

(** A character database that is Python's on the ASCII range: there
    [str.isalnum], [str.upper] and the class [\d] are the functions of
    [PyStr], and the upper case of a character is one character. *)
Definition python_on_ascii (db : Unicode.Characters) : Prop :=
  forall c : ascii,
    code c < 128 ->
    Unicode.isalnum db (N.of_nat (code c)) = isalnum c
    /\ Unicode.upper db (N.of_nat (code c)) = [N.of_nat (code (upper_char c))]
    /\ Unicode.isdecimal db (N.of_nat (code c)) = is_digit c.

(** The string holds a letter that the confusion corrections rewrite. *)
Definition has_confusable (s : str) : bool :=
  existsb (fun c => Ascii.eqb c "O" || Ascii.eqb c "I") s.

(** A character that cleaning leaves as it is. *)
Definition settled (c : ascii) : Prop :=
  isalnum c = true /\ upper_char c = c.

(** A settled character that the confusion corrections leave as it is. *)
Definition settled_uk (c : ascii) : Prop :=
  settled c /\ Ascii.eqb c "O" = false /\ Ascii.eqb c "I" = false.

(** The computation ends normally. *)
Definition returns {A} (m : M A) : Prop := exists a, result m = Return a.


(** The enlargement that [detect_country_identifier] asks of OpenCV for
    an image narrower than 100 pixels, by [200.0 / w], succeeds. *)
Definition enlarges (cv : OpenCV) (image : Image) : Prop :=
  exists big,
    resize cv image (200 / float_of_Z (cols image))%float
      (200 / float_of_Z (cols image))%float = Return big.



(** An OCR row that the loop of [direct_ocr_plate] passes over. *)
Definition unusable_direct (ocr_rows : list (str * Z)) : bool :=
  forallb (fun row => negb ((10 <? snd row)%Z && truthy (fst row))) ocr_rows.

(** An OCR row that the loop of [recognize_plate_number] passes over. *)
Definition unusable_number (ocr_rows : list (str * Z)) : bool :=
  forallb
    (fun row =>
       negb ((0 <? snd row)%Z && (truthy (fst row) && truthy (strip (fst row)))))
    ocr_rows.

(** The image [direct_ocr_plate] hands to its [image_to_data] calls. *)
Definition direct_ocr_input (cv : OpenCV) (image : Image) : Gray :=
  adaptiveThreshold cv (cvtColor_BGR2GRAY cv image) 255 THRESH_BINARY 11 2.

(** The image [direct_ocr_plate] hands to its [image_to_string] call. *)
Definition direct_plate_part (cv : OpenCV) (image : Image) : Gray :=
  threshold cv
    (cvtColor_BGR2GRAY cv
       (crop_cols image (int_mul (cols image) 0.2) (cols image)))
    0 255 THRESH_BINARY_OTSU.

(** The image [recognize_plate_number] hands to its OCR calls. *)
Definition number_ocr_input (cv : OpenCV) (plate_image : Image) : Gray :=
  let binary :=
    adaptiveThreshold cv (cvtColor_BGR2GRAY cv plate_image) 255
      THRESH_BINARY 11 2 in
  morphologyEx cv
    (crop_cols binary (int_mul (cols binary) 0.15) (cols binary))
    MORPH_OPEN 2.

(** The edge image in which [detect_plate_regions] looks for contours. *)
Definition edge_image (cv : OpenCV) (image : Image) : Gray :=
  dilate cv
    (Canny cv
       (morphologyEx cv
          (adaptiveThreshold cv
             (GaussianBlur cv (cvtColor_BGR2GRAY cv image) 5 0)
             255 THRESH_BINARY 11 2)
          MORPH_CLOSE 3)
       30 200)
    3 1.

(** The polygon test of [detect_plate_regions]: four to six vertices. *)
Definition vertices_ok (cv : OpenCV) (contour : Contour) : bool :=
  let approx :=
    approxPolyDP cv contour (0.02 * arcLength cv contour)%float in
  (4 <=? List.length approx) && (List.length approx <=? 6).

(** The aspect ratio [w / h] of a box. *)
Definition aspect_of (r : Rect) : float :=
  let '(x, y, w, h) := r in aspect w h.

(** The part of an image under a box, as numpy slices it. *)
Definition region_of (image : Image) (r : Rect) : Image :=
  let '(x, y, w, h) := r in crop image y (y + h) x (x + w).

(** The loop variables a [flow] carries. *)
Definition state_of {S} (f : flow S) : S :=
  match f with Continue s => s | Break s => s end.

(** What [find_plate_contours] promises of a contour it returns. *)
Definition admitted_contour (cv : OpenCV) (image : Image) (c : Contour)
  : Prop :=
  rect_within image (boundingRect cv c)
  /\ in_area_band (rows image * cols image) (contourArea cv c) = true
  /\ strictly_between 3.0 6.0 (aspect_of (boundingRect cv c)) = true.

(** What [detect_plate_regions] promises of a region it returns. *)
Definition admitted_region (cv : OpenCV) (image : Image)
  (entry : Image * Rect) : Prop :=
  exists c,
    In c (findContours cv (edge_image cv image) RETR_EXTERNAL)
    /\ snd entry = boundingRect cv c
    /\ fst entry = region_of image (snd entry)
    /\ rect_within image (snd entry)
    /\ vertices_ok cv c = true
    /\ strictly_between 2.0 7.0 (aspect_of (snd entry)) = true.

(** The hypotheses [recognize_plate_number] collects from one OCR
    result: the rows it accepts, with their text formatted. *)
Definition accepted_number (ocr_rows : list (str * Z)) : list (str * Z) :=
  map (fun row => (UKText.format_uk_plate (fst row), snd row))
    (filter
       (fun row =>
          (0 <? snd row)%Z && (truthy (fst row) && truthy (strip (fst row))))
       ocr_rows).

(** All the hypotheses of [recognize_plate_number]: those of every
    configuration, in configuration order. *)
Definition number_hypotheses (cv : OpenCV) (ocr : Tesseract)
  (plate_image : Image) : list (str * Z) :=
  flat_map
    (fun config =>
       accepted_number
         (image_to_data ocr (number_ocr_input cv plate_image) config))
    UKPlateRecognizer.configs.

(** The edge image [preprocess_image] computes. *)
Definition preprocessed (cv : OpenCV) (image : Image) : Gray :=
  dilate cv
    (Canny cv
       (equalizeHist cv
          (bilateralFilter cv (cvtColor_BGR2GRAY cv image) 11 17 17))
       30 200)
    3 1.

(** The image [enhance_plate_image] computes. *)
Definition enhanced (cv : OpenCV) (plate_img : Image) : Gray :=
  bitwise_not cv
    (morphologyEx cv
       (adaptiveThreshold cv
          (GaussianBlur cv (cvtColor_BGR2GRAY cv plate_img) 5 0)
          255 THRESH_BINARY_INV 11 2)
       MORPH_OPEN 3).

(** The plates [extract_plate] yields for a list of contours. *)
Definition extracted (cv : OpenCV) (original : Image)
  (contours : list Contour) : list Image :=
  flat_map
    (fun c =>
       match result (PlateRecognizer.extract_plate cv original c) with
       | Return (Some plate_img) => [plate_img]
       | _ => []
       end)
    contours.

(** The hypotheses [recognize_plate] accepts from one OCR result on one
    plate. *)
Definition accepted_plate (plate_img : Image) (ocr_rows : list (str * Z))
  : list ((str * Image) * Z) :=
  map (fun row => ((fst row, plate_img), snd row))
    (filter (fun row => (0 <? snd row)%Z && truthy (strip (fst row)))
       ocr_rows).

(** All the hypotheses of [recognize_plate]: for every plate, those of
    every configuration. *)
Definition plate_hypotheses (cv : OpenCV) (ocr : Tesseract)
  (plates : list Image) : list ((str * Image) * Z) :=
  flat_map
    (fun plate_img =>
       flat_map
         (fun config =>
            accepted_plate plate_img
              (image_to_data ocr (enhanced cv plate_img) config))
         PlateRecognizer.configs)
    plates.

(** What [recognize_plate] returns for the hypothesis it selected. *)
Definition plate_answer (selected : option (str * Image))
  : option str * option Image :=
  match selected with
  | Some (text, plate_img) =>
      (Some (PlateRecognizerText.format_uk_plate text), Some plate_img)
  | None => (None, None)
  end.

(** The loop variables of [recognize_plate] for an incumbent and its
    confidence. *)
Definition as_best (r : option (str * Image) * Z) : PlateRecognizer.best :=
  PlateRecognizer.mk_best (snd r) (option_map fst (fst r))
    (option_map snd (fst r)).

(** A character a normalized plate may hold: an upper-case letter, a
    digit or the space. *)
Definition plate_char (c : ascii) : bool :=
  is_AZ c || is_digit c || Ascii.eqb c " ".

(** The cleaned text the three scanning normalizers work on. *)
Definition cleaned (text : str) : str := upper (join_alnum text).

(** Some window of seven characters of [c] matches the plate pattern. *)
Definition has_window (c : str) : bool :=
  match scan_windows c with Some _ => true | None => false end.

(** Seven cleaned characters with a space after the fourth. *)
Definition plate_shaped (r : str) : Prop :=
  exists w, len w = 7 /\ Forall settled w
            /\ r = upto w 4 ++ lit " " ++ from w 4.

(** The computation ends normally, with a value that has [P]. *)
Definition ensures {A} (P : A -> Prop) (m : M A) : Prop :=
  exists a, result m = Return a /\ P a.

(** The three tags [detect_country_identifier] can give. *)
Definition is_tag (tag : str) : Prop :=
  tag = lit "GB" \/ tag = lit "EU" \/ tag = lit "UNKNOWN".

(** A plate number as the UK recognizer reports one: "UNKNOWN", or a
    string that [format_uk_plate] leaves as it is. *)
Definition reported_number (plate_number : str) : Prop :=
  plate_number = lit "UNKNOWN"
  \/ UKText.format_uk_plate plate_number = plate_number.

(** The height of a box. *)
Definition height_of (r : Rect) : Z := let '(x, y, w, h) := r in h.

(** The test [find_plate_contours] makes on a contour, as one boolean. *)
Definition keeps_contour (cv : OpenCV) (image : Image) (c : Contour) : bool :=
  in_area_band (rows image * cols image) (contourArea cv c)
  && strictly_between 3.0 6.0 (aspect_of (boundingRect cv c)).

(** The test [detect_plate_regions] and the contour loop of
    [simple_detector.py] make on a contour, as one boolean. *)
Definition keeps_region (cv : OpenCV) (c : Contour) : bool :=
  vertices_ok cv c && strictly_between 2.0 7.0 (aspect_of (boundingRect cv c)).

(** The candidate [detect_plate_regions] builds from a contour. *)
Definition candidate_of (cv : OpenCV) (image : Image) (c : Contour)
  : Image * Rect :=
  (region_of image (boundingRect cv c), boundingRect cv c).

(** A region the per-region loop of [process_image] can process: it is
    not empty, nor is the band [region[:, 0:int(w*0.15)]] that
    [is_clearly_uk_plate] cuts from it (the region is more than six
    pixels wide), and OpenCV enlarges it if it is narrow. *)
Definition processable (cv : OpenCV) (entry : Image * Rect) : Prop :=
  rows (fst entry) <> 0%Z /\ cols (fst entry) <> 0%Z
  /\ is_empty (UKPlateRecognizer.clear_band (fst entry)) = false
  /\ enlarges cv (fst entry).

(** The region and box an entry of the results records. *)
Definition recorded (entry : str * UKPlateRecognizer.PlateInfo)
  : Image * Rect :=
  (UKPlateRecognizer.region (snd entry), UKPlateRecognizer.bbox (snd entry)).

(** If the computation ends normally, its value has [P]. *)
Definition yields {A} (P : A -> Prop) (m : M A) : Prop :=
  forall a, result m = Return a -> P a.

(** The cleaned reading of one configuration in the configuration loop
    of [simple_detector.py]. *)
Definition cleaned_reading (ocr : Tesseract) (plate_pil : Gray)
  (config : str) : str :=
  SimpleText.clean_and_format_plate (image_to_string ocr plate_pil config).

(** The configurations that loop runs: up to and including the first
    whose cleaned reading is a valid plate. *)
Fixpoint configs_run (ocr : Tesseract) (plate_pil : Gray)
  (configs : list str) : list str :=
  match configs with
  | [] => []
  | config :: rest =>
      if SimpleText.is_valid_uk_plate (cleaned_reading ocr plate_pil config)
      then [config]
      else config :: configs_run ocr plate_pil rest
  end.

(** The text that loop ends with when it starts from [best_text]: the
    first valid cleaned reading, else [best_text] if it is not empty,
    else the first non-empty cleaned reading, else the empty string. *)
Definition chosen_text (ocr : Tesseract) (plate_pil : Gray)
  (configs : list str) (best_text : str) : str :=
  let readings := map (cleaned_reading ocr plate_pil) configs in
  match find SimpleText.is_valid_uk_plate readings with
  | Some valid => valid
  | None =>
      if truthy best_text then best_text
      else match find truthy readings with
           | Some text => text
           | None => best_text
           end
  end.

(** The hypotheses [direct_ocr_plate] accepts from one OCR result: the
    rows with a confidence above 10 and a text. *)
Definition accepted_direct (ocr_rows : list (str * Z)) : list (str * Z) :=
  filter (fun row => (10 <? snd row)%Z && truthy (fst row)) ocr_rows.

(** All the hypotheses of [direct_ocr_plate]: those of every
    configuration, in configuration order. *)
Definition direct_hypotheses (cv : OpenCV) (ocr : Tesseract)
  (image : Image) : list (str * Z) :=
  flat_map
    (fun config =>
       accepted_direct (image_to_data ocr (direct_ocr_input cv image) config))
    UKPlateRecognizer.direct_configs.

(** The text of an incumbent. *)
Definition text_of (incumbent : option str) : str :=
  match incumbent with Some text => text | None => [] end.

(** The tag of an entry is what [detect_country_identifier] returns
    on the region of the entry. *)
Definition tag_read (cv : OpenCV) (ocr : Tesseract)
  (entry : str * UKPlateRecognizer.PlateInfo) : Prop :=
  result (UKPlateRecognizer.detect_country_identifier cv ocr
            (UKPlateRecognizer.region (snd entry)))
  = Return (UKPlateRecognizer.country_identifier (snd entry)).

(** The plate number of an entry is what [recognize_plate_number]
    returns on the region of the entry. *)
Definition number_read (cv : OpenCV) (ocr : Tesseract)
  (entry : str * UKPlateRecognizer.PlateInfo) : Prop :=
  result (UKPlateRecognizer.recognize_plate_number cv ocr
            (UKPlateRecognizer.region (snd entry)))
  = Return (UKPlateRecognizer.plate_number (snd entry)).

(** The plate number of an entry is what [direct_ocr_plate] returns on
    the region of the entry, and is not "UNKNOWN". *)
Definition direct_read (cv : OpenCV) (ocr : Tesseract)
  (entry : str * UKPlateRecognizer.PlateInfo) : Prop :=
  result (UKPlateRecognizer.direct_ocr_plate cv ocr
            (UKPlateRecognizer.region (snd entry)))
  = Return (UKPlateRecognizer.plate_number (snd entry))
  /\ UKPlateRecognizer.plate_number (snd entry) <> lit "UNKNOWN".

(** The answer of the servers when no plate was found. *)
Definition unknown_response : ApiServer.Response :=
  ApiServer.mk_response 200 None (Some (lit "UNKNOWN")) (Some (lit "UNKNOWN"))
    (Some 0.0%float).

(** The answer of the servers for a plate number and a tag. *)
Definition plate_response (plate_number country_identifier : str)
  : ApiServer.Response :=
  ApiServer.mk_response 200 None (Some plate_number) (Some country_identifier)
    (Some 0.74%float).

(** The image the fallback of [start_api.py] hands to its OCR call. *)
Definition fallback_input (cv : OpenCV) (image : Image) : Gray :=
  threshold cv (cvtColor_BGR2GRAY cv image) 0 255 THRESH_BINARY_OTSU.

(** A candidate of the last resort of [start_api.py] in [text]: two to
    seven characters of the class [[A-Z0-9]] that stand together in
    [text]. *)
Definition candidate_in (text m : str) : Prop :=
  2 <= len m <= 7
  /\ Forall (fun c => StartApi.is_AZ09 c = true) m
  /\ exists i, m = slice text i (i + len m).

(** The answer of [start_api.py] for the results its inner [try]
    leaves. *)
Definition answer_of (results : option (str * str)) : ApiServer.Response :=
  match results with
  | None => unknown_response
  | Some (plate_number, country_identifier) =>
      plate_response plate_number country_identifier
  end.

(** The thresholded image of [simple_detector.py]. *)
Definition simple_thresh (cv : OpenCV) (image : Image) : Gray :=
  threshold cv (GaussianBlur cv (cvtColor_BGR2GRAY cv image) 5 0) 0 255
    THRESH_BINARY_OTSU.

(** The contours [simple_detector.py] looks through: the ten of largest
    area. *)
Definition simple_contours (cv : OpenCV) (image : Image) : list Contour :=
  firstn 10
    (sorted_desc (contourArea cv)
       (findContours cv (Canny cv (simple_thresh cv image) 50 150)
          RETR_EXTERNAL)).

(** The image with the box drawn on it. *)
Definition marked (cv : OpenCV) (image : Image) (r : Rect) : Image :=
  let '(x, y, w, h) := r in rectangle cv image (x, y) (x + w, y + h)%Z.

(** The image [simple_detector.py] hands to its configuration loop for
    the box it found. *)
Definition simple_plate_pil (cv : OpenCV) (image : Image) (r : Rect) : Gray :=
  threshold cv (cvtColor_BGR2GRAY cv (region_of (marked cv image r) r)) 0 255
    THRESH_BINARY_OTSU.

(** The image [direct_ocr.py] hands to its OCR call. *)
Definition direct_image_input (cv : OpenCV) (image : Image) : Gray :=
  threshold cv (cvtColor_BGR2GRAY cv image) 0 255 THRESH_BINARY_OTSU.

(** * Properties *)

(** ** The normalizers on sample readings *)

Example ex_uk_1 : UKText.format_uk_plate "AB12CDE" = lit "AB12 CDE".
Proof. reflexivity. Qed.
Example ex_uk_2 : UKText.format_uk_plate "AB12COD" = lit "AB12 C0D".
Proof. reflexivity. Qed.
Example ex_uk_3 : UKText.format_uk_plate "xxab1ocde--" = lit "AB10 CDE".
Proof. reflexivity. Qed.
Example ex_uk_4 : UKText.format_uk_plate "AA03BOJ" = lit "AA03 BOJ".
Proof. reflexivity. Qed.
Example ex_d_1 : DirectOcr.clean_and_format_plate "ABCDEFG" = lit "ABCDEFG".
Proof. reflexivity. Qed.
Example ex_s_1 : SimpleText.clean_and_format_plate "zzAB12CDEzz" = lit "AB12 CDE".
Proof. reflexivity. Qed.
Example ex_uk_5 : UKText.format_uk_plate "AB1OCDE" = lit "AB10 CDE".
Proof. reflexivity. Qed.
Example ex_p_1 : PlateRecognizerText.format_uk_plate "ab12cde" = lit "AB12 CDE".
Proof. reflexivity. Qed.
Example ex_v_1 : SimpleText.is_valid_uk_plate "AB12 CDE" = true.
Proof. reflexivity. Qed.
Example ex_strip_1 : strip "  AB12 CDE  " = lit "AB12 CDE".
Proof. vm_compute. reflexivity. Qed.
Example ex_crop_1 :
  rows (crop (Toy.solid 100 100 Toy.black) 95 105 90 130) = 5%Z
  /\ cols (crop (Toy.solid 100 100 Toy.black) 95 105 90 130) = 10%Z.
Proof. split; reflexivity. Qed.
Example ex_int_1 : int_mul 100 0.18 = 18%Z /\ int_mul 45 0.15 = 6%Z.
Proof. split; vm_compute; reflexivity. Qed.

(** ** Characters and cleaning *)

Ltac each_char c := destruct c as [[] [] [] [] [] [] [] []].

Lemma isalnum_upper_char (c : ascii) :
  isalnum c = true -> isalnum (upper_char c) = true.
Proof. each_char c; vm_compute; trivial. Qed.

Lemma upper_char_idem (c : ascii) : upper_char (upper_char c) = upper_char c.
Proof. each_char c; reflexivity. Qed.

Lemma settled_upper_char (c : ascii) :
  isalnum c = true -> settled (upper_char c).
Proof.
  intro H. split.
  - now apply isalnum_upper_char.
  - apply upper_char_idem.
Qed.

Lemma clean0_settled (text : str) : Forall settled (upper (join_alnum text)).
Proof.
  unfold upper, join_alnum.
  induction text as [|c r IH]; simpl; [constructor|].
  destruct (isalnum c) eqn:E; simpl; auto.
  constructor; auto using settled_upper_char.
Qed.

Lemma clean0_fix (s : str) : Forall settled s -> upper (join_alnum s) = s.
Proof.
  unfold upper, join_alnum.
  induction 1 as [|c r [Ha Hu] _ IH]; simpl; [reflexivity|].
  rewrite Ha; simpl. now rewrite Hu, IH.
Qed.

Lemma replace_O_I (c : ascii) :
  settled c ->
  settled_uk (if Ascii.eqb (if Ascii.eqb c "O" then "0"%char else c) "I"
              then "1"%char
              else if Ascii.eqb c "O" then "0"%char else c).
Proof.
  intros [Ha Hu].
  destruct (Ascii.eqb_spec c "O") as [->|HO]; [vm_compute; auto|].
  destruct (Ascii.eqb_spec c "I") as [->|HI]; [vm_compute; auto|].
  repeat split; auto; now apply Ascii.eqb_neq.
Qed.

Lemma clean_settled (text : str) : Forall settled_uk (UKText.clean text).
Proof.
  unfold UKText.clean, replace.
  rewrite map_map.
  pose proof (clean0_settled text) as H.
  induction H as [|c r Hc _ IH]; simpl; constructor; auto using replace_O_I.
Qed.

Lemma settled_uk_weaken (s : str) : Forall settled_uk s -> Forall settled s.
Proof. induction 1 as [|c r [H _] _ IH]; constructor; auto. Qed.

Lemma clean_fix (s : str) : Forall settled_uk s -> UKText.clean s = s.
Proof.
  intro H. unfold UKText.clean.
  rewrite (clean0_fix (settled_uk_weaken H)).
  unfold replace. rewrite map_map.
  induction H as [|c r [_ [HO HI]] _ IH]; simpl; [reflexivity|].
  now rewrite HO, HI, IH.
Qed.

(** ** Slices and the spaced form *)

Lemma Forall_firstn {A} (P : A -> Prop) (n : nat) (l : list A) :
  Forall P l -> Forall P (firstn n l).
Proof.
  intro H. revert n.
  induction H as [|a l Ha _ IH]; intros [|n]; simpl; constructor; auto.
Qed.

Lemma Forall_skipn {A} (P : A -> Prop) (n : nat) (l : list A) :
  Forall P l -> Forall P (skipn n l).
Proof.
  intro H. revert n.
  induction H as [|a l Ha Hl IH]; intros [|n]; simpl; auto.
Qed.

Lemma Forall_slice (P : ascii -> Prop) (s : str) (i j : nat) :
  Forall P s -> Forall P (slice s i j).
Proof. intro H. unfold slice. now apply Forall_firstn, Forall_skipn. Qed.

(** The spaced form is the string with one space put in after its
    fourth character. *)
Lemma spaced_eq (s : str) : spaced s = upto s 4 ++ lit " " ++ from s 4.
Proof.
  unfold spaced, upto, slice, from.
  destruct s as [|a [|b [|c [|d r]]]]; reflexivity.
Qed.

Lemma clean0_app (a b : str) :
  upper (join_alnum (a ++ b)) = upper (join_alnum a) ++ upper (join_alnum b).
Proof. unfold upper, join_alnum. now rewrite filter_app, map_app. Qed.

Lemma join_alnum_spaced (s : str) :
  Forall settled s -> upper (join_alnum (spaced s)) = s.
Proof.
  intro H. rewrite spaced_eq, !clean0_app.
  change (upper (join_alnum (lit " "))) with (@nil ascii).
  unfold upto, from.
  rewrite (clean0_fix (Forall_firstn 4 H)), (clean0_fix (Forall_skipn 4 H)).
  apply firstn_skipn.
Qed.

Lemma clean_spaced (s : str) :
  Forall settled_uk s -> UKText.clean (spaced s) = s.
Proof.
  intro H. unfold UKText.clean.
  rewrite (join_alnum_spaced (settled_uk_weaken H)).
  pose proof (clean_fix H) as E. unfold UKText.clean in E.
  now rewrite (clean0_fix (settled_uk_weaken H)) in E.
Qed.

(** ** The window scan *)

Lemma pattern_len (s : str) :
  uk_plate_pattern s = true -> len s = 7 \/ len s = 8.
Proof.
  destruct s as [|a [|b [|c [|d [|e [|f [|g [|n [|m r]]]]]]]]];
    simpl; try discriminate; auto.
Qed.

Lemma first_window_some (c : str) (ixs : list nat) (w : str) :
  first_window c ixs = Some w ->
  exists i, w = slice c i (i + 7) /\ uk_plate_pattern w = true.
Proof.
  induction ixs as [|i r IH]; simpl; [discriminate|].
  destruct (uk_plate_pattern (slice c i (i + 7))) eqn:E.
  - intros [= <-]. eauto.
  - exact IH.
Qed.

Lemma scan_windows_some (c w : str) :
  scan_windows c = Some w ->
  exists i, w = slice c i (i + 7) /\ uk_plate_pattern w = true /\ len w = 7.
Proof.
  unfold scan_windows.
  destruct (7 <=? len c); [|discriminate].
  intro H. apply first_window_some in H as (i & -> & Hp).
  exists i. repeat split; auto.
  destruct (pattern_len _ Hp) as [|H8]; auto.
  exfalso. unfold slice, len in H8.
  rewrite length_firstn in H8. lia.
Qed.

Lemma slice_whole (s : str) : len s = 7 -> slice s 0 7 = s.
Proof.
  intro H. unfold slice.
  change (7 - 0) with 7. change (skipn 0 s) with s.
  rewrite <- H. apply firstn_all.
Qed.

(** A plate of seven characters is its own first window. *)
Lemma scan_windows_plate (s : str) :
  len s = 7 -> uk_plate_pattern s = true -> scan_windows s = Some s.
Proof.
  intros L P. unfold scan_windows. rewrite L. simpl.
  rewrite (slice_whole s L), P. reflexivity.
Qed.

(** A string of seven characters has one window: itself. *)
Lemma scan_windows_seven (s : str) :
  len s = 7 ->
  scan_windows s = if uk_plate_pattern s then Some s else None.
Proof.
  intro L. unfold scan_windows. rewrite L. simpl.
  now rewrite (slice_whole s L).
Qed.

(** ** The literal search *)

Lemma head_BOJ_firstn (n : nat) (s : str) :
  head_BOJ (firstn n s) = true -> head_BOJ s = true.
Proof.
  destruct n as [|[|[|n]]], s as [|a [|b [|c r]]]; simpl; auto; discriminate.
Qed.

Lemma any_then_BOJ_firstn (n : nat) (s : str) :
  any_then_BOJ (firstn n s) = true -> any_then_BOJ s = true.
Proof.
  revert n. induction s as [|c r IH]; intros n.
  - now rewrite firstn_nil.
  - destruct n as [|n]; [discriminate|].
    change (firstn (S n) (c :: r)) with (c :: firstn n r).
    cbn [any_then_BOJ]. intro H.
    apply orb_true_iff in H as [H|H].
    + apply (head_BOJ_firstn (S n) (c :: r)) in H. now rewrite H.
    + apply andb_true_iff in H as [Hc H].
      rewrite Hc, (IH _ H). apply orb_true_r.
Qed.

Lemma head_AA03_BOJ_firstn (n : nat) (s : str) :
  head_AA03_BOJ (firstn n s) = true -> head_AA03_BOJ s = true.
Proof.
  destruct s as [|a [|b [|c [|d r]]]];
    destruct n as [|[|[|[|n]]]]; simpl; try discriminate.
  intro H. apply andb_true_iff in H as [H1 H2].
  rewrite H1. simpl. exact (any_then_BOJ_firstn _ _ H2).
Qed.

Lemma search_firstn (n : nat) (s : str) :
  search_AA03_BOJ (firstn n s) = true -> search_AA03_BOJ s = true.
Proof.
  revert n. induction s as [|c r IH]; intros n.
  - now rewrite firstn_nil.
  - destruct n as [|n]; [discriminate|].
    change (firstn (S n) (c :: r)) with (c :: firstn n r).
    cbn [search_AA03_BOJ]. intro H.
    apply orb_true_iff in H as [H|H].
    + apply (head_AA03_BOJ_firstn (S n) (c :: r)) in H. now rewrite H.
    + rewrite (IH _ H). apply orb_true_r.
Qed.

Lemma search_skipn (n : nat) (s : str) :
  search_AA03_BOJ (skipn n s) = true -> search_AA03_BOJ s = true.
Proof.
  revert s. induction n as [|n IH]; intros s; [trivial|].
  destruct s as [|c r]; [trivial|].
  simpl skipn. intro H. apply IH in H.
  cbn [search_AA03_BOJ]. rewrite H. apply orb_true_r.
Qed.

(** A match inside a slice is a match inside the string. *)
Lemma search_slice (s : str) (i j : nat) :
  search_AA03_BOJ s = false -> search_AA03_BOJ (slice s i j) = false.
Proof.
  intro H. destruct (search_AA03_BOJ (slice s i j)) eqn:E; [|reflexivity].
  unfold slice in E. apply search_firstn, search_skipn in E. congruence.
Qed.

(** ** The normalizers *)

Lemma class_settled (c : ascii) :
  is_AZ c || is_digit c = true -> settled c.
Proof. each_char c; vm_compute; intro H; auto; discriminate. Qed.

Lemma pattern_settled (s : str) :
  len s = 7 -> uk_plate_pattern s = true -> Forall settled s.
Proof.
  destruct s as [|a [|b [|c [|d [|e [|f [|g [|n r]]]]]]]]; try discriminate.
  intros _ H. cbn in H.
  do 6 (apply andb_true_iff in H as [H ?]).
  repeat (apply Forall_cons; [apply class_settled|]); try apply Forall_nil;
    match goal with E : ?t = true |- ?t || _ = true => now rewrite E
                  | E : ?t = true |- _ || ?t = true =>
                      rewrite E; apply orb_true_r end.
Qed.

Lemma settled_uk_intro (s : str) :
  Forall settled s -> has_confusable s = false -> Forall settled_uk s.
Proof.
  unfold has_confusable.
  induction 1 as [|c r Hc _ IH]; cbn [existsb]; intro H; constructor.
  - apply orb_false_iff in H as [H _].
    apply orb_false_iff in H as [HO HI].
    split; [exact Hc | split; assumption].
  - apply IH. now apply orb_false_iff in H as [_ H].
Qed.

(** In a string of seven characters the literal can only sit at the
    start, with its [O] or [0] in sixth place. *)
Lemma search_seven (a b c d e f g : ascii) :
  is_O0 f = false -> search_AA03_BOJ [a; b; c; d; e; f; g] = false.
Proof.
  intro H. cbn. rewrite H. btauto.
Qed.

Lemma letter_not_O0 (f : ascii) :
  is_AZ f = true -> Ascii.eqb f "O" = false -> is_O0 f = false.
Proof.
  intros HA HO. unfold is_O0. rewrite HO. simpl.
  destruct (Ascii.eqb_spec f "0") as [->|]; [discriminate|reflexivity].
Qed.

Lemma search_plate (s : str) :
  len s = 7 -> uk_plate_pattern s = true -> has_confusable s = false ->
  search_AA03_BOJ s = false.
Proof.
  destruct s as [|a [|b [|c [|d [|e [|f [|g [|n r]]]]]]]]; try discriminate.
  intros _ P H. apply search_seven, letter_not_O0.
  - cbn in P. repeat (apply andb_true_iff in P as [P ?]). assumption.
  - unfold has_confusable in H. cbn in H.
    repeat (apply orb_false_iff in H as [? H]).
    match goal with E : Ascii.eqb f "O" || _ = false |- _ =>
      now apply orb_false_iff in E as [E _] end.
Qed.

Lemma pr_format_plate (s : str) :
  len s = 7 -> uk_plate_pattern s = true ->
  PlateRecognizerText.format_uk_plate s = spaced s.
Proof.
  intros L P. unfold PlateRecognizerText.format_uk_plate.
  rewrite (clean0_fix (pattern_settled s L P)), L. reflexivity.
Qed.

Lemma uk_format_plate (s : str) :
  len s = 7 -> uk_plate_pattern s = true -> has_confusable s = false ->
  UKText.format_uk_plate s = spaced s.
Proof.
  intros L P H. unfold UKText.format_uk_plate.
  rewrite (clean_fix (settled_uk_intro (pattern_settled s L P) H)).
  rewrite (search_plate s L P H), (scan_windows_plate s L P). reflexivity.
Qed.

Lemma uk_idempotent (s : str) :
  UKText.format_uk_plate (UKText.format_uk_plate s) = UKText.format_uk_plate s.
Proof.
  unfold UKText.format_uk_plate at 2 3.
  pose proof (clean_settled s) as HC.
  set (c := UKText.clean s) in *.
  destruct (search_AA03_BOJ c) eqn:ES; [reflexivity|].
  destruct (scan_windows c) as [w|] eqn:EW.
  - apply scan_windows_some in EW as (i & -> & P & L).
    set (w := slice c i (i + 7)) in *.
    assert (HW : Forall settled_uk w) by now apply Forall_slice.
    assert (SW : search_AA03_BOJ w = false) by now apply search_slice.
    unfold UKText.format_uk_plate.
    now rewrite (clean_spaced HW), SW, (scan_windows_plate w L P).
  - destruct (len c =? 7) eqn:EL.
    + unfold UKText.format_uk_plate.
      now rewrite (clean_spaced HC), ES, EW, EL.
    + unfold UKText.format_uk_plate.
      now rewrite (clean_fix HC), ES, EW, EL.
Qed.


Lemma direct_idempotent (s : str) :
  DirectOcr.clean_and_format_plate (DirectOcr.clean_and_format_plate s)
  = DirectOcr.clean_and_format_plate s.
Proof.
  unfold DirectOcr.clean_and_format_plate at 2 3.
  pose proof (clean0_settled s) as HC.
  set (c := upper (join_alnum s)) in *.
  destruct (scan_windows c) as [w|] eqn:EW.
  - apply scan_windows_some in EW as (i & -> & P & L).
    set (w := slice c i (i + 7)) in *.
    assert (HW : Forall settled w) by now apply Forall_slice.
    unfold DirectOcr.clean_and_format_plate.
    now rewrite (join_alnum_spaced HW), (scan_windows_plate w L P).
  - unfold DirectOcr.clean_and_format_plate.
    now rewrite (clean0_fix HC), EW.
Qed.





(** Claim C1, as the code has it.  For every string of seven characters
    that matches [[A-Z]{2}[0-9]{2}[A-Z]{3}], [format_uk_plate] of
    [plate_recognizer.py] returns the string with one space put in after
    its fourth character and every character unchanged;
    [format_uk_plate] of [uk_plate_recognizer.py] does so when the string
    holds neither the letter O nor the letter I, which it rewrites to the
    digits 0 and 1 first. *)
Theorem format_uk_plate_on_plates (s : str) :
  len s = 7 -> uk_plate_pattern s = true ->
  PlateRecognizerText.format_uk_plate s = upto s 4 ++ lit " " ++ from s 4
  /\ (has_confusable s = false ->
      UKText.format_uk_plate s = upto s 4 ++ lit " " ++ from s 4).
Proof.
  intros L P. rewrite <- spaced_eq. split.
  - now apply pr_format_plate.
  - intro H. now apply uk_format_plate.
Qed.

(** Both variants turn "AB12CDE" into "AB12 CDE". *)
Lemma format_uk_plate_on_plates_witness :
  PlateRecognizerText.format_uk_plate "AB12CDE" = lit "AB12 CDE"
  /\ UKText.format_uk_plate "AB12CDE" = lit "AB12 CDE".
Proof.
  destruct (format_uk_plate_on_plates "AB12CDE" eq_refl eq_refl) as [H1 H2].
  split; [exact H1 | exact (H2 eq_refl)].
Defined.

(** Claim C1 as stated fails: "AB12COD" has the plate shape, and the UK
    recognizer returns it with its O turned into a zero. *)
Lemma format_uk_plate_changes_letters :
  len "AB12COD" = 7
  /\ uk_plate_pattern "AB12COD" = true
  /\ UKText.format_uk_plate "AB12COD" = lit "AB12 C0D"
  /\ UKText.format_uk_plate "AB12COD"
     <> upto "AB12COD" 4 ++ lit " " ++ from "AB12COD" 4.
Proof.
  repeat split. vm_compute. discriminate.
Qed.

(** Claim C8, as the code has it.  When the cleaned string has seven
    characters and no window of it matches the plate pattern,
    [clean_and_format_plate] of [simple_detector.py] and
    [format_uk_plate] of [plate_recognizer.py] return it spaced four
    and three; [format_uk_plate] of [uk_plate_recognizer.py] does the
    same unless its literal pattern matches, and then returns
    "AA03 BOJ"; [clean_and_format_plate] of [direct_ocr.py] has no
    such fallback and returns the cleaned string without a space. *)
Theorem seven_character_fallback (text text' : str) :
  len (upper (join_alnum text)) = 7 ->
  scan_windows (upper (join_alnum text)) = None ->
  len (UKText.clean text') = 7 ->
  scan_windows (UKText.clean text') = None ->
  SimpleText.clean_and_format_plate text
  = upto (upper (join_alnum text)) 4 ++ lit " " ++ from (upper (join_alnum text)) 4
  /\ PlateRecognizerText.format_uk_plate text
     = upto (upper (join_alnum text)) 4 ++ lit " " ++ from (upper (join_alnum text)) 4
  /\ DirectOcr.clean_and_format_plate text = upper (join_alnum text)
  /\ UKText.format_uk_plate text'
     = if search_AA03_BOJ (UKText.clean text') then lit "AA03 BOJ"
       else upto (UKText.clean text') 4 ++ lit " " ++ from (UKText.clean text') 4.
Proof.
  intros L W L' W'. rewrite <- !spaced_eq.
  unfold SimpleText.clean_and_format_plate,
    PlateRecognizerText.format_uk_plate,
    DirectOcr.clean_and_format_plate, UKText.format_uk_plate.
  rewrite W, W', L, L'. simpl (7 =? 7). auto.
Qed.

Lemma seven_character_fallback_witness :
  SimpleText.clean_and_format_plate "abc-defg" = lit "ABCD EFG"
  /\ PlateRecognizerText.format_uk_plate "abc-defg" = lit "ABCD EFG"
  /\ DirectOcr.clean_and_format_plate "abc-defg" = lit "ABCDEFG"
  /\ UKText.format_uk_plate "1234567" = lit "1234 567".
Proof.
  exact (seven_character_fallback "abc-defg" "1234567"
           eq_refl eq_refl eq_refl eq_refl).
Defined.

(** Claim C8 as stated fails in two variants.  "ABCDEFG" cleans to
    itself, has seven characters and no matching window, and
    [direct_ocr.py] returns it without the space.  "AA03BOJ" cleans to
    "AA03B0J" in [uk_plate_recognizer.py], seven characters with no
    matching window, and the result is "AA03 BOJ", not that string
    spaced. *)
Lemma seven_character_fallback_fails :
  (len (upper (join_alnum "ABCDEFG")) = 7
   /\ scan_windows (upper (join_alnum "ABCDEFG")) = None
   /\ DirectOcr.clean_and_format_plate "ABCDEFG" = lit "ABCDEFG"
   /\ DirectOcr.clean_and_format_plate "ABCDEFG"
      <> spaced (upper (join_alnum "ABCDEFG")))
  /\ (UKText.clean "AA03BOJ" = lit "AA03B0J"
      /\ scan_windows (UKText.clean "AA03BOJ") = None
      /\ UKText.format_uk_plate "AA03BOJ" = lit "AA03 BOJ"
      /\ UKText.format_uk_plate "AA03BOJ" <> spaced (UKText.clean "AA03BOJ")).
Proof.
  repeat split; vm_compute; discriminate.
Qed.

(** ** The monad *)

Unset Implicit Arguments.

Lemma result_bind {A B} (m : M A) (k : A -> M B) :
  result (bind m k)
  = match result m with
    | Return a => result (k a)
    | Raise e => Raise e
    end.
Proof.
  destruct m as [t [a|e]]; simpl; [|reflexivity].
  now destruct (k a).
Qed.

Lemma trace_bind {A B} (m : M A) (k : A -> M B) :
  trace (bind m k)
  = trace m ++ match result m with
               | Return a => trace (k a)
               | Raise e => []
               end.
Proof.
  destruct m as [t [a|e]]; simpl.
  - now destruct (k a).
  - now rewrite app_nil_r.
Qed.

Lemma result_bind_return {A B} (m : M A) (k : A -> M B) (a : A) :
  result m = Return a -> result (bind m k) = result (k a).
Proof. intro H. now rewrite result_bind, H. Qed.

Lemma result_try_except {A} (m : M A) (handler : exn -> M A) :
  result (try_except m handler)
  = match result m with
    | Return a => Return a
    | Raise e => result (handler e)
    end.
Proof.
  destruct m as [t [a|e]]; simpl; [reflexivity|].
  now destruct (handler e).
Qed.

Lemma returns_ret {A} (a : A) : returns (ret a).
Proof. now exists a. Qed.

Lemma returns_call {A} (e : Event) (a : A) : returns (call e a).
Proof. now exists a. Qed.

Lemma returns_bind {A B} (m : M A) (k : A -> M B) :
  returns m -> (forall a, result m = Return a -> returns (k a)) ->
  returns (bind m k).
Proof.
  intros [a Ha] Hk. destruct (Hk a Ha) as [b Hb].
  exists b. now rewrite (result_bind_return m k a Ha).
Qed.

Lemma returns_for_each {X S} (xs : list X) (s : S)
  (body : X -> S -> M (flow S)) :
  (forall x s, In x xs -> returns (body x s)) -> returns (for_each xs s body).
Proof.
  revert s. induction xs as [|x r IH]; intros s H; simpl.
  - apply returns_ret.
  - apply returns_bind.
    + apply H. now left.
    + intros [s'|s'] _.
      * apply IH. intros y s0 Hy. apply H. now right.
      * apply returns_ret.
Qed.

Lemma returns_truediv (a b : Z) : b <> 0%Z -> returns (truediv a b).
Proof.
  intro H. unfold truediv, div_float_int.
  destruct (Z.eqb_spec b 0); [contradiction|]. apply returns_ret.
Qed.

Lemma result_truediv (a b : Z) :
  b <> 0%Z -> result (truediv a b) = Return (aspect a b).
Proof.
  intro H. unfold truediv, div_float_int.
  destruct (Z.eqb_spec b 0); [contradiction|]. reflexivity.
Qed.

Lemma trace_truediv (a b : Z) : trace (truediv a b) = [].
Proof.
  unfold truediv, div_float_int. now destruct (b =? 0)%Z.
Qed.






(** ** Claim C2: the plate extractor *)

(** [extract_plate] catches whatever its body raises. *)
Lemma extract_plate_total (cv : OpenCV) (image : Image) (contour : Contour) :
  returns (PlateRecognizer.extract_plate cv image contour).
Proof.
  unfold returns, PlateRecognizer.extract_plate.
  rewrite result_try_except.
  match goal with |- context [result ?m] => destruct (result m) as [a|e] end.
  - now exists a.
  - now exists None.
Qed.

(** Claim C2, as the code has it.  [extract_plate] never lets an exception
    out.  It returns [None] for a region of height zero (the division by
    zero is raised and caught), and it returns [None] when the region,
    clipped to the image as numpy slices do, is empty, because [resize]
    rejects an empty source.  For a region of non-zero height it makes
    no test of the bounds at all: it returns the slice
    [image[y:y+h, x:x+w]], resized by [50.0 / h], when [resize] accepts
    it, and [None] when [resize] raises. *)
Theorem extract_plate_degenerate (cv : OpenCV) (image : Image)
  (contour : Contour) (x y w h : Z) :
  boundingRect cv contour = (x, y, w, h) ->
  (forall img fx fy, is_empty img = true -> resize cv img fx fy = Raise cv2_error) ->
  returns (PlateRecognizer.extract_plate cv image contour)
  /\ (h = 0%Z ->
      result (PlateRecognizer.extract_plate cv image contour) = Return None)
  /\ (is_empty (crop image y (y + h) x (x + w)) = true ->
      result (PlateRecognizer.extract_plate cv image contour) = Return None)
  /\ (h <> 0%Z ->
      result (PlateRecognizer.extract_plate cv image contour)
      = Return
          match resize cv (crop image y (y + h) x (x + w))
                  (50 / float_of_Z h) (50 / float_of_Z h) with
          | Return plate => Some plate
          | Raise _ => None
          end).
Proof.
  intros HB HR. split; [apply extract_plate_total|].
  unfold PlateRecognizer.extract_plate. rewrite HB, result_try_except.
  split; [|split].
  - intros ->. reflexivity.
  - intro HE. unfold div_float_int.
    destruct (h =? 0)%Z; [reflexivity|].
    cbn. now rewrite (HR _ _ _ HE).
  - intro Hh. unfold div_float_int.
    destruct (Z.eqb_spec h 0); [contradiction|].
    cbn. now destruct (resize cv _ _ _).
Qed.

Lemma extract_plate_degenerate_witness :
  returns (PlateRecognizer.extract_plate (Toy.cv None [])
             (Toy.solid 10 10 Toy.black) [])
  /\ result (PlateRecognizer.extract_plate (Toy.cv None [])
               (Toy.solid 10 10 Toy.black) []) = Return None
  /\ result (PlateRecognizer.extract_plate (Toy.cv None [])
               (Toy.solid 10 10 Toy.black) (Toy.box 20 20 40 10))
     = Return None
  /\ result (PlateRecognizer.extract_plate (Toy.cv None []) Toy.night
               (Toy.box 0 95 100 1000))
     = Return None.
Proof.
  assert (HR : forall img fx fy, is_empty img = true ->
                 resize (Toy.cv None []) img fx fy = Raise cv2_error).
  { intros img fx fy H. simpl. unfold Toy.resize_nearest. now rewrite H. }
  destruct (extract_plate_degenerate (Toy.cv None [])
              (Toy.solid 10 10 Toy.black) [] 0 0 0 0 eq_refl HR)%Z
    as (H1 & H2 & _).
  destruct (extract_plate_degenerate (Toy.cv None [])
              (Toy.solid 10 10 Toy.black) (Toy.box 20 20 40 10)
              20 20 40 10 eq_refl HR)%Z
    as (_ & _ & H3 & _).
  destruct (extract_plate_degenerate (Toy.cv None [])
              Toy.night (Toy.box 0 95 100 1000)
              0 95 100 1000 eq_refl HR)%Z
    as (_ & _ & _ & H4).
  refine (conj H1 (conj (H2 eq_refl) (conj (H3 eq_refl) _))).
  rewrite H4 by discriminate. vm_compute. reflexivity.
Defined.

(** Claim C2 as stated fails for regions outside the image.  In a 100 by
    100 image the box (90, 95, 40, 10) crosses the right and bottom
    edges, and the box (-20, 0, 10, 10) lies left of the image; numpy
    clips the first to 5 rows of 10 columns and reads the second from
    the right-hand side, and [extract_plate] returns a plate for both. *)
Lemma extract_plate_outside_bounds :
  (rect_outside Toy.night (boundingRect Toy.bare (Toy.box 90 95 40 10))
   /\ exists plate,
        result (PlateRecognizer.extract_plate Toy.bare Toy.night
                  (Toy.box 90 95 40 10))
        = Return (Some plate)
        /\ rows plate = 25%Z /\ cols plate = 50%Z)
  /\ (rect_outside Toy.night (boundingRect Toy.bare (Toy.box (-20) 0 10 10))
      /\ exists plate,
           result (PlateRecognizer.extract_plate Toy.bare Toy.night
                     (Toy.box (-20) 0 10 10))
           = Return (Some plate)
           /\ rows plate = 50%Z /\ cols plate = 50%Z).
Proof.
  split; split.
  - vm_compute. right. right. left. reflexivity.
  - eexists. split; [vm_compute; reflexivity|]. split; reflexivity.
  - vm_compute. left. reflexivity.
  - eexists. split; [vm_compute; reflexivity|]. split; reflexivity.
Qed.

(** ** The UK recognizer: which calls, and whether it returns *)

Ltac returns_step :=
  match goal with
  | |- returns (ret _) => apply returns_ret
  | |- returns (call _ _) => apply returns_call
  | |- returns (truediv _ _) => apply returns_truediv; assumption
  | |- returns (bind _ _) => apply returns_bind; [|intros ? _]
  | |- returns (for_each _ _ _) => apply returns_for_each; intros ? ? _
  | |- returns (if ?b then _ else _) => destruct b
  | |- returns (match ?x with _ => _ end) => destruct x
  end.


Section UKCalls.

Variable cv : OpenCV.
Variable ocr : Tesseract.

Lemma returns_cvtColor_of_cut {B} (convert : Image -> ndarray B)
  (src : Image) :
  is_empty src = false -> returns (cvtColor_of_cut convert src).
Proof.
  intro H. unfold cvtColor_of_cut, call_raising. rewrite H.
  now eexists.
Qed.

Lemma returns_is_clearly_uk_plate (image : Image) :
  rows image <> 0%Z ->
  is_empty (UKPlateRecognizer.clear_band image) = false ->
  returns (UKPlateRecognizer.is_clearly_uk_plate cv image).
Proof.
  intros H Hb. unfold UKPlateRecognizer.is_clearly_uk_plate.
  apply returns_bind; [now apply returns_cvtColor_of_cut|intros ? _].
  repeat returns_step.
Qed.

Lemma returns_recognize_plate_number (image : Image) :
  rows image <> 0%Z ->
  is_empty (UKPlateRecognizer.clear_band image) = false ->
  returns (UKPlateRecognizer.recognize_plate_number cv ocr image).
Proof.
  intros H Hb. unfold UKPlateRecognizer.recognize_plate_number.
  repeat first [ apply returns_is_clearly_uk_plate; assumption
               | returns_step ].
Qed.

Lemma returns_classify_band (left_part : Image) :
  returns (UKPlateRecognizer.classify_band cv ocr left_part).
Proof.
  unfold UKPlateRecognizer.classify_band. repeat returns_step.
Qed.

Lemma returns_detect_country_identifier (image : Image) :
  cols image <> 0%Z ->
  enlarges cv image ->
  returns (UKPlateRecognizer.detect_country_identifier cv ocr image).
Proof.
  intros H HR.
  unfold UKPlateRecognizer.detect_country_identifier,
    UKPlateRecognizer.identifier_band.
  apply returns_bind; [|intros ? _; apply returns_classify_band].
  apply returns_bind; [|intros ? _; apply returns_ret].
  destruct (cols image <? 100)%Z; [|apply returns_ret].
  unfold div_float_int. destruct (Z.eqb_spec (cols image) 0); [contradiction|].
  destruct HR as [big E].
  exists big. cbn. now rewrite E.
Qed.




End UKCalls.

(** ** Claims C3 and C6: the entry point *)

(** Claim C3, as the code has it.  When the image cannot be read
    [process_image] returns [None], Python's null, and no error is
    raised.  When the image is read, is not itself plate shaped, no
    region is detected, the direct OCR fallback returns "UNKNOWN" and
    [detect_country_identifier] returns, it returns the empty mapping.
    It catches nothing: in that same situation an exception of
    [direct_ocr_plate] or of [detect_country_identifier] escapes, so it
    can throw when no plate is found. *)
Theorem process_image_no_plate (cv : OpenCV) (ocr : Tesseract) (path : str) :
  (imread cv path = None ->
   result (UKPlateRecognizer.process_image cv ocr path) = Return None)
  /\ (forall image country_id,
        imread cv path = Some image ->
        rows image <> 0%Z ->
        strictly_between 3.5 5.5 (aspect (cols image) (rows image)) = false ->
        result (UKPlateRecognizer.detect_plate_regions cv image) = Return [] ->
        result (UKPlateRecognizer.direct_ocr_plate cv ocr image)
        = Return (lit "UNKNOWN") ->
        result (UKPlateRecognizer.detect_country_identifier cv ocr image)
        = Return country_id ->
        result (UKPlateRecognizer.process_image cv ocr path)
        = Return (Some []))
  /\ (forall image e,
        imread cv path = Some image ->
        rows image <> 0%Z ->
        strictly_between 3.5 5.5 (aspect (cols image) (rows image)) = false ->
        result (UKPlateRecognizer.detect_plate_regions cv image) = Return [] ->
        (result (UKPlateRecognizer.direct_ocr_plate cv ocr image) = Raise e ->
         result (UKPlateRecognizer.process_image cv ocr path) = Raise e)
        /\ (forall plate_number,
              result (UKPlateRecognizer.direct_ocr_plate cv ocr image)
              = Return plate_number ->
              result (UKPlateRecognizer.detect_country_identifier cv ocr image)
              = Raise e ->
              result (UKPlateRecognizer.process_image cv ocr path) = Raise e)).
Proof.
  unfold UKPlateRecognizer.process_image. split; [|split].
  - intros ->. reflexivity.
  - intros image cid -> Hh Ha Hd Ho Hc.
    rewrite result_bind. cbn [call result snd].
    rewrite result_bind, (result_truediv _ _ Hh), Ha.
    rewrite result_bind, Hd, result_bind, Ho, result_bind, Hc.
    reflexivity.
  - intros image e -> Hh Ha Hd. split.
    + intro Ho. rewrite result_bind. cbn [call result snd].
      rewrite result_bind, (result_truediv _ _ Hh), Ha.
      now rewrite result_bind, Hd, result_bind, Ho.
    + intros pn Ho Hc. rewrite result_bind. cbn [call result snd].
      rewrite result_bind, (result_truediv _ _ Hh), Ha.
      now rewrite result_bind, Hd, result_bind, Ho, result_bind, Hc.
Qed.

Lemma process_image_no_plate_witness :
  result (UKPlateRecognizer.process_image Toy.bare Toy.blind "missing.jpg")
  = Return None
  /\ result (UKPlateRecognizer.process_image
               (Toy.cv (Some (Toy.solid 10 10 Toy.black)) []) Toy.blind
               "night.jpg")
     = Return (Some [])
  /\ result (UKPlateRecognizer.process_image
               (Toy.cv (Some (Toy.solid 5 5 Toy.black)) []) Toy.blind
               "small.jpg")
     = Raise cv2_error.
Proof.
  split; [|split].
  - exact (proj1 (process_image_no_plate Toy.bare Toy.blind "missing.jpg")
             eq_refl).
  - refine (proj1 (proj2 (process_image_no_plate
                            (Toy.cv (Some (Toy.solid 10 10 Toy.black)) [])
                            Toy.blind "night.jpg"))
              (Toy.solid 10 10 Toy.black) (lit "UNKNOWN")
              eq_refl _ _ _ _ _).
    + discriminate.
    + vm_compute; reflexivity.
    + vm_compute; reflexivity.
    + vm_compute; reflexivity.
    + vm_compute; reflexivity.
  - refine (proj1 (proj2 (proj2 (process_image_no_plate
                                   (Toy.cv (Some (Toy.solid 5 5 Toy.black)) [])
                                   Toy.blind "small.jpg"))
                     (Toy.solid 5 5 Toy.black) cv2_error
                     eq_refl _ _ _) _).
    + discriminate.
    + vm_compute; reflexivity.
    + vm_compute; reflexivity.
    + vm_compute; reflexivity.
Defined.

(** Claim C3 as stated fails on both counts.  For a path that cannot be
    read [process_image] ends normally with the null result; nothing is
    raised.  And it throws with no plate found: in a black image of 5 by
    5 pixels no region is detected and OCR reads nothing, the band
    [image[:, 0:int(5*0.15)]] that [is_clearly_uk_plate] cuts has no
    column, [cv2.cvtColor] raises on it, and the error escapes. *)
Lemma process_image_unreadable :
  (imread Toy.bare "missing.jpg" = None
   /\ result (UKPlateRecognizer.process_image Toy.bare Toy.blind "missing.jpg")
      = Return None
   /\ forall e,
        result (UKPlateRecognizer.process_image Toy.bare Toy.blind
                  "missing.jpg")
        <> Raise e)
  /\ (result (UKPlateRecognizer.detect_plate_regions
                (Toy.cv (Some (Toy.solid 5 5 Toy.black)) [])
                (Toy.solid 5 5 Toy.black))
      = Return []
      /\ cols (UKPlateRecognizer.clear_band (Toy.solid 5 5 Toy.black)) = 0%Z
      /\ result (UKPlateRecognizer.process_image
                   (Toy.cv (Some (Toy.solid 5 5 Toy.black)) []) Toy.blind
                   "small.jpg")
         = Raise cv2_error).
Proof.
  split; [repeat split; intros e; vm_compute; discriminate|].
  repeat split; vm_compute; reflexivity.
Qed.




(** ** Claim C9: the issuing-region identifier *)




(** ** Claim C5: the literal plate *)

Lemma direct_scan_unusable (ocr_rows : list (str * Z)) (b : str * Z) :
  unusable_direct ocr_rows = true ->
  UKPlateRecognizer.direct_scan_rows ocr_rows b = b.
Proof.
  unfold unusable_direct, UKPlateRecognizer.direct_scan_rows.
  revert b. induction ocr_rows as [|[text conf] r IH]; intros b H; [reflexivity|].
  cbn [forallb fst snd] in H. apply andb_true_iff in H as [H1 H2].
  cbn [fold_left].
  destruct (10 <? conf)%Z; [destruct (truthy text); [discriminate|]|];
    cbn [andb]; now apply IH.
Qed.

Lemma number_scan_unusable (ocr_rows : list (str * Z))
  (acc : list str * list Z) :
  unusable_number ocr_rows = true ->
  UKPlateRecognizer.number_scan_rows ocr_rows acc = acc.
Proof.
  unfold unusable_number, UKPlateRecognizer.number_scan_rows.
  revert acc.
  induction ocr_rows as [|[text conf] r IH]; intros acc H; [reflexivity|].
  cbn [forallb fst snd] in H. apply andb_true_iff in H as [H1 H2].
  cbn [fold_left].
  destruct (0 <? conf)%Z;
    [destruct (truthy text && truthy (strip text)); [discriminate|]|];
    now apply IH.
Qed.

(** No pixel of an empty mask is counted. *)
Lemma count_positive_empty (mask : Gray) :
  is_empty mask = true -> count_positive mask = 0%Z.
Proof.
  unfold is_empty, count_positive, indices. intro H.
  apply orb_true_iff in H as [H|H]; apply Z.leb_le in H.
  - now replace (Z.to_nat (rows mask)) with 0 by lia.
  - replace (Z.to_nat (cols mask)) with 0 by lia. cbn [seq map fold_left].
    now induction (map Z.of_nat (seq 0 (Z.to_nat (rows mask)))).
Qed.

(** A percentage of no pixels, whatever the size it is taken of, is not
    above 10: it is a zero or a NaN. *)
Lemma nothing_is_above_ten (x : float) :
  (10 <? (0 / x * 100))%float = false.
Proof.
  rewrite ltb_spec, mul_spec, div_spec.
  destruct (Prim2SF x) as [sg|sg| |sg m e].
  - destruct sg; vm_compute; reflexivity.
  - destruct sg; vm_compute; reflexivity.
  - vm_compute; reflexivity.
  - destruct sg; reflexivity.
Qed.

(** A band with more than 10 percent blue is not empty. *)
Lemma blue_band_not_empty (cv : OpenCV) (band : Image) :
  (10 <? UKPlateRecognizer.blue_percentage cv band)%float = true ->
  is_empty band = false.
Proof.
  intro H. destruct (is_empty band) eqn:E; [|reflexivity].
  exfalso. revert H.
  unfold UKPlateRecognizer.blue_percentage, percentage.
  rewrite count_positive_empty.
  - change (float_of_Z 0) with 0%float.
    rewrite nothing_is_above_ten. discriminate.
  - unfold is_empty in *.
    destruct (inRange_shape cv (cvtColor_BGR2HSV cv band)
                UKPlateRecognizer.lower_blue UKPlateRecognizer.upper_blue)
      as [-> ->].
    now destruct (cvtColor_BGR2HSV_shape cv band) as [-> ->].
Qed.

Lemma result_is_clearly_uk_plate (cv : OpenCV) (image : Image) :
  rows image <> 0%Z ->
  is_empty (UKPlateRecognizer.clear_band image) = false ->
  result (UKPlateRecognizer.is_clearly_uk_plate cv image)
  = Return ((10 <? UKPlateRecognizer.blue_percentage cv
                     (UKPlateRecognizer.clear_band image))%float
            && strictly_between 3.5 5.5 (aspect (cols image) (rows image))).
Proof.
  intros H Hb. unfold UKPlateRecognizer.is_clearly_uk_plate.
  fold (UKPlateRecognizer.clear_band image).
  rewrite result_bind. unfold cvtColor_of_cut, call_raising. rewrite Hb.
  cbn [result snd].
  rewrite result_bind; cbn [call result snd].
  rewrite result_bind, (result_truediv _ _ H). reflexivity.
Qed.

(** Claim C5.  When the image looks like a well-formed plate (more than
    10 percent blue in its leftmost 15 percent, aspect ratio strictly
    between 3.5 and 5.5) and OCR yields no usable text, both
    [direct_ocr_plate] and [recognize_plate_number] return the literal
    "AA03 BOJ"; and [format_uk_plate] returns "AA03 BOJ" for every text
    whose cleaned form matches [AA[O0]3.*B[O0]J], whatever else it
    holds. *)
Theorem literal_plate (cv : OpenCV) (ocr : Tesseract) (image : Image) :
  rows image <> 0%Z ->
  (10 <? UKPlateRecognizer.blue_percentage cv
           (UKPlateRecognizer.clear_band image))%float = true ->
  strictly_between 3.5 5.5 (aspect (cols image) (rows image)) = true ->
  (forall config, In config UKPlateRecognizer.direct_configs ->
     unusable_direct (image_to_data ocr (direct_ocr_input cv image) config)
     = true) ->
  strip (image_to_string ocr (direct_plate_part cv image)
           UKPlateRecognizer.psm7) = [] ->
  (forall config, In config UKPlateRecognizer.configs ->
     unusable_number (image_to_data ocr (number_ocr_input cv image) config)
     = true) ->
  strip (image_to_string ocr (number_ocr_input cv image)
           UKPlateRecognizer.psm7) = [] ->
  result (UKPlateRecognizer.direct_ocr_plate cv ocr image)
  = Return (lit "AA03 BOJ")
  /\ result (UKPlateRecognizer.recognize_plate_number cv ocr image)
     = Return (lit "AA03 BOJ")
  /\ forall text,
       search_AA03_BOJ (UKText.clean text) = true ->
       UKText.format_uk_plate text = lit "AA03 BOJ".
Proof.
  intros Hh Hblue Hasp Hd Hds Hn Hns.
  pose proof (result_is_clearly_uk_plate cv image Hh
                (blue_band_not_empty cv _ Hblue)) as Hc.
  rewrite Hblue, Hasp in Hc.
  repeat split.
  - unfold UKPlateRecognizer.direct_ocr_plate.
    unfold direct_ocr_input, direct_plate_part in *.
    cbn [bind call ret result snd fst for_each UKPlateRecognizer.direct_configs].
    rewrite !direct_scan_unusable by (apply Hd; cbn; auto).
    cbn [fst lit list_ascii_of_string truthy].
    cbn [bind call ret result snd fst]. rewrite Hds. cbn [truthy].
    destruct (UKPlateRecognizer.is_clearly_uk_plate cv image) as [t r].
    cbn [result snd] in Hc. now subst r.
  - unfold UKPlateRecognizer.recognize_plate_number.
    unfold number_ocr_input in *.
    cbn [bind call ret result snd fst for_each UKPlateRecognizer.configs].
    rewrite !number_scan_unusable by (apply Hn; cbn; auto).
    cbn [bind call ret result snd fst]. rewrite Hns. cbn [truthy].
    destruct (UKPlateRecognizer.is_clearly_uk_plate cv image) as [t r].
    cbn [result snd] in Hc. now subst r.
  - intros text H. unfold UKText.format_uk_plate. now rewrite H.
Qed.

Lemma literal_plate_witness :
  result (UKPlateRecognizer.direct_ocr_plate (Toy.cv None []) Toy.blind
            (Toy.solid 10 45 Toy.blue))
  = Return (lit "AA03 BOJ")
  /\ result (UKPlateRecognizer.recognize_plate_number (Toy.cv None [])
               Toy.blind (Toy.solid 10 45 Toy.blue))
     = Return (lit "AA03 BOJ")
  /\ UKText.format_uk_plate "xx-aa03 zz9 boj" = lit "AA03 BOJ".
Proof.
  destruct (literal_plate (Toy.cv None []) Toy.blind (Toy.solid 10 45 Toy.blue))
    as (H1 & H2 & H3).
  - discriminate.
  - vm_compute; reflexivity.
  - vm_compute; reflexivity.
  - intros config _. reflexivity.
  - reflexivity.
  - intros config _. reflexivity.
  - reflexivity.
  - exact (conj H1 (conj H2 (H3 (lit "xx-aa03 zz9 boj") eq_refl))).
Defined.

(** ** Claim C4: the region candidate detectors *)

Lemma in_insert_desc (key : Contour -> float) (c x : Contour)
  (l : list Contour) :
  In x (insert_desc key c l) -> x = c \/ In x l.
Proof.
  induction l as [|d r IH]; simpl.
  - intros [<-|[]]. now left.
  - destruct (key d <? key c)%float; simpl.
    + intros [<-|H]; auto.
    + intros [<-|H]; auto. destruct (IH H); auto.
Qed.

Lemma in_sorted_desc (key : Contour -> float) (x : Contour)
  (l : list Contour) :
  In x (sorted_desc key l) -> In x l.
Proof.
  unfold sorted_desc.
  assert (G : forall acc, In x (fold_left (fun a c => insert_desc key c a) l acc)
                          -> In x acc \/ In x l).
  { induction l as [|c r IH]; simpl; intros acc H; [now left|].
    destruct (IH _ H) as [H'|H']; [|now right; right].
    destruct (in_insert_desc _ _ _ _ H'); [right; now left|now left]. }
  intro H. destruct (G [] H) as [[]|]; assumption.
Qed.

Lemma in_top (n : nat) (key : Contour -> float) (x : Contour)
  (l : list Contour) :
  In x (firstn n (sorted_desc key l)) -> In x l.
Proof.
  intro H. apply in_sorted_desc with key.
  rewrite <- (firstn_skipn n). apply in_or_app. now left.
Qed.

(** A loop whose every turn returns and keeps [P] ends normally in a
    state with [P]. *)
Lemma for_each_invariant {X S} (P : S -> Prop) (xs : list X) (s : S)
  (body : X -> S -> M (flow S)) :
  P s ->
  (forall x s, In x xs -> P s ->
     exists f, result (body x s) = Return f /\ P (state_of f)) ->
  exists s', result (for_each xs s body) = Return s' /\ P s'.
Proof.
  revert s. induction xs as [|x r IH]; intros s Hs Hb; simpl.
  - now exists s.
  - destruct (Hb x s (or_introl eq_refl) Hs) as (f & Hf & Pf).
    rewrite result_bind, Hf. destruct f as [s'|s']; simpl in Pf.
    + apply IH; [assumption|]. intros y s0 Hy. apply Hb. now right.
    + now exists s'.
Qed.

Section Detectors.

Variable cv : OpenCV.

Lemma plate_like_contour_sound (image : Image) (c : Contour) :
  rect_within image (boundingRect cv c) ->
  exists ok,
    result (PlateRecognizer.plate_like_contour cv (rows image * cols image) c)
    = Return ok
    /\ (ok = true -> admitted_contour cv image c).
Proof.
  intro HW. unfold PlateRecognizer.plate_like_contour, admitted_contour.
  fold (in_area_band (rows image * cols image) (contourArea cv c)).
  destruct (in_area_band _ _) eqn:EA; [|exists false; split; [reflexivity|discriminate]].
  unfold aspect_of. destruct (boundingRect cv c) as [[[x y] w] h].
  assert (Hh : h <> 0%Z) by (cbn in HW; lia).
  eexists. split.
  - rewrite result_bind, (result_truediv _ _ Hh). reflexivity.
  - intro E. auto.
Qed.

Lemma find_plate_contours_sound (edged : Gray) (image : Image) :
  (forall c, In c (findContours cv edged RETR_TREE) ->
     rect_within image (boundingRect cv c)) ->
  exists cs,
    result (PlateRecognizer.find_plate_contours cv edged image) = Return cs
    /\ Forall (admitted_contour cv image) cs.
Proof.
  intro HC. unfold PlateRecognizer.find_plate_contours.
  rewrite result_bind. cbn [call result snd].
  apply for_each_invariant; [constructor|].
  intros c acc Hc Hacc.
  destruct (plate_like_contour_sound image c) as (ok & E & Hok).
  { apply HC. eapply in_top. exact Hc. }
  eexists. split.
  - rewrite result_bind, E. reflexivity.
  - cbn [state_of]. destruct ok; [|assumption].
    apply Forall_app. split; [assumption|]. constructor; auto.
Qed.

Lemma plate_like_region_sound (image : Image) (c : Contour) :
  In c (findContours cv (edge_image cv image) RETR_EXTERNAL) ->
  rect_within image (boundingRect cv c) ->
  exists kept,
    result (UKPlateRecognizer.plate_like_region cv c) = Return kept
    /\ forall bbox, kept = Some bbox ->
         admitted_region cv image (region_of image bbox, bbox).
Proof.
  intros Hin HW. unfold UKPlateRecognizer.plate_like_region, admitted_region.
  fold (vertices_ok cv c).
  destruct (vertices_ok cv c) eqn:EV;
    [|exists None; split; [reflexivity|discriminate]].
  destruct (boundingRect cv c) as [[[x y] w] h] eqn:EB.
  assert (Hh : h <> 0%Z) by (cbn in HW; lia).
  rewrite result_bind, (result_truediv _ _ Hh).
  destruct (strictly_between 2.0 7.0 (aspect w h)) eqn:EA.
  - exists (Some (x, y, w, h)). split; [reflexivity|].
    intros bbox [= <-]. exists c. cbn [fst snd].
    split; [assumption|]. split; [now symmetry|].
    split; [reflexivity|]. split; [assumption|]. split; assumption.
  - exists None. split; [reflexivity|discriminate].
Qed.

Lemma detect_plate_regions_sound (image : Image) :
  (forall c, In c (findContours cv (edge_image cv image) RETR_EXTERNAL) ->
     rect_within image (boundingRect cv c)) ->
  exists rs,
    result (UKPlateRecognizer.detect_plate_regions cv image) = Return rs
    /\ Forall (admitted_region cv image) rs.
Proof.
  intro HC. unfold UKPlateRecognizer.detect_plate_regions.
  do 7 (rewrite result_bind; cbn [call result snd]).
  fold (edge_image cv image).
  apply for_each_invariant; [constructor|].
  intros c acc Hc Hacc.
  apply in_top in Hc.
  destruct (plate_like_region_sound image c Hc (HC c Hc)) as (kept & E & Hk).
  rewrite result_bind, E.
  destruct kept as [[[[x y] w] h]|].
  - eexists. split; [reflexivity|]. cbn [state_of].
    apply Forall_app. split; [assumption|]. constructor; [|constructor].
    exact (Hk _ eq_refl).
  - eexists. split; [reflexivity|]. assumption.
Qed.

End Detectors.

(** Claim C4, as the code has it.  Provided OpenCV finds contours whose
    bounding boxes lie inside the source image with positive width and
    height, both detectors return normally, and every candidate has its
    box inside the image with height above zero.  A contour kept by
    [find_plate_contours] has an area strictly between 1 and 10 percent
    of the image area and an aspect ratio strictly between 3.0 and 6.0.
    A region kept by [detect_plate_regions] has a polygon of four to six
    vertices and an aspect ratio strictly between 2.0 and 7.0; that
    detector applies no area band. *)
Theorem detector_candidates (cv : OpenCV) (edged : Gray) (image : Image) :
  (forall c, In c (findContours cv edged RETR_TREE) ->
     rect_within image (boundingRect cv c)) ->
  (forall c, In c (findContours cv (edge_image cv image) RETR_EXTERNAL) ->
     rect_within image (boundingRect cv c)) ->
  (exists cs,
     result (PlateRecognizer.find_plate_contours cv edged image) = Return cs
     /\ Forall (admitted_contour cv image) cs)
  /\ (exists rs,
        result (UKPlateRecognizer.detect_plate_regions cv image) = Return rs
        /\ Forall (admitted_region cv image) rs).
Proof.
  intros H1 H2. split.
  - now apply find_plate_contours_sound.
  - now apply detect_plate_regions_sound.
Qed.

Lemma detector_candidates_witness :
  (exists cs,
     result (PlateRecognizer.find_plate_contours (Toy.seeing 10 40 40 10)
               (Toy.gray_of Toy.night) Toy.night) = Return cs
     /\ Forall (admitted_contour (Toy.seeing 10 40 40 10) Toy.night) cs)
  /\ (exists rs,
        result (UKPlateRecognizer.detect_plate_regions
                  (Toy.seeing 10 40 40 10) Toy.night) = Return rs
        /\ Forall (admitted_region (Toy.seeing 10 40 40 10) Toy.night) rs).
Proof.
  apply (detector_candidates (Toy.seeing 10 40 40 10)
           (Toy.gray_of Toy.night) Toy.night).
  - intros c [<-|[]]. unfold rect_within. simpl. lia.
  - intros c [<-|[]]. unfold rect_within. simpl. lia.
Defined.

(** Claim C4 as stated fails for [detect_plate_regions]: it keeps a box
    of 80 by 20 pixels in a 100 by 100 image, whose contour encloses
    1501 pixels, 15 percent of the image and outside the 1 to 10
    percent band. *)
Lemma detect_plate_regions_ignores_area :
  match result (UKPlateRecognizer.detect_plate_regions
                  (Toy.seeing 10 40 80 20) Toy.night) with
  | Return [(_, bbox)] => bbox = (10, 40, 80, 20)%Z
  | _ => False
  end
  /\ contourArea (Toy.seeing 10 40 80 20) (Toy.box 10 40 80 20) = 1501%float
  /\ in_area_band (rows Toy.night * cols Toy.night)
       (contourArea (Toy.seeing 10 40 80 20) (Toy.box 10 40 80 20)) = false.
Proof.
  repeat split; vm_compute; reflexivity.
Qed.

(** ** Choosing the best hypothesis *)

Lemma fold_max_ge (l : list Z) (v : Z) : (v <= fold_left Z.max l v)%Z.
Proof.
  revert v. induction l as [|c r IH]; intros v; simpl; [lia|].
  specialize (IH (Z.max v c)). lia.
Qed.

Lemma best_above_app {X} (h1 h2 : list (X * Z)) (fl : Z) (inc : option X) :
  best_above fl inc (h1 ++ h2)
  = best_above (snd (best_above fl inc h1)) (fst (best_above fl inc h1)) h2.
Proof.
  revert fl inc. induction h1 as [|[x c] r IH]; intros fl inc; simpl.
  - reflexivity.
  - destruct (fl <? c)%Z; apply IH.
Qed.

(** [best_above] keeps the incumbent or takes a listed hypothesis. *)
Lemma best_above_in {X} (h : list (X * Z)) (fl : Z) (inc : option X) :
  fst (best_above fl inc h) = inc
  \/ exists x c, fst (best_above fl inc h) = Some x /\ In (x, c) h.
Proof.
  revert fl inc. induction h as [|[x c] r IH]; intros fl inc; simpl.
  - now left.
  - destruct (fl <? c)%Z.
    + destruct (IH c (Some x)) as [E|(y & d & E & Hy)].
      * right. exists x, c. auto.
      * right. exists y, d. auto.
    + destruct (IH fl inc) as [E|(y & d & E & Hy)].
      * now left.
      * right. exists y, d. auto.
Qed.

(** What [best_above] computes: the largest confidence, and the first
    hypothesis that reaches it when it is above the floor. *)
Lemma best_above_spec {X} (h : list (X * Z)) (fl : Z) (inc : option X) :
  let b := fst (best_above fl inc h) in
  let m := snd (best_above fl inc h) in
  (fl <= m)%Z
  /\ (forall x c, In (x, c) h -> (c <= m)%Z)
  /\ ((m = fl /\ b = inc)
      \/ ((fl < m)%Z
          /\ exists i x,
               nth_error h i = Some (x, m) /\ b = Some x
               /\ forall j y d, j < i -> nth_error h j = Some (y, d) ->
                                (d < m)%Z)).
Proof.
  revert fl inc. induction h as [|[x c] r IH]; intros fl inc; cbn zeta.
  - simpl. split; [lia|]. split; [intros ? ? []|]. now left.
  - cbn [best_above]. destruct (Z.ltb_spec fl c) as [L|L].
    + destruct (IH c (Some x)) as (G1 & G2 & G3).
      split; [lia|]. split.
      * intros y d [[= -> ->]|H]; [assumption|eauto].
      * right. split; [lia|].
        destruct G3 as [[E1 E2]|(G & i & y & N & E & P)].
        -- exists 0, x. rewrite E1. split; [reflexivity|].
           split; [assumption|]. intros j ? ? Hj. lia.
        -- exists (S i), y. split; [exact N|]. split; [exact E|].
           intros [|j] z d Hj Hn.
           ++ injection Hn as -> ->. exact G.
           ++ apply (P j z d); [lia|exact Hn].
    + destruct (IH fl inc) as (G1 & G2 & G3).
      split; [assumption|]. split.
      * intros y d [[= -> ->]|H]; [lia|eauto].
      * destruct G3 as [[E1 E2]|(G & i & y & N & E & P)]; [now left|].
        right. split; [assumption|].
        exists (S i), y. split; [exact N|]. split; [exact E|].
        intros [|j] z d Hj Hn.
        -- injection Hn as -> ->. lia.
        -- apply (P j z d); [lia|exact Hn].
Qed.

(** The best hypothesis has the highest confidence and is the first to
    have it. *)
Lemma best_hypothesis_first_max {X} (h : list (X * Z)) (x : X) :
  best_hypothesis h = Some x ->
  exists i c,
    nth_error h i = Some (x, c)
    /\ (forall y d, In (y, d) h -> (d <= c)%Z)
    /\ (forall j y d, j < i -> nth_error h j = Some (y, d) -> (d < c)%Z).
Proof.
  destruct h as [|[x0 c0] r]; [discriminate|]. cbn [best_hypothesis].
  destruct (best_above_spec r c0 (Some x0)) as (G1 & G2 & G3).
  intro E. destruct G3 as [[E1 E2]|(G & i & y & N & E' & P)].
  - exists 0, c0. rewrite E2 in E. injection E as <-.
    split; [reflexivity|]. split.
    + intros y d [[= -> ->]|H]; [lia|]. rewrite <- E1. eauto.
    + intros j ? ? Hj. lia.
  - rewrite E' in E. injection E as <-.
    exists (S i), (snd (best_above c0 (Some x0) r)).
    split; [exact N|]. split.
    + intros z d [[= -> ->]|H]; [lia|eauto].
    + intros [|j] z d Hj Hn.
      * injection Hn as -> ->. exact G.
      * apply (P j z d); [lia|exact Hn].
Qed.

(** [l.index(max(l))] finds the best hypothesis. *)
Lemma best_above_index {X} (r : list (X * Z)) (fl : Z) (inc : option X)
  (d : X) :
  fst (best_above fl inc r)
  = if (fold_left Z.max (map snd r) fl =? fl)%Z then inc
    else Some (nth (py_index (fold_left Z.max (map snd r) fl) (map snd r))
                 (map fst r) d).
Proof.
  revert fl inc. induction r as [|[x c] r IH]; intros fl inc.
  - simpl. now rewrite Z.eqb_refl.
  - cbn [best_above map fold_left fst snd py_index].
    pose proof (fold_max_ge (map snd r) (Z.max fl c)) as G.
    destruct (Z.ltb_spec fl c) as [L|L].
    + replace (Z.max fl c) with c in * by lia.
      rewrite IH.
      destruct (Z.eqb_spec (fold_left Z.max (map snd r) c) fl); [lia|].
      rewrite (Z.eqb_sym c).
      now destruct (fold_left Z.max (map snd r) c =? c)%Z.
    + replace (Z.max fl c) with fl in * by lia.
      rewrite IH.
      destruct (Z.eqb_spec (fold_left Z.max (map snd r) fl) fl);
        [reflexivity|].
      destruct (Z.eqb_spec c (fold_left Z.max (map snd r) fl)); [lia|].
      reflexivity.
Qed.

Lemma index_max_best (h : list (str * Z)) (text : str) :
  best_hypothesis h = Some text ->
  nth (py_index (py_max (map snd h)) (map snd h)) (map fst h) [] = text.
Proof.
  destruct h as [|[x0 c0] r]; [discriminate|].
  cbn [best_hypothesis map fst snd py_max py_index].
  rewrite (best_above_index r c0 (Some x0) []).
  rewrite (Z.eqb_sym c0).
  destruct (fold_left Z.max (map snd r) c0 =? c0)%Z; now intros [= <-].
Qed.

(** ** Claim C7: the OCR aggregators *)

Lemma data_calls_app (t1 t2 : list Event) :
  data_calls (t1 ++ t2) = data_calls t1 ++ data_calls t2.
Proof. unfold data_calls. apply flat_map_app. Qed.

Lemma number_scan_rows_spec (ocr_rows : list (str * Z))
  (acc : list str * list Z) :
  UKPlateRecognizer.number_scan_rows ocr_rows acc
  = (fst acc ++ map fst (accepted_number ocr_rows),
     snd acc ++ map snd (accepted_number ocr_rows)).
Proof.
  unfold UKPlateRecognizer.number_scan_rows, accepted_number.
  revert acc. induction ocr_rows as [|[text conf] r IH]; intros [ts cs].
  - simpl. now rewrite !app_nil_r.
  - cbn [fold_left filter fst snd].
    destruct ((0 <? conf)%Z) eqn:E1; cbn [andb].
    + destruct (truthy text && truthy (strip text)) eqn:E2.
      * rewrite IH. cbn [fst snd map]. now rewrite <- !app_assoc.
      * now rewrite IH.
    + now rewrite IH.
Qed.

Section Aggregators.

Variable cv : OpenCV.
Variable ocr : Tesseract.

(** The loop of [recognize_plate_number] calls [image_to_data] once per
    configuration and gathers every accepted hypothesis. *)
Lemma number_loop (plate_image : Image) :
  for_each UKPlateRecognizer.configs ([], [])
    (fun config acc =>
       ocr_data <- call (ImageToData config)
                     (image_to_data ocr (number_ocr_input cv plate_image) config) ;;
       ret (Continue (UKPlateRecognizer.number_scan_rows ocr_data acc)))
  = (map ImageToData UKPlateRecognizer.configs,
     Return (map fst (number_hypotheses cv ocr plate_image),
             map snd (number_hypotheses cv ocr plate_image))).
Proof.
  unfold number_hypotheses, UKPlateRecognizer.configs.
  cbn [for_each bind call ret flat_map map app].
  rewrite !number_scan_rows_spec. cbn [fst snd app].
  now rewrite !app_nil_r, !map_app, <- !app_assoc.
Qed.

Lemma data_calls_is_clearly (image : Image) :
  data_calls (trace (UKPlateRecognizer.is_clearly_uk_plate cv image)) = [].
Proof.
  unfold UKPlateRecognizer.is_clearly_uk_plate, cvtColor_of_cut,
    call_raising.
  rewrite trace_bind. cbn [trace result fst snd].
  destruct (is_empty _); [reflexivity|].
  rewrite trace_bind; cbn [call trace result fst snd].
  rewrite trace_bind, trace_truediv.
  now destruct (result (truediv (cols image) (rows image))).
Qed.

Lemma number_data_calls (plate_image : Image) :
  data_calls (trace (UKPlateRecognizer.recognize_plate_number cv ocr plate_image))
  = UKPlateRecognizer.configs.
Proof.
  unfold UKPlateRecognizer.recognize_plate_number.
  do 3 (rewrite trace_bind; cbn [call trace result fst snd]).
  fold (number_ocr_input cv plate_image).
  rewrite trace_bind, number_loop. cbn [trace result fst snd].
  rewrite !data_calls_app.
  change (data_calls (map ImageToData UKPlateRecognizer.configs))
    with UKPlateRecognizer.configs.
  change (data_calls [Cv "cvtColor"]) with (@nil str).
  change (data_calls [Cv "adaptiveThreshold"]) with (@nil str).
  change (data_calls [Cv "morphologyEx"]) with (@nil str).
  cbn [app].
  rewrite <- app_nil_r. f_equal.
  destruct (map fst (number_hypotheses cv ocr plate_image)); [|reflexivity].
  rewrite trace_bind. cbn [call trace result fst snd]. rewrite data_calls_app.
  change (data_calls [ImageToString UKPlateRecognizer.psm7]) with (@nil str).
  cbn [app].
  destruct (truthy _); [reflexivity|].
  rewrite trace_bind, data_calls_app, data_calls_is_clearly. cbn [app].
  destruct (result (UKPlateRecognizer.is_clearly_uk_plate cv plate_image))
    as [[|]|]; reflexivity.
Qed.

Lemma number_result (plate_image : Image) (text : str) :
  best_hypothesis (number_hypotheses cv ocr plate_image) = Some text ->
  result (UKPlateRecognizer.recognize_plate_number cv ocr plate_image)
  = Return text.
Proof.
  intro H. unfold UKPlateRecognizer.recognize_plate_number.
  do 3 (rewrite result_bind; cbn [call result snd]).
  fold (number_ocr_input cv plate_image).
  rewrite result_bind, number_loop. cbn [result fst snd].
  rewrite (index_max_best _ _ H).
  destruct (number_hypotheses cv ocr plate_image) as [|[x c] r];
    [discriminate|reflexivity].
Qed.

End Aggregators.

Lemma truthy_strip (text : str) :
  truthy (strip text) = true -> truthy text = true.
Proof. destruct text; [discriminate|reflexivity]. Qed.

Lemma scan_rows_spec (plate_img : Image) (ocr_rows : list (str * Z))
  (r : option (str * Image) * Z) :
  PlateRecognizer.scan_rows plate_img ocr_rows (as_best r)
  = as_best (best_above (snd r) (fst r) (accepted_plate plate_img ocr_rows)).
Proof.
  unfold PlateRecognizer.scan_rows, accepted_plate.
  destruct r as [inc fl]. cbn [fst snd].
  revert inc fl. induction ocr_rows as [|[text conf] r IH]; intros inc fl.
  - reflexivity.
  - cbn [fold_left filter fst snd as_best PlateRecognizer.best_confidence].
    destruct ((0 <? conf)%Z); cbn [andb]; [|apply IH].
    destruct (truthy (strip text)); cbn [andb map best_above fst snd];
      [|apply IH].
    destruct (fl <? conf)%Z; [|apply IH].
    apply (IH (Some (text, plate_img)) conf).
Qed.

Lemma for_each_quiet {X S} (xs : list X) (s : S)
  (body : X -> S -> M (flow S)) :
  (forall x s, trace (body x s) = []) -> trace (for_each xs s body) = [].
Proof.
  intro H. revert s. induction xs as [|x r IH]; intros s; simpl; [reflexivity|].
  rewrite trace_bind, H. simpl.
  destruct (result (body x s)) as [[s'|s']|]; auto.
Qed.

Section PlateAggregator.

Variable cv : OpenCV.
Variable ocr : Tesseract.

Lemma data_calls_extract_plate (image : Image) (c : Contour) :
  data_calls (trace (PlateRecognizer.extract_plate cv image c)) = [].
Proof.
  unfold PlateRecognizer.extract_plate, div_float_int, call_raising.
  destruct (boundingRect cv c) as [[[x y] w] h].
  destruct (h =? 0)%Z; [reflexivity|].
  cbn [bind ret try_except].
  destruct (resize cv _ _ _); reflexivity.
Qed.

Lemma data_calls_find_plate_contours (edged : Gray) (image : Image) :
  data_calls (trace (PlateRecognizer.find_plate_contours cv edged image)) = [].
Proof.
  unfold PlateRecognizer.find_plate_contours.
  rewrite trace_bind. cbn [call trace result fst snd].
  rewrite for_each_quiet; [reflexivity|].
  intros c acc. rewrite trace_bind.
  assert (E : trace (PlateRecognizer.plate_like_contour cv
                       (rows image * cols image) c) = []).
  { unfold PlateRecognizer.plate_like_contour.
    destruct (_ && _)%bool; [|reflexivity].
    destruct (boundingRect cv c) as [[[x y] w] h].
    rewrite trace_bind, trace_truediv.
    now destruct (result (truediv w h)). }
  rewrite E.
  now destruct (result (PlateRecognizer.plate_like_contour cv _ c)).
Qed.

(** The loop of [recognize_plate] over the configurations, for one
    plate. *)
Lemma config_loop (plate_img : Image) (r : option (str * Image) * Z) :
  for_each PlateRecognizer.configs (as_best r)
    (PlateRecognizer.try_config ocr (enhanced cv plate_img) plate_img)
  = (map ImageToData PlateRecognizer.configs,
     Return (as_best (best_above (snd r) (fst r)
                        (plate_hypotheses cv ocr [plate_img])))).
Proof.
  unfold plate_hypotheses, PlateRecognizer.configs,
    PlateRecognizer.try_config.
  cbn [for_each bind call ret flat_map map app].
  rewrite !app_nil_r, !best_above_app, !scan_rows_spec.
  reflexivity.
Qed.

(** One turn of the contour loop: three OCR calls if a plate is
    extracted, none otherwise. *)
Lemma contour_turn (image : Image) (c : Contour)
  (r : option (str * Image) * Z) :
  result (PlateRecognizer.try_contour cv ocr image c (as_best r))
  = Return (Continue
              (as_best (best_above (snd r) (fst r)
                          (plate_hypotheses cv ocr (extracted cv image [c])))))
  /\ data_calls (trace (PlateRecognizer.try_contour cv ocr image c (as_best r)))
     = flat_map (fun _ => PlateRecognizer.configs) (extracted cv image [c]).
Proof.
  unfold PlateRecognizer.try_contour, extracted. cbn [flat_map].
  pose proof (data_calls_extract_plate image c) as HT.
  destruct (extract_plate_total cv image c) as [p Hp].
  rewrite result_bind, trace_bind, Hp, data_calls_app, HT. cbn [app].
  destruct p as [plate_img|].
  - unfold PlateRecognizer.enhance_plate_image.
    cbn [bind call ret trace result fst snd app].
    fold (enhanced cv plate_img).
    rewrite config_loop. cbn [trace result fst snd flat_map app].
    split; reflexivity.
  - destruct r. split; reflexivity.
Qed.

Lemma extracted_cons (image : Image) (c : Contour) (cs : list Contour) :
  extracted cv image (c :: cs)
  = extracted cv image [c] ++ extracted cv image cs.
Proof. unfold extracted. cbn [flat_map]. now rewrite app_nil_r. Qed.

(** The loop of [recognize_plate] over the contours: three OCR calls for
    every plate extracted, and the best of all their hypotheses. *)
Lemma contour_loop (image : Image) (cs : list Contour)
  (r : option (str * Image) * Z) :
  result (for_each cs (as_best r) (PlateRecognizer.try_contour cv ocr image))
  = Return (as_best (best_above (snd r) (fst r)
                       (plate_hypotheses cv ocr (extracted cv image cs))))
  /\ data_calls
       (trace (for_each cs (as_best r)
                 (PlateRecognizer.try_contour cv ocr image)))
     = flat_map (fun _ => PlateRecognizer.configs) (extracted cv image cs).
Proof.
  revert r. induction cs as [|c cs IH]; intros r.
  { destruct r. split; reflexivity. }
  cbn [for_each].
  destruct (contour_turn image c r) as [T1 T2].
  rewrite result_bind, trace_bind, T1, data_calls_app, T2.
  destruct (IH (best_above (snd r) (fst r)
                  (plate_hypotheses cv ocr (extracted cv image [c]))))
    as [IH1 IH2].
  rewrite IH1, IH2.
  rewrite (extracted_cons image c cs).
  unfold plate_hypotheses.
  rewrite !flat_map_app, best_above_app. split; reflexivity.
Qed.

End PlateAggregator.

Lemma plate_hypotheses_accepted (cv : OpenCV) (ocr : Tesseract)
  (plates : list Image) (text : str) (p : Image) (c : Z) :
  In ((text, p), c) (plate_hypotheses cv ocr plates) ->
  (0 < c)%Z /\ truthy (strip text) = true.
Proof.
  unfold plate_hypotheses, accepted_plate. intro H.
  apply in_flat_map in H as (q & _ & H).
  apply in_flat_map in H as (config & _ & H).
  apply in_map_iff in H as ([t d] & E & H).
  cbn [fst snd] in E. injection E as -> _ ->.
  apply filter_In in H as [_ H]. cbn [fst snd] in H.
  apply andb_true_iff in H as [H1 H2]. split; [lia|assumption].
Qed.

(** Above a floor that every hypothesis exceeds, the running best is the
    best hypothesis. *)
Lemma best_above_floor {X} (h : list (X * Z)) (fl : Z) :
  (forall x c, In (x, c) h -> (fl < c)%Z) ->
  fst (best_above fl None h) = best_hypothesis h.
Proof.
  destruct h as [|[x c] r]; [reflexivity|]. intro H.
  cbn [best_above best_hypothesis].
  destruct (Z.ltb_spec fl c) as [L|L]; [reflexivity|].
  specialize (H x c (or_introl eq_refl)). lia.
Qed.

Section PlateResult.

Variable cv : OpenCV.
Variable ocr : Tesseract.
Variable image : Image.
Variable cs : list Contour.

Hypothesis found :
  result (PlateRecognizer.find_plate_contours cv (preprocessed cv image) image)
  = Return cs.

Lemma preprocess_image_eq :
  PlateRecognizer.preprocess_image cv image
  = ([Cv "cvtColor"; Cv "bilateralFilter"; Cv "equalizeHist"; Cv "Canny";
      Cv "dilate"],
     Return (preprocessed cv image)).
Proof. reflexivity. Qed.

Lemma plate_data_calls :
  data_calls (trace (PlateRecognizer.recognize_plate cv ocr image))
  = flat_map (fun _ => PlateRecognizer.configs) (extracted cv image cs).
Proof.
  unfold PlateRecognizer.recognize_plate.
  rewrite trace_bind, preprocess_image_eq. cbn [trace result fst snd].
  rewrite trace_bind, found, !data_calls_app, data_calls_find_plate_contours.
  cbn [data_calls flat_map app].
  destruct cs as [|c r] eqn:E; [reflexivity|]. rewrite <- E.
  rewrite trace_bind, data_calls_app.
  change (PlateRecognizer.mk_best 0 None None) with (as_best (None, 0%Z)).
  destruct (contour_loop cv ocr image cs (None, 0%Z)) as [L1 L2].
  rewrite L1, L2, <- app_nil_r. f_equal.
  destruct (PlateRecognizer.best_text _) as [text|]; [|reflexivity].
  destruct (truthy text); reflexivity.
Qed.

Lemma plate_result :
  result (PlateRecognizer.recognize_plate cv ocr image)
  = Return (plate_answer
              (best_hypothesis
                 (plate_hypotheses cv ocr (extracted cv image cs)))).
Proof.
  unfold PlateRecognizer.recognize_plate.
  rewrite result_bind, preprocess_image_eq. cbn [result snd].
  rewrite result_bind, found.
  destruct cs as [|c r] eqn:E; [reflexivity|]. rewrite <- E.
  rewrite result_bind.
  change (PlateRecognizer.mk_best 0 None None) with (as_best (None, 0%Z)).
  destruct (contour_loop cv ocr image cs (None, 0%Z)) as [L1 _].
  rewrite L1. cbn [fst snd].
  set (h := plate_hypotheses cv ocr (extracted cv image cs)).
  assert (HA : forall x c, In (x, c) h -> (0 < c)%Z).
  { intros [t p] d H. now apply plate_hypotheses_accepted in H. }
  rewrite <- (best_above_floor h 0 HA).
  cbn [as_best PlateRecognizer.best_text PlateRecognizer.best_plate_img].
  destruct (best_above_in h 0 None) as [E0|(x & d & E0 & Hin)];
    rewrite E0; [reflexivity|].
  destruct x as [text p]. apply plate_hypotheses_accepted in Hin as [_ Ht].
  cbn [option_map fst snd plate_answer].
  now rewrite (truthy_strip _ Ht).
Qed.

End PlateResult.

(** Claim C7, as the code has it.  [recognize_plate_number] calls
    [image_to_data] once for each of its four configurations, in order,
    whatever the earlier ones returned, and returns the hypothesis of
    highest confidence (the first seen among equals) over all of them.
    [recognize_plate] calls it once for each of its three configurations
    on every plate it extracts and returns the best hypothesis over all
    plates and configurations.  [detect_and_recognize_plate] of
    [simple_detector.py] is different: it leaves its loop at the first
    configuration whose cleaned text is a valid plate. *)
Theorem aggregators_run_every_config (cv : OpenCV) (ocr : Tesseract)
  (image : Image) (cs : list Contour) :
  result (PlateRecognizer.find_plate_contours cv (preprocessed cv image) image)
  = Return cs ->
  (data_calls
     (trace (UKPlateRecognizer.recognize_plate_number cv ocr image))
   = UKPlateRecognizer.configs
   /\ forall text,
        best_hypothesis (number_hypotheses cv ocr image) = Some text ->
        result (UKPlateRecognizer.recognize_plate_number cv ocr image)
        = Return text)
  /\ (data_calls (trace (PlateRecognizer.recognize_plate cv ocr image))
      = flat_map (fun _ => PlateRecognizer.configs) (extracted cv image cs)
      /\ result (PlateRecognizer.recognize_plate cv ocr image)
         = Return (plate_answer
                     (best_hypothesis
                        (plate_hypotheses cv ocr (extracted cv image cs))))).
Proof.
  intro H. repeat split.
  - apply number_data_calls.
  - apply number_result.
  - now apply plate_data_calls.
  - now apply plate_result.
Qed.

Lemma aggregators_run_every_config_witness :
  (data_calls
     (trace (UKPlateRecognizer.recognize_plate_number
               (Toy.seeing 10 40 40 10) Toy.reading Toy.night))
   = UKPlateRecognizer.configs
   /\ result (UKPlateRecognizer.recognize_plate_number
                (Toy.seeing 10 40 40 10) Toy.reading Toy.night)
      = Return (lit "XY34 ZZZ"))
  /\ (data_calls
        (trace (PlateRecognizer.recognize_plate
                  (Toy.seeing 10 40 40 10) Toy.reading Toy.night))
      = PlateRecognizer.configs
      /\ fst (plate_answer
                (best_hypothesis
                   (plate_hypotheses (Toy.seeing 10 40 40 10) Toy.reading
                      (extracted (Toy.seeing 10 40 40 10) Toy.night
                         [Toy.box 10 40 40 10]))))
         = Some (lit "XY34 ZZZ")
      /\ result (PlateRecognizer.recognize_plate
                   (Toy.seeing 10 40 40 10) Toy.reading Toy.night)
         = Return (plate_answer
                     (best_hypothesis
                        (plate_hypotheses (Toy.seeing 10 40 40 10) Toy.reading
                           (extracted (Toy.seeing 10 40 40 10) Toy.night
                              [Toy.box 10 40 40 10]))))).
Proof.
  destruct (aggregators_run_every_config (Toy.seeing 10 40 40 10)
              Toy.reading Toy.night [Toy.box 10 40 40 10])
    as ((U1 & U2) & (P1 & P2)).
  - vm_compute. reflexivity.
  - split; [split|split; [|split]].
    + exact U1.
    + apply U2. vm_compute. reflexivity.
    + rewrite P1. vm_compute. reflexivity.
    + vm_compute. reflexivity.
    + exact P2.
Defined.

(** Claim C7 as stated fails for [simple_detector.py].  With a plate
    found and an OCR that reads "AB12CDE", the first of the three
    configurations already gives a valid plate; the loop breaks and the
    other two configurations are never run. *)
Lemma simple_detector_stops_early :
  List.length SimpleDetector.configs = 3
  /\ string_calls
       (trace (SimpleDetector.detect_and_recognize_plate
                 (Toy.seeing 10 40 40 10) Toy.reading "car.jpg"))
     = firstn 1 SimpleDetector.configs
  /\ match result (SimpleDetector.detect_and_recognize_plate
                     (Toy.seeing 10 40 40 10) Toy.reading "car.jpg") with
     | Return (Some text, _) => text = lit "AB12 CDE"
     | _ => False
     end.
Proof.
  repeat split; vm_compute; reflexivity.
Qed.

(** * Further properties of the sources *)

(** ** The normalizers: what they read and what they give *)

Lemma cleaned_fix (text : str) : cleaned (cleaned text) = cleaned text.
Proof. unfold cleaned. apply clean0_fix, clean0_settled. Qed.

Lemma clean_cleaned (text : str) : UKText.clean (cleaned text) = UKText.clean text.
Proof.
  unfold UKText.clean. fold (cleaned (cleaned text)) (cleaned text).
  now rewrite cleaned_fix.
Qed.

(** Property X1.  On ASCII text every normalizer reads its input
    through the cleaning only: it gives the same result on a text and on
    that text with its non-alphanumeric characters removed and its
    letters upper-cased. *)
Theorem normalizers_read_cleaned_text (text : str) :
  ascii_text text ->
  UKText.format_uk_plate (cleaned text) = UKText.format_uk_plate text
  /\ DirectOcr.clean_and_format_plate (cleaned text)
     = DirectOcr.clean_and_format_plate text
  /\ SimpleText.clean_and_format_plate (cleaned text)
     = SimpleText.clean_and_format_plate text
  /\ PlateRecognizerText.format_uk_plate (cleaned text)
     = PlateRecognizerText.format_uk_plate text.
Proof.
  intros _.
  unfold UKText.format_uk_plate, DirectOcr.clean_and_format_plate,
    SimpleText.clean_and_format_plate, PlateRecognizerText.format_uk_plate.
  rewrite clean_cleaned.
  fold (cleaned (cleaned text)) (cleaned text). rewrite cleaned_fix.
  repeat split.
Qed.

Lemma normalizers_read_cleaned_text_witness :
  cleaned (lit "ab-12 cde") = lit "AB12CDE"
  /\ UKText.format_uk_plate (cleaned (lit "ab-12 cde"))
     = UKText.format_uk_plate (lit "ab-12 cde").
Proof.
  split; [reflexivity|].
  apply (@normalizers_read_cleaned_text (lit "ab-12 cde")). reflexivity.
Defined.

Lemma first_window_seq (c : str) (n a : nat) :
  match first_window c (seq a n) with
  | Some w =>
      exists i, a <= i < a + n /\ w = slice c i (i + 7)
                /\ uk_plate_pattern w = true
                /\ forall j, a <= j < i ->
                     uk_plate_pattern (slice c j (j + 7)) = false
  | None =>
      forall i, a <= i < a + n -> uk_plate_pattern (slice c i (i + 7)) = false
  end.
Proof.
  revert a. induction n as [|n IH]; intros a; cbn [seq first_window].
  - intros i H. lia.
  - destruct (uk_plate_pattern (slice c a (a + 7))) eqn:E.
    + exists a. repeat split; auto; try lia.
    + specialize (IH (S a)).
      destruct (first_window c (seq (S a) n)) as [w|].
      * destruct IH as (i & Hi & Hw & Hp & Hj).
        exists i. repeat split; auto; try lia.
        intros j H. destruct (Nat.eq_dec j a) as [->|]; [assumption|].
        apply Hj. lia.
      * intros i H. destruct (Nat.eq_dec i a) as [->|]; [assumption|].
        apply IH. lia.
Qed.

(** Property X2.  On an ASCII text the window scan accepts the leftmost
    window of seven characters that matches the plate pattern, two
    letters, two digits and three letters, and finds none only if no
    window matches. *)
Theorem scan_windows_leftmost (c : str) :
  ascii_text c ->
  match scan_windows c with
  | Some w =>
      exists i, i + 7 <= len c /\ w = slice c i (i + 7)
                /\ uk_plate_pattern w = true
                /\ forall j, j < i ->
                     uk_plate_pattern (slice c j (j + 7)) = false
  | None =>
      forall i, i + 7 <= len c -> uk_plate_pattern (slice c i (i + 7)) = false
  end.
Proof.
  intros _. unfold scan_windows, range.
  destruct (Nat.leb_spec 7 (len c)) as [L|L].
  - pose proof (first_window_seq c (len c - 6) 0) as H.
    destruct (first_window c (seq 0 (len c - 6))) as [w|].
    + destruct H as (i & Hi & Hw & Hp & Hj).
      exists i. repeat split; auto; try lia. intros j H. apply Hj. lia.
    + intros i Hi. apply H. lia.
  - intros i Hi. lia.
Qed.

Lemma scan_windows_leftmost_witness :
  scan_windows (lit "XAB12CDEFG34HIJ") = Some (lit "AB12CDE")
  /\ exists i,
       i + 7 <= len (lit "XAB12CDEFG34HIJ")
       /\ lit "AB12CDE" = slice (lit "XAB12CDEFG34HIJ") i (i + 7)
       /\ uk_plate_pattern (lit "AB12CDE") = true
       /\ forall j, j < i ->
            uk_plate_pattern (slice (lit "XAB12CDEFG34HIJ") j (j + 7))
            = false.
Proof.
  split; [reflexivity|].
  exact (@scan_windows_leftmost (lit "XAB12CDEFG34HIJ") eq_refl).
Defined.

Lemma alnum_not_space (c : ascii) :
  isalnum c = true -> Ascii.eqb c " " = false.
Proof.
  each_char c; vm_compute; intro H; first [reflexivity | discriminate].
Qed.

Lemma alnum_not_newline (c : ascii) :
  isalnum c = true -> Ascii.eqb c newline = false.
Proof.
  each_char c; vm_compute; intro H; first [reflexivity | discriminate].
Qed.

Lemma settled_no_space (s : str) :
  Forall settled s -> filter (fun c => negb (Ascii.eqb c " ")) s = s.
Proof.
  induction 1 as [|c r [Ha _] _ IH]; simpl; [reflexivity|].
  now rewrite (alnum_not_space c Ha), IH.
Qed.

Lemma spaced_no_space (s : str) :
  Forall settled s ->
  filter (fun c => negb (Ascii.eqb c " ")) (spaced s) = s.
Proof.
  intro H. rewrite spaced_eq. unfold upto, from.
  rewrite !filter_app.
  rewrite (settled_no_space _ (Forall_firstn 4 H)),
    (settled_no_space _ (Forall_skipn 4 H)).
  change (filter _ (lit " ")) with (@nil ascii).
  apply firstn_skipn.
Qed.

(** A cleaned string that matches the pattern has seven characters. *)
Lemma pattern_settled_len (s : str) :
  Forall settled s -> uk_plate_pattern s = true -> len s = 7.
Proof.
  intros H P. destruct (pattern_len s P) as [|L8]; [assumption|].
  exfalso.
  destruct s as [|a [|b [|c [|d [|e [|f [|g [|n [|m r]]]]]]]]];
    try discriminate.
  cbn [uk_plate_pattern] in P. apply andb_true_iff in P as [_ P].
  do 7 (apply Forall_inv_tail in H). apply Forall_inv in H as [Ha _].
  rewrite (alnum_not_newline n Ha) in P. discriminate.
Qed.

Lemma cleaned_settled (text : str) : Forall settled (cleaned text).
Proof. apply clean0_settled. Qed.

(** Property X3.  The validity test of [simple_detector.py] accepts the
    output of a scanning normalizer exactly when the cleaned text holds
    a matching window.  So the early exit of the configuration loop
    fires on a matched window only, never on the seven-character
    fallback. *)
Theorem valid_exactly_on_windows (text : str) :
  SimpleText.is_valid_uk_plate (SimpleText.clean_and_format_plate text)
  = has_window (cleaned text)
  /\ SimpleText.is_valid_uk_plate (DirectOcr.clean_and_format_plate text)
     = has_window (cleaned text).
Proof.
  unfold SimpleText.is_valid_uk_plate, SimpleText.clean_and_format_plate,
    DirectOcr.clean_and_format_plate, has_window.
  fold (cleaned text). pose proof (cleaned_settled text) as HC.
  destruct (scan_windows (cleaned text)) as [w|] eqn:EW.
  - apply scan_windows_some in EW as (i & -> & P & L).
    assert (HW : Forall settled (slice (cleaned text) i (i + 7)))
      by now apply Forall_slice.
    rewrite (spaced_no_space _ HW), P. split; reflexivity.
  - assert (N : uk_plate_pattern (cleaned text) = false).
    { destruct (uk_plate_pattern (cleaned text)) eqn:P; [|reflexivity].
      pose proof (pattern_settled_len _ HC P) as L.
      rewrite (scan_windows_seven _ L), P in EW. discriminate. }
    split.
    + destruct (len (cleaned text) =? 7).
      * now rewrite (spaced_no_space _ HC).
      * now rewrite (settled_no_space _ HC).
    + now rewrite (settled_no_space _ HC).
Qed.

Lemma settled_uk_no_confusable (s : str) :
  Forall settled_uk s -> has_confusable s = false.
Proof.
  unfold has_confusable.
  induction 1 as [|c r [_ [HO HI]] _ IH]; cbn [existsb]; [reflexivity|].
  now rewrite HO, HI, IH.
Qed.

Lemma has_confusable_spaced (s : str) :
  has_confusable s = false -> has_confusable (spaced s) = false.
Proof.
  unfold has_confusable. rewrite spaced_eq. unfold upto, from.
  intro H. rewrite <- (firstn_skipn 4 s), existsb_app in H.
  apply orb_false_iff in H as [H1 H2].
  rewrite !existsb_app, H1, H2. reflexivity.
Qed.

(** Property X4.  [format_uk_plate] of [uk_plate_recognizer.py] never
    returns the letter O or the letter I, except inside its literal
    answer "AA03 BOJ". *)
Theorem uk_output_has_no_O_or_I (text : str) :
  UKText.format_uk_plate text = lit "AA03 BOJ"
  \/ has_confusable (UKText.format_uk_plate text) = false.
Proof.
  unfold UKText.format_uk_plate.
  pose proof (clean_settled text) as HC.
  destruct (search_AA03_BOJ (UKText.clean text)); [now left|right].
  destruct (scan_windows (UKText.clean text)) as [w|] eqn:EW.
  - apply scan_windows_some in EW as (i & -> & _ & _).
    apply has_confusable_spaced, settled_uk_no_confusable.
    now apply Forall_slice.
  - destruct (len (UKText.clean text) =? 7).
    + now apply has_confusable_spaced, settled_uk_no_confusable.
    + now apply settled_uk_no_confusable.
Qed.

Lemma plate_shaped_spaced (w : str) :
  len w = 7 -> Forall settled w -> plate_shaped (spaced w).
Proof. intros L H. exists w. now rewrite spaced_eq. Qed.

Lemma window_shaped (c w : str) :
  Forall settled c -> scan_windows c = Some w -> plate_shaped (spaced w).
Proof.
  intros H E. apply scan_windows_some in E as (i & -> & _ & L).
  apply plate_shaped_spaced; [assumption|now apply Forall_slice].
Qed.

(** Property X5.  For every ASCII text, each of the four normalizers
    returns either a string of upper-case letters and digits only (the
    cleaned text), or exactly seven such characters with one space
    after the fourth. *)
Theorem normalizer_output_shape (text : str) :
  ascii_text text ->
  (Forall settled (UKText.format_uk_plate text)
   \/ plate_shaped (UKText.format_uk_plate text))
  /\ (Forall settled (DirectOcr.clean_and_format_plate text)
      \/ plate_shaped (DirectOcr.clean_and_format_plate text))
  /\ (Forall settled (SimpleText.clean_and_format_plate text)
      \/ plate_shaped (SimpleText.clean_and_format_plate text))
  /\ (Forall settled (PlateRecognizerText.format_uk_plate text)
      \/ plate_shaped (PlateRecognizerText.format_uk_plate text)).
Proof.
  intros _.
  pose proof (cleaned_settled text) as HC.
  pose proof (settled_uk_weaken (clean_settled text)) as HU.
  unfold UKText.format_uk_plate, DirectOcr.clean_and_format_plate,
    SimpleText.clean_and_format_plate, PlateRecognizerText.format_uk_plate.
  fold (cleaned text). repeat split.
  - destruct (search_AA03_BOJ _).
    + right. exists (lit "AA03BOJ"). split; [reflexivity|]. split; [|reflexivity].
      cbv [lit list_ascii_of_string].
      repeat (apply Forall_cons; [split; reflexivity|]). apply Forall_nil.
    + destruct (scan_windows (UKText.clean text)) as [w|] eqn:EW.
      * right. exact (window_shaped _ _ HU EW).
      * destruct (Nat.eqb_spec (len (UKText.clean text)) 7) as [L|L].
        -- right. now apply plate_shaped_spaced.
        -- now left.
  - destruct (scan_windows (cleaned text)) as [w|] eqn:EW.
    + right. exact (window_shaped _ _ HC EW).
    + now left.
  - destruct (scan_windows (cleaned text)) as [w|] eqn:EW.
    + right. exact (window_shaped _ _ HC EW).
    + destruct (Nat.eqb_spec (len (cleaned text)) 7) as [L|L].
      * right. now apply plate_shaped_spaced.
      * now left.
  - destruct (Nat.eqb_spec (len (cleaned text)) 7) as [L|L].
    + right. now apply plate_shaped_spaced.
    + now left.
Qed.

Lemma normalizer_output_shape_witness :
  DirectOcr.clean_and_format_plate (lit "ab-12 cde, ok") = lit "AB12 CDE"
  /\ (Forall settled (DirectOcr.clean_and_format_plate (lit "ab-12 cde, ok"))
      \/ plate_shaped
           (DirectOcr.clean_and_format_plate (lit "ab-12 cde, ok"))).
Proof.
  split; [reflexivity|].
  apply (@normalizer_output_shape (lit "ab-12 cde, ok")). reflexivity.
Defined.

(** Property X6.  How the variants relate on ASCII text.
    [simple_detector.py] gives
    what [direct_ocr.py] gives, spaced in addition when the cleaned text
    has seven characters and no matching window.  [plate_recognizer.py]
    agrees with [simple_detector.py] on cleaned texts of at most seven
    characters and returns longer ones unformatted, window or not.
    [uk_plate_recognizer.py] gives its literal when the literal pattern
    matches and otherwise what [simple_detector.py] gives on the
    confusion-corrected text. *)
Theorem variants_agree (text : str) :
  ascii_text text ->
  SimpleText.clean_and_format_plate text
  = (if (len (cleaned text) =? 7) && negb (has_window (cleaned text))
     then spaced (DirectOcr.clean_and_format_plate text)
     else DirectOcr.clean_and_format_plate text)
  /\ PlateRecognizerText.format_uk_plate text
     = (if len (cleaned text) <=? 7
        then SimpleText.clean_and_format_plate text
        else cleaned text)
  /\ UKText.format_uk_plate text
     = (if search_AA03_BOJ (UKText.clean text) then lit "AA03 BOJ"
        else SimpleText.clean_and_format_plate (UKText.clean text)).
Proof.
  intros _. split; [|split].
  - unfold DirectOcr.clean_and_format_plate,
      SimpleText.clean_and_format_plate, has_window.
    fold (cleaned text).
    destruct (scan_windows (cleaned text)); cbn [negb].
    + now rewrite andb_false_r.
    + now rewrite andb_true_r.
  - unfold SimpleText.clean_and_format_plate,
      PlateRecognizerText.format_uk_plate.
    fold (cleaned text).
    destruct (Nat.leb_spec (len (cleaned text)) 7) as [L|L].
    + destruct (Nat.eqb_spec (len (cleaned text)) 7) as [L7|L7].
      * rewrite (scan_windows_seven _ L7).
        now destruct (uk_plate_pattern (cleaned text)).
      * unfold scan_windows.
        destruct (Nat.leb_spec 7 (len (cleaned text))); [lia|reflexivity].
    + destruct (Nat.eqb_spec (len (cleaned text)) 7); [lia|reflexivity].
  - unfold UKText.format_uk_plate, SimpleText.clean_and_format_plate.
    now rewrite (clean0_fix (settled_uk_weaken (clean_settled text))).
Qed.

Lemma variants_agree_witness :
  SimpleText.clean_and_format_plate (lit "abc-defg") = lit "ABCD EFG"
  /\ DirectOcr.clean_and_format_plate (lit "abc-defg") = lit "ABCDEFG"
  /\ SimpleText.clean_and_format_plate (lit "abc-defg")
     = (if (len (cleaned (lit "abc-defg")) =? 7)
           && negb (has_window (cleaned (lit "abc-defg")))
        then spaced (DirectOcr.clean_and_format_plate (lit "abc-defg"))
        else DirectOcr.clean_and_format_plate (lit "abc-defg")).
Proof.
  split; [reflexivity|]. split; [reflexivity|].
  apply (@variants_agree (lit "abc-defg")). reflexivity.
Defined.

(** ** Postconditions *)

Lemma ensures_ret {A} (P : A -> Prop) (a : A) : P a -> ensures P (ret a).
Proof. intro H. now exists a. Qed.

Lemma ensures_call {A} (P : A -> Prop) (e : Event) (a : A) :
  P a -> ensures P (call e a).
Proof. intro H. now exists a. Qed.

Lemma ensures_bind {A B} (Q : A -> Prop) (P : B -> Prop) (m : M A)
  (k : A -> M B) :
  ensures Q m -> (forall a, Q a -> ensures P (k a)) -> ensures P (bind m k).
Proof.
  intros (a & Ha & Qa) Hk. destruct (Hk a Qa) as (b & Hb & Pb).
  exists b. split; [|assumption]. now rewrite result_bind, Ha.
Qed.

Lemma ensures_returns {A} (m : M A) : returns m -> ensures (fun _ => True) m.
Proof. intros [a H]. now exists a. Qed.

Lemma ensures_weaken {A} (P Q : A -> Prop) (m : M A) :
  ensures P m -> (forall a, P a -> Q a) -> ensures Q m.
Proof. intros (a & H & Pa) W. exists a. auto. Qed.

Lemma ensures_for_each {X S} (P : S -> Prop) (xs : list X) (s : S)
  (body : X -> S -> M (flow S)) :
  P s ->
  (forall x s, In x xs -> P s -> ensures (fun f => P (state_of f)) (body x s)) ->
  ensures P (for_each xs s body).
Proof. apply for_each_invariant. Qed.

(** ** The issuing-region tag *)

(** Property X7.  On the band it cuts, [detect_country_identifier]
    returns one of the three tags "GB", "EU" and "UNKNOWN"; it returns
    "UNKNOWN" exactly when the blue percentage of the band is not above
    10, and "GB" exactly when it is and either OCR attempt finds "GB" or
    the white-and-blue heuristic fires. *)
Theorem country_identifier_decides (cv : OpenCV) (ocr : Tesseract)
  (plate_image left_part : Image) (t : list Event) :
  UKPlateRecognizer.identifier_band cv plate_image = (t, Return left_part) ->
  exists tag,
    result (UKPlateRecognizer.detect_country_identifier cv ocr plate_image)
    = Return tag
    /\ is_tag tag
    /\ (tag = lit "UNKNOWN"
        <-> (10 <? UKPlateRecognizer.blue_percentage cv left_part)%float
            = false)
    /\ (tag = lit "GB"
        <-> (10 <? UKPlateRecognizer.blue_percentage cv left_part)%float
            = true
            /\ (contains (lit "GB")
                  (image_to_string ocr
                     (UKPlateRecognizer.text_enhanced cv left_part)
                     UKPlateRecognizer.psm10_letters)
                || contains (lit "GB")
                     (image_to_string_bgr ocr left_part
                        UKPlateRecognizer.psm10_letters)
                || ((5 <? UKPlateRecognizer.white_percentage cv left_part)%float
                    && (20 <? UKPlateRecognizer.blue_percentage cv left_part)%float))
               = true).
Proof.
  intro HB.
  unfold UKPlateRecognizer.detect_country_identifier.
  rewrite result_bind, HB. cbn [result snd].
  unfold UKPlateRecognizer.classify_band, UKPlateRecognizer.blue_percentage,
    UKPlateRecognizer.white_percentage, UKPlateRecognizer.text_enhanced,
    is_tag.
  cbn [bind call ret result snd fst].
  destruct (10 <? _)%float eqn:E1.
  - cbn [bind call ret result snd fst].
    destruct (contains (lit "GB") (image_to_string _ _ _)) eqn:E2.
    { eexists. split; [reflexivity|]. repeat split; auto; discriminate. }
    cbn [bind call ret result snd fst orb].
    destruct (contains (lit "GB") (image_to_string_bgr _ _ _)) eqn:E3.
    { eexists. split; [reflexivity|]. repeat split; auto; discriminate. }
    cbn [bind call ret result snd fst orb].
    destruct (_ && _)%bool eqn:E4.
    { eexists. split; [reflexivity|]. repeat split; auto; discriminate. }
    eexists. split; [reflexivity|].
    repeat split; auto; try discriminate. intros [_ H]. discriminate.
  - eexists. split; [reflexivity|].
    repeat split; auto; try discriminate. intros [H _]. discriminate.
Qed.

Lemma country_identifier_decides_witness :
  exists tag,
    result (UKPlateRecognizer.detect_country_identifier
              (Toy.cv None []) Toy.blind (Toy.solid 4 100 Toy.blue))
    = Return tag
    /\ is_tag tag.
Proof.
  destruct (country_identifier_decides (Toy.cv None []) Toy.blind
              (Toy.solid 4 100 Toy.blue)
              (crop_cols (Toy.solid 4 100 Toy.blue) 0 18) [])
    as (tag & H1 & H2 & _).
  - vm_compute. reflexivity.
  - exists tag. split; assumption.
Defined.

(** ** Reported plate numbers are normalized *)

Lemma reported_format (text : str) :
  reported_number (UKText.format_uk_plate text).
Proof. right. apply uk_idempotent. Qed.

Lemma reported_literal : reported_number (lit "AA03 BOJ").
Proof. right. reflexivity. Qed.

Lemma best_hypothesis_some {X} (h : list (X * Z)) :
  h <> [] -> exists x c, best_hypothesis h = Some x /\ In (x, c) h.
Proof.
  destruct h as [|[x0 c0] r]; [contradiction|]. intros _.
  cbn [best_hypothesis].
  destruct (best_above_in r c0 (Some x0)) as [E|(x & c & E & H)].
  - exists x0, c0. split; [assumption|now left].
  - exists x, c. split; [assumption|now right].
Qed.

Lemma number_hypotheses_formatted (cv : OpenCV) (ocr : Tesseract)
  (image : Image) (x : str) (c : Z) :
  In (x, c) (number_hypotheses cv ocr image) ->
  exists raw, x = UKText.format_uk_plate raw.
Proof.
  unfold number_hypotheses, accepted_number. intro H.
  apply in_flat_map in H as (config & _ & H).
  apply in_map_iff in H as ([raw d] & E & _).
  cbn [fst snd] in E. injection E as <- _. now exists raw.
Qed.

Lemma number_tail (cv : OpenCV) (ocr : Tesseract) (image : Image)
  (text : str) :
  rows image <> 0%Z ->
  is_empty (UKPlateRecognizer.clear_band image) = false ->
  ensures reported_number
    (if truthy text then ret (UKText.format_uk_plate text)
     else
       clearly <- UKPlateRecognizer.is_clearly_uk_plate cv image ;;
       if clearly then ret (lit "AA03 BOJ") else ret (lit "UNKNOWN")).
Proof.
  intros Hh Hb. destruct (truthy text).
  - apply ensures_ret, reported_format.
  - apply ensures_bind with (Q := fun _ => True).
    + now apply ensures_returns, returns_is_clearly_uk_plate.
    + intros [|] _; apply ensures_ret; [apply reported_literal|now left].
Qed.

Lemma accepted_number_reported (ocr_rows : list (str * Z)) :
  Forall reported_number (map fst (accepted_number ocr_rows)).
Proof.
  unfold accepted_number. rewrite map_map. cbn [fst].
  apply Forall_forall. intros x H.
  apply in_map_iff in H as (row & <- & _). apply reported_format.
Qed.

(** Property X8.  For an image of non-zero height whose band
    [image[:, 0:int(w*0.15)]] is not empty (an image more than six
    pixels wide), both [recognize_plate_number] and [direct_ocr_plate]
    return normally, and the plate number they return is "UNKNOWN" or is
    already normalized: [format_uk_plate] leaves it unchanged. *)
Theorem reported_numbers_are_normalized (cv : OpenCV) (ocr : Tesseract)
  (image : Image) :
  rows image <> 0%Z ->
  is_empty (UKPlateRecognizer.clear_band image) = false ->
  ensures reported_number
    (UKPlateRecognizer.recognize_plate_number cv ocr image)
  /\ ensures reported_number
       (UKPlateRecognizer.direct_ocr_plate cv ocr image).
Proof.
  intros Hh Hb. split.
  - unfold UKPlateRecognizer.recognize_plate_number.
    do 3 (apply ensures_bind with (Q := fun _ => True);
          [now apply ensures_call|intros ? _]).
    apply ensures_bind
      with (Q := fun acc : list str * list Z => Forall reported_number (fst acc)).
    + apply ensures_for_each; [constructor|].
      intros config acc _ Hacc.
      apply ensures_bind with (Q := fun _ => True);
        [now apply ensures_call|intros rows _].
      apply ensures_ret. cbn [state_of].
      rewrite number_scan_rows_spec. cbn [fst].
      apply Forall_app. split; [assumption|apply accepted_number_reported].
    + intros [texts confs] Hacc. cbn [fst snd] in *.
      destruct texts as [|x r].
      * apply ensures_bind with (Q := fun _ => True);
          [now apply ensures_call|intros text _].
        now apply number_tail.
      * apply ensures_ret.
        destruct (nth_in_or_default
                    (py_index (py_max confs) confs) (x :: r) []) as [H|E].
        -- rewrite Forall_forall in Hacc. now apply Hacc.
        -- rewrite E. now right.
  - unfold UKPlateRecognizer.direct_ocr_plate.
    do 2 (apply ensures_bind with (Q := fun _ => True);
          [now apply ensures_call|intros ? _]).
    apply ensures_bind with (Q := fun _ => True).
    + apply ensures_returns, returns_for_each. intros config b _.
      repeat returns_step.
    + intros b _. cbv zeta.
      destruct (truthy (fst b)); [apply ensures_ret, reported_format|].
      do 3 (apply ensures_bind with (Q := fun _ => True);
            [now apply ensures_call|intros ? _]).
      now apply number_tail.
Qed.

Lemma reported_numbers_are_normalized_witness :
  ensures reported_number
    (UKPlateRecognizer.recognize_plate_number (Toy.seeing 10 40 40 10)
       Toy.reading Toy.night)
  /\ ensures reported_number
       (UKPlateRecognizer.direct_ocr_plate (Toy.seeing 10 40 40 10)
          Toy.reading Toy.night).
Proof.
  apply (reported_numbers_are_normalized (Toy.seeing 10 40 40 10)
           Toy.reading Toy.night).
  - discriminate.
  - vm_compute. reflexivity.
Defined.

(** ** The detectors as filters *)

(** A loop that appends [f x] for the [x] that pass [p] computes a
    filter. *)
Lemma for_each_filter {X Y} (p : X -> bool) (f : X -> Y) (xs : list X)
  (acc : list Y) (body : X -> list Y -> M (flow (list Y))) :
  (forall x acc, In x xs ->
     result (body x acc)
     = Return (Continue (if p x then acc ++ [f x] else acc))) ->
  result (for_each xs acc body) = Return (acc ++ map f (filter p xs)).
Proof.
  revert acc. induction xs as [|x r IH]; intros acc H; cbn [for_each].
  - cbn. now rewrite app_nil_r.
  - rewrite result_bind, (H x acc (or_introl eq_refl)).
    rewrite IH by (intros y a Hy; apply H; now right).
    cbn [filter]. destruct (p x); cbn [map]; [|reflexivity].
    now rewrite <- app_assoc.
Qed.

(** A loop that breaks at the first [x] that passes [p] computes a
    search. *)
Lemma for_each_find {X Y} (p : X -> bool) (f : X -> Y) (xs : list X)
  (body : X -> option Y -> M (flow (option Y))) :
  (forall x, In x xs ->
     result (body x None)
     = Return (if p x then Break (Some (f x)) else Continue None)) ->
  result (for_each xs None body) = Return (option_map f (find p xs)).
Proof.
  induction xs as [|x r IH]; intros H; cbn [for_each find].
  - reflexivity.
  - rewrite result_bind, (H x (or_introl eq_refl)).
    destruct (p x); [reflexivity|].
    apply IH. intros y Hy. apply H. now right.
Qed.

Lemma filter_length_le {X} (p : X -> bool) (l : list X) :
  List.length (filter p l) <= List.length l.
Proof.
  induction l as [|x r IH]; simpl; [lia|]. destruct (p x); simpl; lia.
Qed.

Section Filters.

Variable cv : OpenCV.

Lemma plate_like_contour_decides (image : Image) (c : Contour) :
  height_of (boundingRect cv c) <> 0%Z ->
  result (PlateRecognizer.plate_like_contour cv (rows image * cols image) c)
  = Return (keeps_contour cv image c).
Proof.
  unfold PlateRecognizer.plate_like_contour, keeps_contour, in_area_band,
    aspect_of, height_of.
  destruct (boundingRect cv c) as [[[x y] w] h]. intro Hh.
  destruct (_ && _)%bool; [|reflexivity]. cbn [andb].
  now rewrite result_bind, (result_truediv _ _ Hh).
Qed.

Lemma plate_like_region_decides (c : Contour) :
  height_of (boundingRect cv c) <> 0%Z ->
  result (UKPlateRecognizer.plate_like_region cv c)
  = Return (if keeps_region cv c then Some (boundingRect cv c) else None).
Proof.
  unfold UKPlateRecognizer.plate_like_region, keeps_region, aspect_of,
    height_of.
  fold (vertices_ok cv c).
  destruct (boundingRect cv c) as [[[x y] w] h]. intro Hh.
  destruct (vertices_ok cv c); [|reflexivity]. cbn [andb].
  rewrite result_bind, (result_truediv _ _ Hh).
  now destruct (strictly_between 2 7 (aspect w h)).
Qed.

End Filters.

(** Property X9.  Provided no contour in play has a bounding box of
    height zero, [find_plate_contours] returns exactly the contours that
    pass its area and aspect tests among the 20 of largest area, and
    [detect_plate_regions] exactly the candidates of the contours that
    pass its vertex and aspect tests among the 15 of largest area, both
    in the order of the sorted list; so they return at most 20 and at
    most 15 candidates. *)
Theorem detectors_filter_the_largest (cv : OpenCV) (edged : Gray)
  (image : Image) :
  (forall c, In c (findContours cv edged RETR_TREE) ->
     height_of (boundingRect cv c) <> 0%Z) ->
  (forall c, In c (findContours cv (edge_image cv image) RETR_EXTERNAL) ->
     height_of (boundingRect cv c) <> 0%Z) ->
  ensures
    (fun cs =>
       cs = filter (keeps_contour cv image)
              (firstn 20 (sorted_desc (contourArea cv)
                            (findContours cv edged RETR_TREE)))
       /\ List.length cs <= 20)
    (PlateRecognizer.find_plate_contours cv edged image)
  /\ ensures
       (fun rs =>
          rs = map (candidate_of cv image)
                 (filter (keeps_region cv)
                    (firstn 15 (sorted_desc (contourArea cv)
                                  (findContours cv (edge_image cv image)
                                     RETR_EXTERNAL))))
          /\ List.length rs <= 15)
       (UKPlateRecognizer.detect_plate_regions cv image).
Proof.
  intros H1 H2. split.
  - eexists. split.
    + unfold PlateRecognizer.find_plate_contours.
      rewrite result_bind. cbn [call result snd].
      rewrite (for_each_filter (keeps_contour cv image) (fun c => c)).
      * cbn [app]. rewrite map_id. reflexivity.
      * intros c acc Hc. apply in_top in Hc.
        now rewrite result_bind, (plate_like_contour_decides cv image c (H1 c Hc)).
    + split; [reflexivity|].
      etransitivity; [apply filter_length_le|].
      apply firstn_le_length.
  - eexists. split.
    + unfold UKPlateRecognizer.detect_plate_regions.
      do 7 (rewrite result_bind; cbn [call result snd]).
      fold (edge_image cv image).
      rewrite (for_each_filter (keeps_region cv) (candidate_of cv image)).
      * cbn [app]. reflexivity.
      * intros c acc Hc. apply in_top in Hc.
        rewrite result_bind, (plate_like_region_decides cv c (H2 c Hc)).
        unfold candidate_of, region_of.
        destruct (keeps_region cv c); [|reflexivity].
        now destruct (boundingRect cv c) as [[[x y] w] h].
    + split; [reflexivity|]. rewrite length_map.
      etransitivity; [apply filter_length_le|].
      apply firstn_le_length.
Qed.

Lemma detectors_filter_the_largest_witness :
  ensures (fun cs => List.length cs <= 20)
    (PlateRecognizer.find_plate_contours (Toy.seeing 10 40 40 10)
       (Toy.gray_of Toy.night) Toy.night)
  /\ ensures (fun rs => List.length rs <= 15)
       (UKPlateRecognizer.detect_plate_regions (Toy.seeing 10 40 40 10)
          Toy.night).
Proof.
  destruct (detectors_filter_the_largest (Toy.seeing 10 40 40 10)
              (Toy.gray_of Toy.night) Toy.night) as [A B].
  - intros c [<-|[]]. discriminate.
  - intros c [<-|[]]. discriminate.
  - split; [apply (ensures_weaken _ _ _ A)|apply (ensures_weaken _ _ _ B)];
      now intros ? [_ H].
Defined.

(** Property X10.  Provided no contour has a bounding box of height
    zero, the contour loop of [simple_detector.py] stops at the first
    contour, in the order given, that passes the vertex and aspect
    tests, and yields its bounding box; it yields nothing only if no
    contour passes. *)
Theorem find_plate_takes_the_first (cv : OpenCV) (contours : list Contour) :
  (forall c, In c contours -> height_of (boundingRect cv c) <> 0%Z) ->
  result (SimpleDetector.find_plate cv contours)
  = Return (option_map (boundingRect cv) (find (keeps_region cv) contours)).
Proof.
  intro H. unfold SimpleDetector.find_plate.
  apply for_each_find. intros c Hc.
  unfold keeps_region, aspect_of. fold (vertices_ok cv c).
  specialize (H c Hc). unfold height_of in H.
  destruct (vertices_ok cv c); [|reflexivity]. cbn [andb].
  destruct (boundingRect cv c) as [[[x y] w] h].
  rewrite result_bind, (result_truediv _ _ H).
  now destruct (strictly_between 2 7 (aspect w h)).
Qed.

Lemma find_plate_takes_the_first_witness :
  result (SimpleDetector.find_plate (Toy.seeing 10 40 40 10)
            [Toy.box 0 0 10 10; Toy.box 10 40 40 10; Toy.box 0 0 30 10])
  = Return (Some (10, 40, 40, 10)%Z).
Proof.
  rewrite (find_plate_takes_the_first (Toy.seeing 10 40 40 10)).
  - vm_compute. reflexivity.
  - intros c [<-|[<-|[<-|[]]]]; discriminate.
Defined.

(** ** The results mapping of [process_image] *)

Lemma lit_inj (a b : string) : lit a = lit b -> a = b.
Proof.
  unfold lit. intro H.
  rewrite <- (string_of_list_ascii_of_string a),
    <- (string_of_list_ascii_of_string b).
  now rewrite H.
Qed.

(** Distinct indices give distinct keys. *)
Lemma plate_key_inj (i j : nat) :
  UKPlateRecognizer.plate_key i = UKPlateRecognizer.plate_key j -> i = j.
Proof.
  unfold UKPlateRecognizer.plate_key. intro H.
  apply app_inv_head, lit_inj in H.
  apply DecimalNat.Unsigned.to_uint_inj.
  pose proof (NilEmpty.usu (Nat.to_uint i)) as Hi.
  pose proof (NilEmpty.usu (Nat.to_uint j)) as Hj.
  rewrite H in Hi. congruence.
Qed.

Lemma str_eqb_neq (a b : str) : a <> b -> str_eqb a b = false.
Proof.
  intro H. unfold str_eqb. now destruct (list_eq_dec ascii_dec a b).
Qed.

Lemma str_eqb_eq (a b : str) : str_eqb a b = true -> a = b.
Proof.
  unfold str_eqb. now destruct (list_eq_dec ascii_dec a b).
Qed.

(** Setting a key the dictionary does not hold appends the entry. *)
Lemma dict_set_fresh (d : UKPlateRecognizer.dict) (k : str)
  (v : UKPlateRecognizer.PlateInfo) :
  ~ In k (map fst d) -> UKPlateRecognizer.dict_set d k v = d ++ [(k, v)].
Proof.
  induction d as [|[k' v'] r IH]; cbn [UKPlateRecognizer.dict_set map fst In app].
  - reflexivity.
  - intro H. rewrite str_eqb_neq by (intro E; apply H; now left).
    f_equal. apply IH. intro E. apply H. now right.
Qed.

Lemma dict_set_nonempty (d : UKPlateRecognizer.dict) (k : str)
  (v : UKPlateRecognizer.PlateInfo) :
  UKPlateRecognizer.dict_set d k v <> [].
Proof.
  destruct d as [|[k' v'] r]; cbn [UKPlateRecognizer.dict_set];
    [discriminate|]. now destruct (str_eqb k' k).
Qed.

Section Regions.

Variable cv : OpenCV.
Variable ocr : Tesseract.

(** One turn of the region loop adds the entry of its region under the
    key of its index. *)
Lemma region_loop (rs : list (Image * Rect)) (a : nat)
  (d : UKPlateRecognizer.dict) :
  Forall (processable cv) rs ->
  map fst d = map UKPlateRecognizer.plate_key (seq 0 a) ->
  ensures
    (fun d' =>
       map fst d'
       = map UKPlateRecognizer.plate_key (seq 0 (a + List.length rs))
       /\ map recorded d' = map recorded d ++ rs)
    (for_each (combine (seq a (List.length rs)) rs) d
       (fun entry results =>
          let '(idx, (region, bbox)) := entry in
          plate_number <- UKPlateRecognizer.recognize_plate_number cv ocr region ;;
          country_id <- UKPlateRecognizer.detect_country_identifier cv ocr region ;;
          ret (Continue
                 (UKPlateRecognizer.dict_set results
                    (UKPlateRecognizer.plate_key idx)
                    (UKPlateRecognizer.mk_info plate_number country_id
                       region bbox))))).
Proof.
  intro H. revert a d.
  induction H as [|[region bbox] rs (Hr & Hc & Hb & He) _ IH]; intros a d Hd.
  - cbn [List.length seq combine for_each]. apply ensures_ret.
    rewrite Nat.add_0_r, app_nil_r. now split.
  - cbn [List.length seq combine for_each].
    destruct (returns_recognize_plate_number cv ocr region Hr Hb)
      as [pn Hpn].
    destruct (returns_detect_country_identifier cv ocr region Hc He)
      as [cid Hcid].
    unfold ensures.
    rewrite result_bind, result_bind, Hpn, result_bind, Hcid.
    cbn [ret result snd].
    rewrite dict_set_fresh.
    2:{ rewrite Hd. intro E. apply in_map_iff in E as (j & E & Hj).
        apply plate_key_inj in E. subst j. apply in_seq in Hj. lia. }
    destruct (IH (S a)
                (d ++ [(UKPlateRecognizer.plate_key a,
                        UKPlateRecognizer.mk_info pn cid region bbox)]))
      as (d' & E1 & E2 & E3).
    { rewrite map_app, Hd. cbn [map fst].
      now rewrite seq_S, map_app. }
    exists d'. split; [exact E1|]. split.
    + now rewrite E2, Nat.add_succ_r.
    + rewrite E3, map_app, <- app_assoc. reflexivity.
Qed.

Lemma process_regions_entries (rs : list (Image * Rect)) :
  Forall (processable cv) rs ->
  ensures
    (fun d =>
       map fst d = map UKPlateRecognizer.plate_key (seq 0 (List.length rs))
       /\ map recorded d = rs)
    (UKPlateRecognizer.process_regions cv ocr rs []).
Proof.
  intro H. unfold UKPlateRecognizer.process_regions.
  exact (region_loop rs 0 [] H eq_refl).
Qed.

End Regions.

Lemma process_image_regions (cv : OpenCV) (ocr : Tesseract) (path : str)
  (image : Image) (rs : list (Image * Rect)) (d : UKPlateRecognizer.dict) :
  imread cv path = Some image ->
  rows image <> 0%Z ->
  strictly_between 3.5 5.5 (aspect (cols image) (rows image)) = false ->
  result (UKPlateRecognizer.detect_plate_regions cv image) = Return rs ->
  rs <> [] ->
  result (UKPlateRecognizer.process_regions cv ocr rs []) = Return d ->
  result (UKPlateRecognizer.process_image cv ocr path) = Return (Some d).
Proof.
  intros Hi Hh Ha Hd Hne E.
  unfold UKPlateRecognizer.process_image. rewrite Hi.
  rewrite result_bind. cbn [call result snd].
  rewrite result_bind, (result_truediv _ _ Hh), Ha.
  rewrite result_bind, Hd.
  destruct rs as [|r rs']; [contradiction|].
  cbv zeta. rewrite result_bind.
  match goal with
  | |- match ?x with _ => _ end = _ =>
      replace x with (@Return UKPlateRecognizer.dict d)
        by (symmetry; exact E)
  end.
  reflexivity.
Qed.

(** Property X11.  When [detect_plate_regions] returns a non-empty list
    of regions that the per-region loop can process (each is not empty,
    is more than six pixels wide, so that the band
    [region[:, 0:int(w*0.15)]] is not empty, and is enlarged by OpenCV
    if narrow), [process_image] returns a mapping with exactly one entry per region, in detection
    order, under the keys "plate_0", "plate_1", ..., each holding the
    region and bounding box it was made from, whatever plate number was
    read (an entry is kept even when the number is "UNKNOWN"). *)
Theorem one_entry_per_region (cv : OpenCV) (ocr : Tesseract) (path : str)
  (image : Image) (rs : list (Image * Rect)) :
  imread cv path = Some image ->
  rows image <> 0%Z ->
  strictly_between 3.5 5.5 (aspect (cols image) (rows image)) = false ->
  result (UKPlateRecognizer.detect_plate_regions cv image) = Return rs ->
  rs <> [] ->
  Forall (processable cv) rs ->
  ensures
    (fun out =>
       exists d,
         out = Some d
         /\ map fst d
            = map UKPlateRecognizer.plate_key (seq 0 (List.length rs))
         /\ map recorded d = rs)
    (UKPlateRecognizer.process_image cv ocr path).
Proof.
  intros Hi Hh Ha Hd Hne Hp.
  destruct (process_regions_entries cv ocr rs Hp) as (d & E & K & R).
  exists (Some d). split.
  - exact (process_image_regions cv ocr path image rs d Hi Hh Ha Hd Hne E).
  - now exists d.
Qed.

Lemma one_entry_per_region_witness :
  ensures
    (fun out =>
       exists d,
         out = Some d
         /\ map fst d = [lit "plate_0"]
         /\ map recorded d = [candidate_of (Toy.seeing 10 40 40 10) Toy.night
                                (Toy.box 10 40 40 10)])
    (UKPlateRecognizer.process_image (Toy.seeing 10 40 40 10) Toy.blind
       "street.jpg").
Proof.
  apply (one_entry_per_region (Toy.seeing 10 40 40 10) Toy.blind
           "street.jpg" Toy.night
           [candidate_of (Toy.seeing 10 40 40 10) Toy.night
              (Toy.box 10 40 40 10)]).
  - reflexivity.
  - discriminate.
  - vm_compute. reflexivity.
  - vm_compute. reflexivity.
  - discriminate.
  - constructor; [|constructor].
    split; [discriminate|]. split; [discriminate|].
    split; [vm_compute; reflexivity|].
    eexists. vm_compute. reflexivity.
Defined.

(** ** What the results of [process_image] mean *)

Lemma yields_ret {A} (P : A -> Prop) (a : A) : P a -> yields P (ret a).
Proof. intros H b [= <-]. exact H. Qed.

Lemma yields_bind {A B} (P : B -> Prop) (m : M A) (k : A -> M B) :
  (forall a, result m = Return a -> yields P (k a)) -> yields P (bind m k).
Proof.
  intros H b E. rewrite result_bind in E.
  destruct (result m) as [a|e] eqn:Ea; [|discriminate].
  exact (H a eq_refl b E).
Qed.

Lemma yields_for_each {X S} (P : S -> Prop) (xs : list X) (s : S)
  (body : X -> S -> M (flow S)) :
  P s ->
  (forall x s, In x xs -> P s -> yields (fun f => P (state_of f)) (body x s)) ->
  yields P (for_each xs s body).
Proof.
  revert s. induction xs as [|x r IH]; intros s Hs Hb; cbn [for_each].
  - now apply yields_ret.
  - apply yields_bind. intros f Hf.
    pose proof (Hb x s (or_introl eq_refl) Hs f Hf) as Pf.
    destruct f as [s'|s']; cbn [state_of] in Pf.
    + apply IH; [assumption|]. intros y s0 Hy. apply Hb. now right.
    + now apply yields_ret.
Qed.

Lemma truediv_inv (a b : Z) (r : float) :
  result (truediv a b) = Return r -> r = aspect a b.
Proof.
  unfold truediv, div_float_int, aspect.
  destruct (b =? 0)%Z; [discriminate|]. now intros [= <-].
Qed.

Lemma process_regions_nonempty (cv : OpenCV) (ocr : Tesseract)
  (rs : list (Image * Rect)) (d : UKPlateRecognizer.dict) :
  rs <> [] ->
  yields (fun d' => d' <> []) (UKPlateRecognizer.process_regions cv ocr rs d).
Proof.
  unfold UKPlateRecognizer.process_regions.
  destruct rs as [|[region bbox] rs]; [contradiction|]. intros _.
  cbn [List.length seq combine for_each].
  apply yields_bind. intros f Hf.
  assert (Pf : state_of f <> []).
  { revert f Hf. apply yields_bind. intros pn _. apply yields_bind.
    intros cid _. apply yields_ret. apply dict_set_nonempty. }
  destruct f as [s'|s']; cbn [state_of] in Pf; [|now apply yields_ret].
  apply yields_for_each; [assumption|].
  intros [idx [r b]] s _ _.
  apply yields_bind. intros pn _. apply yields_bind. intros cid _.
  apply yields_ret. apply dict_set_nonempty.
Qed.

Lemma process_image_yields (cv : OpenCV) (ocr : Tesseract) (path : str)
  (image : Image) :
  imread cv path = Some image ->
  yields
    (fun out =>
       out <> None
       /\ (out = Some [] ->
           strictly_between 3.5 5.5 (aspect (cols image) (rows image))
           = false
           /\ result (UKPlateRecognizer.detect_plate_regions cv image)
              = Return []
           /\ result (UKPlateRecognizer.direct_ocr_plate cv ocr image)
              = Return (lit "UNKNOWN")))
    (UKPlateRecognizer.process_image cv ocr path).
Proof.
  intro Hi. unfold UKPlateRecognizer.process_image. rewrite Hi.
  apply yields_bind. intros _ _. apply yields_bind. intros a Ha.
  apply truediv_inv in Ha. subst a. cbv zeta.
  destruct (strictly_between 3.5 5.5 _) eqn:EA.
  - apply yields_bind. intros pn _. apply yields_bind. intros cid _.
    apply yields_ret. split; [discriminate|].
    intro E. exfalso. revert E. cbn [UKPlateRecognizer.dict_set].
    discriminate.
  - apply yields_bind. intros rs Hrs. destruct rs as [|r rs].
    + apply yields_bind. intros pn Hpn. apply yields_bind. intros cid _.
      destruct (str_eqb pn (lit "UNKNOWN")) eqn:EU; cbn [negb].
      * apply str_eqb_eq in EU. subst pn.
        apply yields_ret. split; [discriminate|]. auto.
      * apply yields_ret. split; [discriminate|].
        intro E. exfalso. revert E. cbn [UKPlateRecognizer.dict_set].
        discriminate.
    + apply yields_bind. intros d Hd. apply yields_ret.
      split; [discriminate|]. intros [= ->].
      now apply (process_regions_nonempty cv ocr (r :: rs) []) in Hd.
Qed.

(** Property X12.  What a caller can read off the result of
    [process_image].  It is [None] exactly when the image could not be
    read.  It is the empty mapping only if the image was not plate
    shaped, no region was detected, and the direct OCR fallback returned
    "UNKNOWN". *)
Theorem process_image_result_meaning (cv : OpenCV) (ocr : Tesseract)
  (path : str) :
  (result (UKPlateRecognizer.process_image cv ocr path) = Return None
   <-> imread cv path = None)
  /\ (forall image,
        imread cv path = Some image ->
        result (UKPlateRecognizer.process_image cv ocr path)
        = Return (Some []) ->
        strictly_between 3.5 5.5 (aspect (cols image) (rows image)) = false
        /\ result (UKPlateRecognizer.detect_plate_regions cv image)
           = Return []
        /\ result (UKPlateRecognizer.direct_ocr_plate cv ocr image)
           = Return (lit "UNKNOWN")).
Proof.
  pose proof (process_image_yields cv ocr path) as G.
  split.
  - split.
    + intro E. destruct (imread cv path) as [image|] eqn:Hi; [|reflexivity].
      destruct (G image eq_refl None E) as [H _]. now contradiction H.
    + intro Hi. unfold UKPlateRecognizer.process_image. now rewrite Hi.
  - intros image Hi E. destruct (G image Hi (Some []) E) as [_ H].
    now apply H.
Qed.

(** ** The plate and the text [recognize_plate] returns *)

(** Property X13.  When the contour search returns, [recognize_plate]
    returns either nothing at all, [(None, None)], or a text together
    with the plate image it was read from: the text is the formatted
    text of an OCR row of positive confidence and non-blank text that
    one of the three configurations gave on that very plate. *)
Theorem text_comes_with_its_plate (cv : OpenCV) (ocr : Tesseract)
  (image : Image) (cs : list Contour) :
  result (PlateRecognizer.find_plate_contours cv (preprocessed cv image) image)
  = Return cs ->
  result (PlateRecognizer.recognize_plate cv ocr image) = Return (None, None)
  \/ exists raw conf config plate_img,
       In plate_img (extracted cv image cs)
       /\ In config PlateRecognizer.configs
       /\ In (raw, conf) (image_to_data ocr (enhanced cv plate_img) config)
       /\ (0 < conf)%Z
       /\ truthy (strip raw) = true
       /\ result (PlateRecognizer.recognize_plate cv ocr image)
          = Return (Some (PlateRecognizerText.format_uk_plate raw),
                    Some plate_img).
Proof.
  intro Hf. rewrite (plate_result cv ocr image cs Hf).
  destruct (best_hypothesis _) as [[raw p]|] eqn:EB; [right|now left].
  apply best_hypothesis_first_max in EB as (i & c & N & _).
  apply nth_error_In in N.
  unfold plate_hypotheses, accepted_plate in N.
  apply in_flat_map in N as (q & Hq & N).
  apply in_flat_map in N as (config & Hc & N).
  apply in_map_iff in N as ([t d] & E & N).
  cbn [fst snd] in E. injection E as -> -> ->.
  apply filter_In in N as [N T]. cbn [fst snd] in T.
  apply andb_true_iff in T as [T1 T2].
  exists raw, c, config, p. repeat split; auto. lia.
Qed.

Lemma text_comes_with_its_plate_witness :
  result (PlateRecognizer.recognize_plate (Toy.seeing 10 40 40 10)
            Toy.reading Toy.night) = Return (None, None)
  \/ exists raw conf config plate_img,
       In plate_img (extracted (Toy.seeing 10 40 40 10) Toy.night
                       [Toy.box 10 40 40 10])
       /\ In config PlateRecognizer.configs
       /\ In (raw, conf)
            (image_to_data Toy.reading
               (enhanced (Toy.seeing 10 40 40 10) plate_img) config)
       /\ (0 < conf)%Z
       /\ truthy (strip raw) = true
       /\ result (PlateRecognizer.recognize_plate (Toy.seeing 10 40 40 10)
                    Toy.reading Toy.night)
          = Return (Some (PlateRecognizerText.format_uk_plate raw),
                    Some plate_img).
Proof.
  apply (text_comes_with_its_plate (Toy.seeing 10 40 40 10) Toy.reading
           Toy.night [Toy.box 10 40 40 10]).
  vm_compute. reflexivity.
Defined.

(** ** The configuration loop of [simple_detector.py] *)

Lemma config_loop_from (ocr : Tesseract) (plate_pil : Gray)
  (cs : list str) (best_text : str) :
  for_each cs best_text
    (fun config best_text =>
       text <- call (ImageToString config)
                 (image_to_string ocr plate_pil config) ;;
       let cleaned := SimpleText.clean_and_format_plate text in
       if SimpleText.is_valid_uk_plate cleaned then ret (Break cleaned)
       else if negb (truthy best_text) && truthy cleaned
            then ret (Continue cleaned)
            else ret (Continue best_text))
  = (map ImageToString (configs_run ocr plate_pil cs),
     Return (chosen_text ocr plate_pil cs best_text)).
Proof.
  unfold chosen_text. revert best_text.
  match goal with |- forall b, for_each _ _ ?f = _ => set (body := f) end.
  assert (Hb : forall c best_text,
             body c best_text
             = ([ImageToString c],
                Return
                  (if SimpleText.is_valid_uk_plate
                        (cleaned_reading ocr plate_pil c)
                   then Break (cleaned_reading ocr plate_pil c)
                   else if negb (truthy best_text)
                           && truthy (cleaned_reading ocr plate_pil c)
                        then Continue (cleaned_reading ocr plate_pil c)
                        else Continue best_text))).
  { intros c best_text. unfold body, cleaned_reading. cbn [bind call].
    cbv zeta.
    destruct (SimpleText.is_valid_uk_plate _); [reflexivity|].
    now destruct (negb (truthy best_text) && _)%bool. }
  clearbody body.
  induction cs as [|c r IH]; intros best_text.
  - cbn. now destruct (truthy best_text).
  - cbn [for_each configs_run map find]. rewrite Hb. cbn [bind].
    destruct (SimpleText.is_valid_uk_plate (cleaned_reading ocr plate_pil c)).
    + reflexivity.
    + destruct (truthy best_text) eqn:TB; cbn [negb andb].
      * rewrite IH. cbn [app]. now rewrite TB.
      * destruct (truthy (cleaned_reading ocr plate_pil c)) eqn:TC.
        -- rewrite IH. cbn [app]. now rewrite TC.
        -- rewrite IH. cbn [app]. now rewrite TB.
Qed.

(** Property X14.  The configuration loop of [simple_detector.py] runs
    the configurations in order up to and including the first whose
    cleaned reading is a valid plate, and no further.  It returns that
    reading; if no reading is valid it has run all three and returns the
    first non-empty cleaned reading, or the empty string if there is
    none. *)
Theorem try_configs_stops_at_first_valid (ocr : Tesseract) (plate_pil : Gray) :
  SimpleDetector.try_configs ocr plate_pil
  = (map ImageToString (configs_run ocr plate_pil SimpleDetector.configs),
     Return (chosen_text ocr plate_pil SimpleDetector.configs (lit ""))).
Proof. apply config_loop_from. Qed.

(** ** The Firestore handler *)

Lemma str_eqb_refl (a : str) : str_eqb a a = true.
Proof. unfold str_eqb. now destruct (list_eq_dec ascii_dec a a). Qed.

Lemma lookup_store_set_same (db : FirebaseHandler.Store) (k : str)
  (r : FirebaseHandler.PlateRecord) :
  FirebaseHandler.lookup (FirebaseHandler.store_set db k r) k = Some r.
Proof.
  induction db as [|[k' r'] rest IH];
    cbn [FirebaseHandler.store_set FirebaseHandler.lookup].
  - now rewrite str_eqb_refl.
  - destruct (str_eqb k' k) eqn:E; cbn [FirebaseHandler.lookup]; rewrite E.
    + reflexivity.
    + exact IH.
Qed.

Lemma lookup_store_set_other (db : FirebaseHandler.Store) (k other : str)
  (r : FirebaseHandler.PlateRecord) :
  other <> k ->
  FirebaseHandler.lookup (FirebaseHandler.store_set db k r) other
  = FirebaseHandler.lookup db other.
Proof.
  intro H.
  induction db as [|[k' r'] rest IH];
    cbn [FirebaseHandler.store_set FirebaseHandler.lookup].
  - rewrite str_eqb_neq; [reflexivity|]. intro E. now apply H.
  - destruct (str_eqb k' k) eqn:E; cbn [FirebaseHandler.lookup].
    + apply str_eqb_eq in E. subst k'.
      rewrite str_eqb_neq; [reflexivity|]. intro E. now apply H.
    + now rewrite IH.
Qed.

(** Property X15.  A record saved by [save_plate_recognition] is read
    back by [get_plate_recognition] under the identifier that was
    returned: the plate number, image path and location as given, the
    time of saving, the status "active" and no update time.  Every other
    document reads as it did before. *)
Theorem saved_record_is_read_back (fs : FirebaseHandler.Firestore)
  (db : FirebaseHandler.Store) (now : Z) (plate_number image_path : str)
  (location : option str) :
  let saved :=
    FirebaseHandler.save_plate_recognition fs db now plate_number image_path
      location in
  FirebaseHandler.get_plate_recognition (snd saved) (fst saved)
  = Some (FirebaseHandler.mk_record plate_number image_path location now
            (lit "active") None)
  /\ forall other,
       other <> fst saved ->
       FirebaseHandler.get_plate_recognition (snd saved) other
       = FirebaseHandler.get_plate_recognition db other.
Proof.
  cbv zeta. unfold FirebaseHandler.save_plate_recognition,
    FirebaseHandler.get_plate_recognition. cbn [fst snd]. split.
  - apply lookup_store_set_same.
  - intros other H. now apply lookup_store_set_other.
Qed.

(** Property X16.  [update_plate_status] answers [False] and leaves the
    store as it is when the document does not exist.  When it exists the
    answer is [True], the document gets the new status and the time of
    the update, and keeps its plate number, image path, location and
    time of saving.  No other document changes. *)
Theorem status_update_touches_one_record (db : FirebaseHandler.Store)
  (now : Z) (doc_id status : str) :
  let updated := FirebaseHandler.update_plate_status db now doc_id status in
  match FirebaseHandler.get_plate_recognition db doc_id with
  | None => updated = (false, db)
  | Some r =>
      fst updated = true
      /\ FirebaseHandler.get_plate_recognition (snd updated) doc_id
         = Some (FirebaseHandler.mk_record
                   (FirebaseHandler.plate_number r)
                   (FirebaseHandler.image_path r)
                   (FirebaseHandler.location r)
                   (FirebaseHandler.timestamp r) status (Some now))
  end
  /\ forall other,
       other <> doc_id ->
       FirebaseHandler.get_plate_recognition (snd updated) other
       = FirebaseHandler.get_plate_recognition db other.
Proof.
  cbv zeta. unfold FirebaseHandler.update_plate_status,
    FirebaseHandler.get_plate_recognition.
  destruct (FirebaseHandler.lookup db doc_id) as [r|] eqn:E; cbn [fst snd].
  - split; [split; [reflexivity|apply lookup_store_set_same]|].
    intros other H. now apply lookup_store_set_other.
  - split; [reflexivity|]. reflexivity.
Qed.

(** ** The command-line system of [main.py] *)

(** Property X17.  [ANPRSystem.process_image] always answers: what the
    recognizer raises becomes a message.  The answer is a success
    exactly when the image was read and [recognize_plate] returned a
    text, and then the store holds, under the new identifier, a record
    of that text with the image path and location given.  In every other
    case the store is left as it was. *)
Theorem system_saves_what_it_recognizes (cv : OpenCV) (ocr : Tesseract)
  (fs : FirebaseHandler.Firestore) (describe : exn -> str)
  (db : FirebaseHandler.Store) (now : Z) (image_path : str)
  (location : option str) :
  exists success message db',
    result (ANPRSystem.process_image cv ocr fs describe db now image_path
              location)
    = Return ((success, message), db')
    /\ (success = true <->
        exists image text plate,
          imread cv image_path = Some image
          /\ result (PlateRecognizer.recognize_plate cv ocr image)
             = Return (Some text, plate))
    /\ (success = false -> db' = db)
    /\ (forall image text plate,
          imread cv image_path = Some image ->
          result (PlateRecognizer.recognize_plate cv ocr image)
          = Return (Some text, plate) ->
          FirebaseHandler.get_plate_recognition db'
            (FirebaseHandler.auto_id fs db)
          = Some (FirebaseHandler.mk_record text image_path location now
                    (lit "active") None)
          /\ forall other,
               other <> FirebaseHandler.auto_id fs db ->
               FirebaseHandler.get_plate_recognition db' other
               = FirebaseHandler.get_plate_recognition db other).
Proof.
  unfold ANPRSystem.process_image. rewrite result_try_except.
  destruct (imread cv image_path) as [image|] eqn:Hi.
  - rewrite result_bind. cbn [call result snd]. rewrite result_bind.
    destruct (result (PlateRecognizer.recognize_plate cv ocr image))
      as [[[text|] plate]|e] eqn:Hr.
    + cbn [FirebaseHandler.save_plate_recognition ret result snd].
      do 3 eexists. split; [reflexivity|]. split; [|split].
      * split; [intros _; now exists image, text, plate|reflexivity].
      * discriminate.
      * intros image' text' plate' [= <-] H. rewrite Hr in H.
        injection H as <- <-.
        unfold FirebaseHandler.get_plate_recognition. split.
        -- apply lookup_store_set_same.
        -- intros other H. now apply lookup_store_set_other.
    + cbn [ret result snd].
      do 3 eexists. split; [reflexivity|]. split; [|split].
      * split; [discriminate|].
        intros (image' & text' & plate' & [= <-] & H).
        rewrite Hr in H. discriminate.
      * reflexivity.
      * intros image' text' plate' [= <-] H. rewrite Hr in H. discriminate.
    + cbn [ret result snd].
      do 3 eexists. split; [reflexivity|]. split; [|split].
      * split; [discriminate|].
        intros (image' & text' & plate' & [= <-] & H).
        rewrite Hr in H. discriminate.
      * reflexivity.
      * intros image' text' plate' [= <-] H. rewrite Hr in H. discriminate.
  - cbn [call result snd].
    do 3 eexists. split; [reflexivity|]. split; [|split].
    + split; [discriminate|]. intros (image' & text' & plate' & [=] & _).
    + reflexivity.
    + intros image' text' plate' [=].
Qed.

(** ** The whole-image OCR of [uk_plate_recognizer.py] *)

Lemma direct_scan_rows_spec (ocr_rows : list (str * Z)) (text : str)
  (conf : Z) :
  UKPlateRecognizer.direct_scan_rows ocr_rows (text, conf)
  = (text_of (fst (best_above conf (Some text) (accepted_direct ocr_rows))),
     snd (best_above conf (Some text) (accepted_direct ocr_rows))).
Proof.
  unfold UKPlateRecognizer.direct_scan_rows, accepted_direct.
  revert text conf. induction ocr_rows as [|[t c] r IH]; intros text conf.
  - reflexivity.
  - cbn [fold_left filter fst snd].
    destruct ((10 <? c)%Z) eqn:E1; cbn [andb]; [|apply IH].
    destruct (truthy t) eqn:E2; cbn [andb best_above]; [|apply IH].
    destruct ((conf <? c)%Z); apply IH.
Qed.

Lemma best_hypothesis_in {X} (h : list (X * Z)) (x : X) :
  best_hypothesis h = Some x -> exists c, In (x, c) h.
Proof.
  intro H. destruct (best_hypothesis_first_max h x H) as (i & c & N & _).
  exists c. exact (nth_error_In _ _ N).
Qed.

Lemma accepted_direct_in (ocr_rows : list (str * Z)) (text : str) (conf : Z) :
  In (text, conf) (accepted_direct ocr_rows) ->
  (10 < conf)%Z /\ truthy text = true.
Proof.
  unfold accepted_direct. intro H. apply filter_In in H as [_ H].
  cbn [fst snd] in H. apply andb_true_iff in H as [H1 H2]. split; [lia|exact H2].
Qed.

Lemma direct_hypotheses_in (cv : OpenCV) (ocr : Tesseract) (image : Image)
  (text : str) (conf : Z) :
  In (text, conf) (direct_hypotheses cv ocr image) ->
  (10 < conf)%Z /\ truthy text = true.
Proof.
  unfold direct_hypotheses. intro H. apply in_flat_map in H as (c & _ & H).
  exact (accepted_direct_in _ _ _ H).
Qed.

Section DirectPlate.

Variable cv : OpenCV.
Variable ocr : Tesseract.
Variable image : Image.

(** The loop of [direct_ocr_plate] calls [image_to_data] once per
    configuration and keeps the best accepted hypothesis. *)
Lemma direct_loop :
  for_each UKPlateRecognizer.direct_configs (lit "", 0%Z)
    (fun config b =>
       ocr_data <- call (ImageToData config)
                     (image_to_data ocr (direct_ocr_input cv image) config) ;;
       ret (Continue (UKPlateRecognizer.direct_scan_rows ocr_data b)))
  = (map ImageToData UKPlateRecognizer.direct_configs,
     Return
       (text_of (fst (best_above 0 (Some (lit ""))
                        (direct_hypotheses cv ocr image))),
        snd (best_above 0 (Some (lit ""))
               (direct_hypotheses cv ocr image)))).
Proof.
  unfold direct_hypotheses, UKPlateRecognizer.direct_configs.
  cbn [for_each bind call ret flat_map map app].
  rewrite !best_above_app. cbn [best_above].
  rewrite direct_scan_rows_spec.
  set (b1 := best_above 0 (Some (lit "")) _).
  destruct b1 as [[t1|] c1] eqn:E1.
  2:{ exfalso. subst b1.
      match type of E1 with best_above ?f ?i ?h = _ =>
        destruct (best_above_in h f i) as [H|(x & c & H & _)] end;
        rewrite E1 in H; discriminate. }
  cbn [text_of fst snd]. rewrite direct_scan_rows_spec.
  set (b2 := best_above c1 (Some t1) _).
  destruct b2 as [[t2|] c2] eqn:E2.
  2:{ exfalso. subst b2.
      match type of E2 with best_above ?f ?i ?h = _ =>
        destruct (best_above_in h f i) as [H|(x & c & H & _)] end;
        rewrite E2 in H; discriminate. }
  cbn [text_of fst snd]. rewrite direct_scan_rows_spec.
  reflexivity.
Qed.

Lemma direct_best (text : str) :
  best_hypothesis (direct_hypotheses cv ocr image) = Some text ->
  fst (best_above 0 (Some (lit "")) (direct_hypotheses cv ocr image))
  = Some text
  /\ truthy text = true.
Proof.
  intro H. split.
  - destruct (direct_hypotheses cv ocr image) as [|[x c] r] eqn:E;
      [discriminate|].
    cbn [best_hypothesis] in H. cbn [best_above].
    assert (L : (10 < c)%Z).
    { apply (direct_hypotheses_in cv ocr image x c). rewrite E. now left. }
    destruct (Z.ltb_spec 0 c); [exact H|lia].
  - destruct (best_hypothesis_in _ _ H) as [c Hc].
    now apply (direct_hypotheses_in cv ocr image text c).
Qed.

Lemma direct_data_calls :
  data_calls (trace (UKPlateRecognizer.direct_ocr_plate cv ocr image))
  = UKPlateRecognizer.direct_configs.
Proof.
  unfold UKPlateRecognizer.direct_ocr_plate.
  do 2 (rewrite trace_bind; cbn [call trace result fst snd]).
  fold (direct_ocr_input cv image).
  rewrite trace_bind, direct_loop. cbn [trace result fst snd].
  rewrite !data_calls_app.
  change (data_calls (map ImageToData UKPlateRecognizer.direct_configs))
    with UKPlateRecognizer.direct_configs.
  change (data_calls [Cv "cvtColor"]) with (@nil str).
  change (data_calls [Cv "adaptiveThreshold"]) with (@nil str).
  cbn [app].
  rewrite <- app_nil_r. f_equal.
  destruct (truthy _); [reflexivity|].
  do 3 (rewrite trace_bind; cbn [call trace result fst snd]).
  rewrite !data_calls_app.
  change (data_calls [Cv "cvtColor"]) with (@nil str).
  change (data_calls [Cv "threshold"]) with (@nil str).
  change (data_calls [ImageToString UKPlateRecognizer.psm7]) with (@nil str).
  cbn [app].
  destruct (truthy _); [reflexivity|].
  rewrite trace_bind, data_calls_app, data_calls_is_clearly. cbn [app].
  destruct (result (UKPlateRecognizer.is_clearly_uk_plate cv image))
    as [[|]|]; reflexivity.
Qed.

Lemma direct_result_best (text : str) :
  best_hypothesis (direct_hypotheses cv ocr image) = Some text ->
  result (UKPlateRecognizer.direct_ocr_plate cv ocr image)
  = Return (UKText.format_uk_plate text).
Proof.
  intro H. destruct (direct_best text H) as [E T].
  unfold UKPlateRecognizer.direct_ocr_plate.
  do 2 (rewrite result_bind; cbn [call result snd]).
  fold (direct_ocr_input cv image).
  rewrite result_bind, direct_loop. cbn [result fst snd].
  rewrite E. cbn [text_of]. now rewrite T.
Qed.

Lemma direct_result_reading :
  direct_hypotheses cv ocr image = [] ->
  truthy (strip (image_to_string ocr (direct_plate_part cv image)
                   UKPlateRecognizer.psm7)) = true ->
  result (UKPlateRecognizer.direct_ocr_plate cv ocr image)
  = Return (UKText.format_uk_plate
              (strip (image_to_string ocr (direct_plate_part cv image)
                        UKPlateRecognizer.psm7))).
Proof.
  intros H T. unfold UKPlateRecognizer.direct_ocr_plate.
  do 2 (rewrite result_bind; cbn [call result snd]).
  fold (direct_ocr_input cv image).
  rewrite result_bind, direct_loop. cbn [result fst snd].
  rewrite H. cbn [best_above text_of fst].
  change (truthy (lit "")) with false. cbv iota.
  do 3 (rewrite result_bind; cbn [call result snd]).
  fold (direct_plate_part cv image). now rewrite T.
Qed.

End DirectPlate.

(** Property X18.  [direct_ocr_plate] calls [image_to_data] once for
    each of its three configurations, in order.  Among all the rows with
    a confidence above 10 and a text it takes the one of highest
    confidence, the first seen among equals, and returns its formatted
    text.  When no row qualifies it reads the part right of the band
    with [image_to_string] and returns that text, stripped and
    formatted, if it is not empty. *)
Theorem direct_ocr_takes_the_best (cv : OpenCV) (ocr : Tesseract)
  (image : Image) :
  data_calls (trace (UKPlateRecognizer.direct_ocr_plate cv ocr image))
  = UKPlateRecognizer.direct_configs
  /\ (forall text,
        best_hypothesis (direct_hypotheses cv ocr image) = Some text ->
        result (UKPlateRecognizer.direct_ocr_plate cv ocr image)
        = Return (UKText.format_uk_plate text))
  /\ (direct_hypotheses cv ocr image = [] ->
      truthy (strip (image_to_string ocr (direct_plate_part cv image)
                       UKPlateRecognizer.psm7)) = true ->
      result (UKPlateRecognizer.direct_ocr_plate cv ocr image)
      = Return (UKText.format_uk_plate
                  (strip (image_to_string ocr (direct_plate_part cv image)
                            UKPlateRecognizer.psm7)))).
Proof.
  split; [apply direct_data_calls|].
  split; [apply direct_result_best|apply direct_result_reading].
Qed.

Lemma direct_ocr_takes_the_best_witness :
  result (UKPlateRecognizer.direct_ocr_plate (Toy.seeing 10 40 40 10)
            Toy.reading Toy.night)
  = Return (UKText.format_uk_plate (lit "XY34ZZZ"))
  /\ UKText.format_uk_plate (lit "XY34ZZZ") = lit "XY34 ZZZ".
Proof.
  split; [|vm_compute; reflexivity].
  apply (proj1 (proj2 (direct_ocr_takes_the_best (Toy.seeing 10 40 40 10)
                         Toy.reading Toy.night))).
  vm_compute. reflexivity.
Defined.

(** ** The entries of the results and what was read *)

Lemma Forall_dict_set (Q : str * UKPlateRecognizer.PlateInfo -> Prop)
  (d : UKPlateRecognizer.dict) (k : str) (v : UKPlateRecognizer.PlateInfo) :
  Forall Q d -> Q (k, v) -> Forall Q (UKPlateRecognizer.dict_set d k v).
Proof.
  intros Hd Hv. induction Hd as [|[k' v'] r H Hr IH];
    cbn [UKPlateRecognizer.dict_set].
  - now constructor.
  - destruct (str_eqb k' k); constructor; assumption.
Qed.

Section Readings.

Variable cv : OpenCV.
Variable ocr : Tesseract.

Lemma process_regions_readings (rs : list (Image * Rect))
  (d : UKPlateRecognizer.dict) :
  Forall (fun e => tag_read cv ocr e /\ number_read cv ocr e) d ->
  yields (Forall (fun e => tag_read cv ocr e /\ number_read cv ocr e))
    (UKPlateRecognizer.process_regions cv ocr rs d).
Proof.
  intro Hd. unfold UKPlateRecognizer.process_regions.
  apply yields_for_each; [exact Hd|].
  intros [idx [region bbox]] s _ Hs.
  apply yields_bind. intros pn Hpn. apply yields_bind. intros cid Hcid.
  apply yields_ret. cbn [state_of].
  apply Forall_dict_set; [exact Hs|]. split; [exact Hcid|exact Hpn].
Qed.

Lemma process_image_readings (path : str) (image : Image) :
  imread cv path = Some image ->
  yields
    (fun out =>
       forall d, out = Some d ->
         Forall (tag_read cv ocr) d
         /\ (Forall (number_read cv ocr) d
             \/ (Forall (direct_read cv ocr) d
                 /\ result (UKPlateRecognizer.detect_plate_regions cv image)
                    = Return []
                 /\ map recorded d
                    = [(image, (0, 0, cols image, rows image)%Z)])))
    (UKPlateRecognizer.process_image cv ocr path).
Proof.
  intro Hi. unfold UKPlateRecognizer.process_image. rewrite Hi.
  apply yields_bind. intros _ _. apply yields_bind. intros a _. cbv zeta.
  destruct (strictly_between 3.5 5.5 a).
  - apply yields_bind. intros pn Hpn. apply yields_bind. intros cid Hcid.
    apply yields_ret. intros d [= <-]. cbn [UKPlateRecognizer.dict_set].
    split; [|left]; (constructor; [|constructor]); assumption.
  - apply yields_bind. intros rs Hrs. destruct rs as [|r rs].
    + apply yields_bind. intros pn Hpn. apply yields_bind. intros cid Hcid.
      destruct (str_eqb pn (lit "UNKNOWN")) eqn:EU; cbn [negb].
      * apply yields_ret. intros d [= <-]. split; [constructor|].
        left. constructor.
      * apply yields_ret. intros d [= <-]. cbn [UKPlateRecognizer.dict_set].
        split; [constructor; [exact Hcid|constructor]|].
        right. split; [|split; [exact Hrs|reflexivity]].
        constructor; [|constructor]. split; [exact Hpn|].
        cbn [snd UKPlateRecognizer.plate_number]. intros ->.
        now rewrite str_eqb_refl in EU.
    + apply yields_bind. intros d Hd. apply yields_ret. intros d' [= <-].
      pose proof (process_regions_readings (r :: rs) [] (Forall_nil _) d Hd)
        as F.
      split; [|left]; apply (Forall_impl _ (P := fun e =>
        tag_read cv ocr e /\ number_read cv ocr e)); try exact F;
        now intros e [H1 H2].
Qed.

End Readings.

(** Property X19.  Every entry of the mapping [process_image] returns
    holds what was read on the region it records.  Its tag is what
    [detect_country_identifier] returned on that region.  Its plate
    number is what [recognize_plate_number] returned on that region,
    except when no region was detected: then the one entry records the
    whole image and its plate number is what [direct_ocr_plate] returned
    on it, which is not "UNKNOWN". *)
Theorem entries_hold_their_readings (cv : OpenCV) (ocr : Tesseract)
  (path : str) (d : UKPlateRecognizer.dict) :
  result (UKPlateRecognizer.process_image cv ocr path) = Return (Some d) ->
  Forall (tag_read cv ocr) d
  /\ (Forall (number_read cv ocr) d
      \/ exists image,
           imread cv path = Some image
           /\ Forall (direct_read cv ocr) d
           /\ result (UKPlateRecognizer.detect_plate_regions cv image)
              = Return []
           /\ map recorded d = [(image, (0, 0, cols image, rows image)%Z)]).
Proof.
  intro H. destruct (imread cv path) as [image|] eqn:Hi.
  - destruct (process_image_readings cv ocr path image Hi (Some d) H d eq_refl)
      as [T [N|D]].
    + split; [exact T|now left].
    + split; [exact T|]. right. now exists image.
  - exfalso. revert H. unfold UKPlateRecognizer.process_image. rewrite Hi.
    discriminate.
Qed.

Lemma entries_hold_their_readings_witness :
  exists d,
    result (UKPlateRecognizer.process_image (Toy.seeing 10 40 40 10)
              Toy.reading "street.jpg")
    = Return (Some d)
    /\ map (fun e => UKPlateRecognizer.plate_number (snd e)) d
       = [lit "XY34 ZZZ"]
    /\ Forall (tag_read (Toy.seeing 10 40 40 10) Toy.reading) d
    /\ (Forall (number_read (Toy.seeing 10 40 40 10) Toy.reading) d
        \/ exists image,
             imread (Toy.seeing 10 40 40 10) "street.jpg" = Some image
             /\ Forall (direct_read (Toy.seeing 10 40 40 10) Toy.reading) d
             /\ result (UKPlateRecognizer.detect_plate_regions
                          (Toy.seeing 10 40 40 10) image)
                = Return []
             /\ map recorded d
                = [(image, (0, 0, cols image, rows image)%Z)]).
Proof.
  eexists. split; [vm_compute; reflexivity|].
  split; [vm_compute; reflexivity|].
  apply (entries_hold_their_readings (Toy.seeing 10 40 40 10) Toy.reading
           "street.jpg").
  vm_compute. reflexivity.
Defined.

(** ** The HTTP handler of [api_server.py] *)

Lemma process_image_unread (cv : OpenCV) (ocr : Tesseract) (path : str) :
  imread cv path = None ->
  result (UKPlateRecognizer.process_image cv ocr path) = Return None.
Proof.
  intro H. unfold UKPlateRecognizer.process_image. now rewrite H.
Qed.

(** Property X20.  [anpr_process] always answers.  The status is 400
    exactly when no image was uploaded and 500 exactly when
    [process_image] raised.  An upload that cannot be read as an image
    gets the same answer as an image in which nothing was found: status
    200, plate number and tag "UNKNOWN", confidence 0.0.  For a mapping
    with entries the answer carries the plate number and tag of the
    first entry, with the fixed confidence 0.74. *)
Theorem anpr_process_answers (cv : OpenCV) (ocr : Tesseract)
  (describe : exn -> str) (upload : option str) :
  exists r,
    result (ApiServer.anpr_process cv ocr describe upload) = Return r
    /\ (ApiServer.status_code r = 400%Z <-> upload = None)
    /\ (ApiServer.status_code r = 500%Z <->
        exists path e,
          upload = Some path
          /\ result (UKPlateRecognizer.process_image cv ocr path) = Raise e)
    /\ (forall path,
          upload = Some path -> imread cv path = None ->
          r = unknown_response)
    /\ (forall path,
          upload = Some path ->
          result (UKPlateRecognizer.process_image cv ocr path)
          = Return (Some []) ->
          r = unknown_response)
    /\ (forall path key info d,
          upload = Some path ->
          result (UKPlateRecognizer.process_image cv ocr path)
          = Return (Some ((key, info) :: d)) ->
          r = plate_response (UKPlateRecognizer.plate_number info)
                (UKPlateRecognizer.country_identifier info)).
Proof.
  destruct upload as [temp_path|]; cbn [ApiServer.anpr_process].
  - rewrite result_try_except, result_bind.
    destruct (result (UKPlateRecognizer.process_image cv ocr temp_path))
      as [[[|[key info] d]|]|e] eqn:E; cbn [ret result snd];
      eexists; (split; [reflexivity|]); cbn [ApiServer.status_code].
    + split; [split; discriminate|]. split.
      { split; [discriminate|]. intros (p & e & [= <-] & H).
        rewrite E in H. discriminate. }
      split; [reflexivity|]. split; [reflexivity|].
      intros p k i d' [= <-] H. rewrite E in H. discriminate.
    + split; [split; discriminate|]. split.
      { split; [discriminate|]. intros (p & e & [= <-] & H).
        rewrite E in H. discriminate. }
      split.
      { intros p [= <-] H.
        rewrite (process_image_unread cv ocr temp_path H) in E.
        discriminate. }
      split.
      { intros p [= <-] H. rewrite E in H. discriminate. }
      intros p k i d' [= <-] H. rewrite E in H. now injection H as <- <- <-.
    + split; [split; discriminate|]. split.
      { split; [discriminate|]. intros (p & e & [= <-] & H).
        rewrite E in H. discriminate. }
      split; [reflexivity|]. split; [reflexivity|].
      intros p k i d' [= <-] H. rewrite E in H. discriminate.
    + split; [split; discriminate|]. split.
      { split; [intros _; now exists temp_path, e|reflexivity]. }
      split.
      { intros p [= <-] H.
        rewrite (process_image_unread cv ocr temp_path H) in E.
        discriminate. }
      split.
      { intros p [= <-] H. rewrite E in H. discriminate. }
      intros p k i d' [= <-] H. rewrite E in H. discriminate.
  - eexists. split; [reflexivity|]. cbn [ApiServer.status_code].
    split; [split; reflexivity|]. split.
    { split; [discriminate|]. intros (p & e & [=] & _). }
    split; [intros p [=]|]. split; [intros p [=]|].
    intros p k i d [=].
Qed.

(** Property X21.  When regions are detected that the per-region loop
    can process (each is not empty, is more than six pixels wide, so
    that the band [region[:, 0:int(w*0.15)]] is not empty, and is
    enlarged by OpenCV if narrow), [anpr_process] reports the first of
    them only: the plate number and the tag that
    [recognize_plate_number] and [detect_country_identifier] return on
    the first region of [detect_plate_regions], whatever was read on the
    others and even when that number is "UNKNOWN". *)
Theorem server_reports_first_region (cv : OpenCV) (ocr : Tesseract)
  (describe : exn -> str) (path : str) (image : Image)
  (first : Image * Rect) (others : list (Image * Rect)) :
  imread cv path = Some image ->
  rows image <> 0%Z ->
  strictly_between 3.5 5.5 (aspect (cols image) (rows image)) = false ->
  result (UKPlateRecognizer.detect_plate_regions cv image)
  = Return (first :: others) ->
  Forall (processable cv) (first :: others) ->
  exists plate_number country_identifier,
    result (UKPlateRecognizer.recognize_plate_number cv ocr (fst first))
    = Return plate_number
    /\ result (UKPlateRecognizer.detect_country_identifier cv ocr (fst first))
       = Return country_identifier
    /\ result (ApiServer.anpr_process cv ocr describe (Some path))
       = Return (plate_response plate_number country_identifier).
Proof.
  intros Hi Hh Ha Hd Hp.
  destruct (process_regions_entries cv ocr (first :: others) Hp)
    as (d & E & K & R).
  apply (process_image_regions cv ocr path image (first :: others) d
           Hi Hh Ha Hd ltac:(discriminate)) in E.
  destruct d as [|[key info] d]; [discriminate|].
  destruct (process_image_readings cv ocr path image Hi _ E _ eq_refl)
    as [T [N|(_ & D & _)]].
  2:{ rewrite Hd in D. discriminate. }
  apply Forall_inv in T, N. unfold tag_read in T. unfold number_read in N.
  cbn [snd] in T, N.
  cbn [map recorded snd] in R. injection R as R _.
  assert (Er : UKPlateRecognizer.region info = fst first) by now rewrite <- R.
  rewrite Er in T, N.
  exists (UKPlateRecognizer.plate_number info),
    (UKPlateRecognizer.country_identifier info).
  split; [exact N|]. split; [exact T|].
  cbn [ApiServer.anpr_process]. rewrite result_try_except, result_bind.
  match goal with
  | |- match match ?x with _ => _ end with _ => _ end = _ =>
      replace x
        with (@Return (option UKPlateRecognizer.dict)
                (Some ((key, info) :: d)))
        by (symmetry; exact E)
  end.
  reflexivity.
Qed.

Lemma server_reports_first_region_witness :
  exists plate_number country_identifier,
    result (UKPlateRecognizer.recognize_plate_number
              (Toy.seeing 10 40 40 10) Toy.blind
              (fst (candidate_of (Toy.seeing 10 40 40 10) Toy.night
                      (Toy.box 10 40 40 10))))
    = Return plate_number
    /\ result (UKPlateRecognizer.detect_country_identifier
                 (Toy.seeing 10 40 40 10) Toy.blind
                 (fst (candidate_of (Toy.seeing 10 40 40 10) Toy.night
                         (Toy.box 10 40 40 10))))
       = Return country_identifier
    /\ result (ApiServer.anpr_process (Toy.seeing 10 40 40 10) Toy.blind
                 (fun _ => lit "error") (Some (lit "upload.jpg")))
       = Return (plate_response plate_number country_identifier).
Proof.
  apply (server_reports_first_region (Toy.seeing 10 40 40 10) Toy.blind
           (fun _ => lit "error") (lit "upload.jpg") Toy.night
           (candidate_of (Toy.seeing 10 40 40 10) Toy.night
              (Toy.box 10 40 40 10)) []).
  - reflexivity.
  - discriminate.
  - vm_compute. reflexivity.
  - vm_compute. reflexivity.
  - constructor; [|constructor].
    split; [discriminate|]. split; [discriminate|].
    split; [vm_compute; reflexivity|].
    eexists. vm_compute. reflexivity.
Defined.

(** ** The demo script *)


(** ** The starter script: ports *)

Lemma probe_spec (in_use : Z -> bool) (attempts : nat) (port : Z) :
  match StartApi.probe in_use port attempts with
  | Some p =>
      (port <= p < port + Z.of_nat attempts)%Z
      /\ in_use p = false
      /\ forall q, (port <= q < p)%Z -> in_use q = true
  | None =>
      forall q, (port <= q < port + Z.of_nat attempts)%Z -> in_use q = true
  end.
Proof.
  revert port. induction attempts as [|n IH]; intros port;
    cbn [StartApi.probe].
  - intros q Hq. lia.
  - destruct (in_use port) eqn:E; cbn [negb].
    + specialize (IH (port + 1)%Z).
      destruct (StartApi.probe in_use (port + 1) n) as [p|].
      * destruct IH as (R & F & B). split; [lia|]. split; [exact F|].
        intros q Hq. destruct (Z.eq_dec q port) as [->|Hn]; [exact E|].
        apply B. lia.
      * intros q Hq. destruct (Z.eq_dec q port) as [->|Hn]; [exact E|].
        apply IH. lia.
    + split; [lia|]. split; [exact E|]. intros q Hq. lia.
Qed.

(** Property X23.  For a non-negative number of attempts,
    [find_available_port] returns the first port from [start_port] on
    that is not in use, among the [max_attempts] ports it probes.  When
    all of them are in use it returns [start_port + max_attempts], a
    port it has not probed. *)
Theorem find_available_port_first_free (in_use : Z -> bool)
  (start_port max_attempts : Z) :
  (0 <= max_attempts)%Z ->
  let port := StartApi.find_available_port in_use start_port max_attempts in
  (start_port <= port <= start_port + max_attempts)%Z
  /\ (forall q, (start_port <= q < port)%Z -> in_use q = true)
  /\ ((port < start_port + max_attempts)%Z -> in_use port = false).
Proof.
  intro H. cbv zeta. unfold StartApi.find_available_port.
  pose proof (probe_spec in_use (Z.to_nat max_attempts) start_port) as P.
  rewrite Z2Nat.id in P by exact H.
  destruct (StartApi.probe in_use start_port (Z.to_nat max_attempts))
    as [p|].
  - destruct P as (R & F & B). split; [lia|]. split; [exact B|].
    intros _. exact F.
  - split; [lia|]. split; [exact P|]. lia.
Qed.

Lemma find_available_port_first_free_witness :
  let in_use := fun q => (q <? 5002)%Z in
  let port := StartApi.find_available_port in_use 5000 10 in
  port = 5002%Z
  /\ (5000 <= port <= 5000 + 10)%Z
  /\ (forall q, (5000 <= q < port)%Z -> in_use q = true)
  /\ ((port < 5000 + 10)%Z -> in_use port = false).
Proof.
  cbv zeta. split; [reflexivity|].
  apply (find_available_port_first_free (fun q => (q <? 5002)%Z) 5000 10).
  lia.
Defined.

(** ** The starter script: the texts it searches *)

Lemma slice_at (text : str) (i : nat) :
  slice text i (i + 7) = upto (from text i) 7.
Proof.
  unfold slice, upto, from. f_equal. lia.
Qed.

Lemma pattern_search_spec (text : str) :
  match StartApi.pattern_search text with
  | Some w =>
      exists i,
        w = slice text i (i + 7)
        /\ uk_plate_pattern w = true
        /\ forall j, j < i -> uk_plate_pattern (slice text j (j + 7)) = false
  | None => forall i, uk_plate_pattern (slice text i (i + 7)) = false
  end.
Proof.
  induction text as [|c r IH].
  - cbn. intros i. rewrite slice_at. unfold from, upto.
    rewrite skipn_nil, firstn_nil. reflexivity.
  - cbn [StartApi.pattern_search].
    destruct (uk_plate_pattern (upto (c :: r) 7)) eqn:E.
    + exists 0. rewrite slice_at. unfold from. cbn [skipn].
      split; [reflexivity|]. split; [exact E|]. intros j Hj. lia.
    + destruct (StartApi.pattern_search r) as [w|].
      * destruct IH as (i & Ew & P & L). exists (S i).
        rewrite slice_at in *. unfold from in *. cbn [skipn].
        split; [exact Ew|]. split; [exact P|].
        intros [|j] Hj.
        -- rewrite slice_at. exact E.
        -- specialize (L j ltac:(lia)). rewrite slice_at in *. exact L.
      * intros [|i].
        -- rewrite slice_at. exact E.
        -- specialize (IH i). rewrite slice_at in *. exact IH.
Qed.

Lemma greedy_len (n : nat) (text : str) : len (StartApi.greedy n text) <= n.
Proof.
  revert text. induction n as [|n IH]; intros [|c r]; cbn [StartApi.greedy];
    try (cbn; lia).
  destruct (StartApi.is_AZ09 c); [|cbn; lia].
  cbn [len List.length]. specialize (IH r). unfold len in IH. lia.
Qed.

Lemma greedy_class (n : nat) (text : str) :
  Forall (fun c => StartApi.is_AZ09 c = true) (StartApi.greedy n text).
Proof.
  revert text. induction n as [|n IH]; intros [|c r]; cbn [StartApi.greedy];
    try constructor.
  destruct (StartApi.is_AZ09 c) eqn:E; constructor; [exact E|apply IH].
Qed.

Lemma greedy_prefix (n : nat) (text : str) :
  StartApi.greedy n text = upto text (len (StartApi.greedy n text)).
Proof.
  unfold upto. revert text.
  induction n as [|n IH]; intros [|c r]; cbn [StartApi.greedy];
    try reflexivity.
  destruct (StartApi.is_AZ09 c); [|reflexivity].
  cbn [len List.length firstn]. f_equal. apply IH.
Qed.

Lemma greedy_whole (n : nat) (m : str) :
  Forall (fun c => StartApi.is_AZ09 c = true) m -> len m <= n ->
  StartApi.greedy n m = m.
Proof.
  intro H. revert n. induction H as [|c r Hc _ IH]; intros n L.
  - now destruct n.
  - destruct n as [|n]; [cbn in L; lia|]. cbn [StartApi.greedy].
    rewrite Hc. f_equal. apply IH. cbn in L. unfold len. lia.
Qed.

Lemma findall_from_candidates (fuel : nat) (text m : str) :
  In m (StartApi.findall_from fuel text) -> candidate_in text m.
Proof.
  revert text. induction fuel as [|f IH]; intros text; [intros []|].
  cbn [StartApi.findall_from]. destruct text as [|c r]; [intros []|].
  cbv zeta.
  destruct (Nat.leb_spec 2 (len (StartApi.greedy 7 (c :: r)))) as [L|L].
  - intros [<-|H].
    + split; [split; [exact L|apply greedy_len]|].
      split; [apply greedy_class|].
      exists 0. unfold slice. cbn [skipn].
      rewrite Nat.add_0_l, Nat.sub_0_r. apply greedy_prefix.
    + destruct (IH _ H) as (B & C & i & E).
      split; [exact B|]. split; [exact C|].
      exists (len (StartApi.greedy 7 (c :: r)) + i).
      rewrite E at 1. unfold slice, from.
      rewrite skipn_skipn. f_equal; [lia|]. f_equal. lia.
  - intro H. destruct (IH _ H) as (B & C & i & E).
    split; [exact B|]. split; [exact C|].
    exists (S i). rewrite E at 1. unfold slice. cbn [skipn].
    f_equal; lia.
Qed.

Lemma findall_from_fuel (f1 f2 : nat) (text : str) :
  len text <= f1 -> len text <= f2 ->
  StartApi.findall_from f1 text = StartApi.findall_from f2 text.
Proof.
  revert f2 text. induction f1 as [|f1 IH]; intros f2 text L1 L2.
  - destruct text; [|cbn in L1; lia]. now destruct f2.
  - destruct f2 as [|f2].
    + destruct text; [reflexivity|cbn in L2; lia].
    + cbn [StartApi.findall_from]. destruct text as [|c r]; [reflexivity|].
      cbv zeta. cbn [len List.length] in L1, L2.
      destruct (Nat.leb_spec 2 (len (StartApi.greedy 7 (c :: r)))) as [L|L].
      * f_equal. apply IH; unfold from, len in *; rewrite length_skipn;
          cbn [List.length]; lia.
      * apply IH; unfold len; lia.
Qed.

Lemma longest_spec (first : str) (rest : list str) :
  In (StartApi.longest first rest) (first :: rest)
  /\ Forall (fun m => len m <= len (StartApi.longest first rest))
       (first :: rest).
Proof.
  unfold StartApi.longest. revert first.
  induction rest as [|c r IH]; intros first; cbn [fold_left].
  - split; [now left|]. constructor; [lia|constructor].
  - destruct (Nat.ltb_spec (len first) (len c)) as [L|L].
    + destruct (IH c) as [I F]. split; [now right|].
      pose proof (Forall_inv F) as Fc. cbv beta in Fc.
      constructor; [lia|exact F].
    + destruct (IH first) as [I F]. split.
      * destruct I as [<-|I]; [now left|right; now right].
      * pose proof (Forall_inv F) as Ff. cbv beta in Ff.
        constructor; [exact Ff|]. constructor; [lia|].
        exact (Forall_inv_tail F).
Qed.

(** Property X24.  The candidates the last resort of [anpr_process]
    finds in a text each have two to seven characters, all upper-case
    letters or digits, and stand together in the text; a text that is
    itself such a string is its own single candidate.  Scanning one
    position per character misses nothing.  The candidate reported is
    one of them and none is longer. *)
Theorem last_resort_candidates (text : str) :
  Forall (candidate_in text) (StartApi.findall_candidates text)
  /\ (forall fuel,
        len text <= fuel ->
        StartApi.findall_from fuel text = StartApi.findall_candidates text)
  /\ (Forall (fun c => StartApi.is_AZ09 c = true) text ->
      2 <= len text <= 7 ->
      StartApi.findall_candidates text = [text])
  /\ forall first rest,
       In (StartApi.longest first rest) (first :: rest)
       /\ Forall (fun m => len m <= len (StartApi.longest first rest))
            (first :: rest).
Proof.
  split; [|split; [|split]].
  - apply Forall_forall. intros m H.
    exact (findall_from_candidates _ _ _ H).
  - intros fuel L. unfold StartApi.findall_candidates.
    apply findall_from_fuel; [exact L|lia].
  - intros C [L2 L7]. unfold StartApi.findall_candidates.
    destruct text as [|c r]; [cbn in L2; lia|].
    cbn [len List.length StartApi.findall_from]. cbv zeta.
    rewrite (greedy_whole 7 (c :: r) C L7).
    destruct (Nat.leb_spec 2 (len (c :: r))) as [_|L]; [|lia].
    f_equal. unfold from. rewrite skipn_all.
    now destruct (List.length r).
  - apply longest_spec.
Qed.

(** ** The starter script: the HTTP handler *)

Section StartHandler.

Variable cv : OpenCV.
Variable ocr : Tesseract.
Variable open_image : str -> option Image.
Variable path : str.

Lemma last_resort_result :
  result (StartApi.last_resort ocr open_image path)
  = Return
      match open_image path with
      | None => None
      | Some pil =>
          match StartApi.findall_candidates
                  (image_to_string_bgr ocr pil (lit "")) with
          | [] => None
          | first :: rest =>
              Some (StartApi.longest first rest, lit "UNKNOWN")
          end
      end.
Proof.
  unfold StartApi.last_resort. destruct (open_image path) as [pil|];
    [|reflexivity].
  rewrite result_bind. cbn [call result snd].
  now destruct (StartApi.findall_candidates _).
Qed.

Lemma fallback_result (image : Image) :
  imread cv path = Some image ->
  result (StartApi.fallback cv ocr path)
  = Return
      match StartApi.pattern_search
              (StartApi.compact
                 (image_to_string ocr (fallback_input cv image)
                    StartApi.psm7)) with
      | Some w => Some (upto w 4 ++ lit " " ++ from w 4, lit "GB")
      | None => None
      end.
Proof.
  intro Hi. unfold StartApi.fallback. rewrite Hi.
  do 4 (rewrite result_bind; cbn [call result snd]).
  fold (fallback_input cv image).
  now destruct (StartApi.pattern_search _).
Qed.

Lemma fallback_unread :
  imread cv path = None ->
  result (StartApi.fallback cv ocr path) = Raise cv2_error.
Proof.
  intro Hi. unfold StartApi.fallback. now rewrite Hi.
Qed.

Lemma recognize_falsy (results : option UKPlateRecognizer.dict) :
  result (UKPlateRecognizer.process_image cv ocr path) = Return results ->
  results = None \/ results = Some [] ->
  result (StartApi.recognize cv ocr open_image path)
  = match result (StartApi.fallback cv ocr path) with
    | Return a => Return a
    | Raise _ => result (StartApi.last_resort ocr open_image path)
    end.
Proof.
  intros E F. unfold StartApi.recognize.
  rewrite result_try_except, result_bind.
  match goal with
  | |- match match ?x with _ => _ end with _ => _ end = _ =>
      replace x with (@Return (option UKPlateRecognizer.dict) results)
        by (symmetry; exact E)
  end.
  destruct F as [-> | ->]; cbv beta iota; rewrite result_try_except;
    (destruct (result (StartApi.fallback cv ocr path)) as [a|e];
     [reflexivity|now rewrite last_resort_result]).
Qed.

Lemma recognize_entries (key : str) (info : UKPlateRecognizer.PlateInfo)
  (d : UKPlateRecognizer.dict) :
  result (UKPlateRecognizer.process_image cv ocr path)
  = Return (Some ((key, info) :: d)) ->
  result (StartApi.recognize cv ocr open_image path)
  = Return (Some (UKPlateRecognizer.plate_number info,
                  UKPlateRecognizer.country_identifier info)).
Proof.
  intro E. unfold StartApi.recognize.
  rewrite result_try_except, result_bind.
  match goal with
  | |- match match ?x with _ => _ end with _ => _ end = _ =>
      replace x
        with (@Return (option UKPlateRecognizer.dict)
                (Some ((key, info) :: d)))
        by (symmetry; exact E)
  end.
  reflexivity.
Qed.

Lemma recognize_raised (e : exn) :
  result (UKPlateRecognizer.process_image cv ocr path) = Raise e ->
  StartApi.recognize cv ocr open_image path
  = (trace (UKPlateRecognizer.process_image cv ocr path), Return None).
Proof.
  unfold StartApi.recognize.
  destruct (UKPlateRecognizer.process_image cv ocr path) as [t [a|e']];
    cbn [result trace fst snd]; [discriminate|]. intros _.
  cbn [bind try_except ret]. now rewrite app_nil_r.
Qed.

Lemma recognize_returns :
  exists results,
    result (StartApi.recognize cv ocr open_image path) = Return results.
Proof.
  destruct (result (UKPlateRecognizer.process_image cv ocr path))
    as [[[|[key info] d]|]|e] eqn:E.
  - rewrite (recognize_falsy (Some []) E (or_intror eq_refl)).
    destruct (result (StartApi.fallback cv ocr path)); [now eexists|].
    rewrite last_resort_result. now eexists.
  - rewrite (recognize_entries key info d E). now eexists.
  - rewrite (recognize_falsy None E (or_introl eq_refl)).
    destruct (result (StartApi.fallback cv ocr path)); [now eexists|].
    rewrite last_resort_result. now eexists.
  - rewrite (recognize_raised e E). now eexists.
Qed.

Lemma start_answer (results : option (str * str)) :
  result (StartApi.recognize cv ocr open_image path) = Return results ->
  result (StartApi.anpr_process cv ocr open_image (Some path))
  = Return (answer_of results).
Proof.
  intro E. cbn [StartApi.anpr_process]. rewrite result_bind, E.
  now destruct results as [[pn cid]|].
Qed.

End StartHandler.

(** Property X25.  For an uploaded image [anpr_process] of
    [start_api.py] always answers with status 200.  When
    [process_image] raises, the answer is the one for no plate
    ("UNKNOWN", "UNKNOWN", 0.0) and no further call is made: the last
    resort OCR is never reached, where [api_server.py] answers with
    status 500.  When [process_image] returns a mapping with entries,
    both servers give the same answer. *)
Theorem start_api_answers (cv : OpenCV) (ocr : Tesseract)
  (open_image : str -> option Image) (path : str) :
  exists r,
    result (StartApi.anpr_process cv ocr open_image (Some path)) = Return r
    /\ ApiServer.status_code r = 200%Z
    /\ (forall e,
          result (UKPlateRecognizer.process_image cv ocr path) = Raise e ->
          r = unknown_response
          /\ trace (StartApi.anpr_process cv ocr open_image (Some path))
             = trace (UKPlateRecognizer.process_image cv ocr path)
          /\ forall describe,
               exists r',
                 result (ApiServer.anpr_process cv ocr describe (Some path))
                 = Return r'
                 /\ ApiServer.status_code r' = 500%Z)
    /\ (forall key info d,
          result (UKPlateRecognizer.process_image cv ocr path)
          = Return (Some ((key, info) :: d)) ->
          r = plate_response (UKPlateRecognizer.plate_number info)
                (UKPlateRecognizer.country_identifier info)
          /\ forall describe,
               result (ApiServer.anpr_process cv ocr describe (Some path))
               = Return r).
Proof.
  destruct (recognize_returns cv ocr open_image path) as [results E].
  exists (answer_of results).
  split; [exact (start_answer cv ocr open_image path results E)|].
  split; [now destruct results as [[pn cid]|]|]. split.
  - intros e He.
    pose proof (recognize_raised cv ocr open_image path e He) as R.
    assert (results = None) as ->.
    { rewrite R in E. cbn [result snd] in E. congruence. }
    split; [reflexivity|]. split.
    + cbn [StartApi.anpr_process]. rewrite R.
      cbn [bind ret trace fst]. now rewrite app_nil_r.
    + intro describe. cbn [ApiServer.anpr_process].
      rewrite result_try_except, result_bind, He.
      eexists. split; reflexivity.
  - intros key info d He.
    rewrite (recognize_entries cv ocr open_image path key info d He) in E.
    injection E as <-. split; [reflexivity|].
    intro describe. cbn [ApiServer.anpr_process].
    rewrite result_try_except, result_bind.
    match goal with
    | |- match match ?x with _ => _ end with _ => _ end = _ =>
        replace x
          with (@Return (option UKPlateRecognizer.dict)
                  (Some ((key, info) :: d)))
          by (symmetry; exact He)
    end.
    reflexivity.
Qed.

Lemma pattern_valid (w : str) :
  len w = 7 -> uk_plate_pattern w = true ->
  SimpleText.is_valid_uk_plate (upto w 4 ++ lit " " ++ from w 4) = true.
Proof.
  intros L P. unfold SimpleText.is_valid_uk_plate.
  rewrite <- spaced_eq, spaced_no_space; [exact P|].
  exact (pattern_settled w L P).
Qed.

(** Property X26.  When [process_image] returns the empty mapping for a
    readable image, [anpr_process] of [start_api.py] reads the
    thresholded image once more, removes all white space from the text,
    and searches it as it stands, without upper-casing it, for the plate
    pattern.  The leftmost match is reported as four characters, a
    space, three characters, which [is_valid_uk_plate] accepts, always
    with the tag "GB"; without a match the answer is the one for no
    plate. *)
Theorem fallback_reports_leftmost_plate (cv : OpenCV) (ocr : Tesseract)
  (open_image : str -> option Image) (path : str) (image : Image) :
  imread cv path = Some image ->
  result (UKPlateRecognizer.process_image cv ocr path) = Return (Some []) ->
  let text :=
    StartApi.compact
      (image_to_string ocr (fallback_input cv image) StartApi.psm7) in
  match StartApi.pattern_search text with
  | Some w =>
      (exists i,
         w = slice text i (i + 7)
         /\ uk_plate_pattern w = true
         /\ forall j, j < i -> uk_plate_pattern (slice text j (j + 7)) = false)
      /\ SimpleText.is_valid_uk_plate (upto w 4 ++ lit " " ++ from w 4) = true
      /\ result (StartApi.anpr_process cv ocr open_image (Some path))
         = Return (plate_response (upto w 4 ++ lit " " ++ from w 4) (lit "GB"))
  | None =>
      (forall i, uk_plate_pattern (slice text i (i + 7)) = false)
      /\ result (StartApi.anpr_process cv ocr open_image (Some path))
         = Return unknown_response
  end.
Proof.
  intros Hi He. cbv zeta.
  pose proof (recognize_falsy cv ocr open_image path (Some []) He
                (or_intror eq_refl)) as R.
  rewrite (fallback_result cv ocr path image Hi) in R.
  apply start_answer in R.
  pose proof (pattern_search_spec
                (StartApi.compact
                   (image_to_string ocr (fallback_input cv image)
                      StartApi.psm7))) as S.
  destruct (StartApi.pattern_search _) as [w|].
  - split; [exact S|]. split; [|exact R].
    destruct S as (i & Ew & P & _). apply pattern_valid; [|exact P].
    destruct (pattern_len _ P) as [L|L]; [exact L|].
    exfalso. rewrite Ew, slice_at in L. unfold upto, len in L.
    pose proof (firstn_le_length 7
                  (from (StartApi.compact
                           (image_to_string ocr (fallback_input cv image)
                              StartApi.psm7)) i)).
    lia.
  - split; [exact S|exact R].
Qed.

Lemma fallback_reports_leftmost_plate_witness :
  result (StartApi.anpr_process
            (Toy.cv (Some (Toy.solid 10 10 Toy.black)) [])
            (Toy.ocr (fun _ => [])
               (fun config =>
                  if str_eqb config StartApi.psm7 then lit "ab AB12 CDE"
                  else lit ""))
            (fun _ => None) (Some (lit "upload.jpg")))
  = Return (plate_response (lit "AB12 CDE") (lit "GB")).
Proof.
  pose proof (fallback_reports_leftmost_plate
                (Toy.cv (Some (Toy.solid 10 10 Toy.black)) [])
                (Toy.ocr (fun _ => [])
                   (fun config =>
                      if str_eqb config StartApi.psm7 then lit "ab AB12 CDE"
                      else lit ""))
                (fun _ => None) (lit "upload.jpg")
                (Toy.solid 10 10 Toy.black) eq_refl) as W.
  cbv zeta in W.
  assert (E : StartApi.pattern_search
                (StartApi.compact
                   (image_to_string
                      (Toy.ocr (fun _ => [])
                         (fun config =>
                            if str_eqb config StartApi.psm7
                            then lit "ab AB12 CDE" else lit ""))
                      (fallback_input
                         (Toy.cv (Some (Toy.solid 10 10 Toy.black)) [])
                         (Toy.solid 10 10 Toy.black))
                      StartApi.psm7))
              = Some (lit "AB12CDE")) by (vm_compute; reflexivity).
  rewrite E in W.
  destruct W as (_ & _ & W); [vm_compute; reflexivity|exact W].
Defined.

(** Property X27.  For an upload that OpenCV cannot read,
    [anpr_process] of [start_api.py] goes through its fallback, which
    fails on the missing image, to its last resort: if the file opens as
    an image there, its text is read once more and the first of the
    longest candidates is reported with the tag "UNKNOWN"; otherwise,
    and when the text holds no candidate, the answer is the one for no
    plate.  [api_server.py] always gives that answer for such an
    upload. *)
Theorem unreadable_upload_last_resort (cv : OpenCV) (ocr : Tesseract)
  (open_image : str -> option Image) (path : str) :
  imread cv path = None ->
  result (StartApi.anpr_process cv ocr open_image (Some path))
  = Return
      match open_image path with
      | None => unknown_response
      | Some pil =>
          match StartApi.findall_candidates
                  (image_to_string_bgr ocr pil (lit "")) with
          | [] => unknown_response
          | first :: rest =>
              plate_response (StartApi.longest first rest) (lit "UNKNOWN")
          end
      end.
Proof.
  intro Hi.
  pose proof (recognize_falsy cv ocr open_image path None
                (process_image_unread cv ocr path Hi) (or_introl eq_refl))
    as R.
  rewrite (fallback_unread cv ocr path Hi), last_resort_result in R.
  apply start_answer in R. rewrite R. f_equal.
  destruct (open_image path) as [pil|]; [|reflexivity].
  now destruct (StartApi.findall_candidates _).
Qed.

Lemma unreadable_upload_last_resort_witness :
  result (StartApi.anpr_process Toy.bare
            (Toy.ocr (fun _ => []) (fun _ => lit "XY 12345678 Z"))
            (fun _ => Some Toy.night) (Some (lit "upload.jpg")))
  = Return (plate_response (lit "1234567") (lit "UNKNOWN")).
Proof.
  rewrite (unreadable_upload_last_resort Toy.bare
             (Toy.ocr (fun _ => []) (fun _ => lit "XY 12345678 Z"))
             (fun _ => Some Toy.night) (lit "upload.jpg") eq_refl).
  vm_compute. reflexivity.
Defined.

(** ** The two stand-alone scripts *)

(** Property X28.  What [detect_and_recognize_plate] returns.  For a
    file it cannot read: [(None, None)].  For an image in which no
    contour among the ten largest passes the tests: the image and the
    cleaned text of one OCR call on the thresholded whole image, which
    may be the empty string.  For an image with a passing contour: the
    image with the box drawn on it and the text the configuration loop
    chose on the region of the first passing contour, or [None] in
    place of an empty text. *)
Theorem simple_detector_answer (cv : OpenCV) (ocr : Tesseract) (path : str) :
  (imread cv path = None ->
   result (SimpleDetector.detect_and_recognize_plate cv ocr path)
   = Return (None, None))
  /\ forall image,
       imread cv path = Some image ->
       (forall c, In c (simple_contours cv image) ->
          height_of (boundingRect cv c) <> 0%Z) ->
       match find (keeps_region cv) (simple_contours cv image) with
       | None =>
           result (SimpleDetector.detect_and_recognize_plate cv ocr path)
           = Return
               (Some (SimpleText.clean_and_format_plate
                        (image_to_string ocr (simple_thresh cv image)
                           SimpleDetector.sparse_config)),
                Some image)
       | Some c =>
           let r := boundingRect cv c in
           let best_text :=
             chosen_text ocr (simple_plate_pil cv image r)
               SimpleDetector.configs (lit "") in
           result (SimpleDetector.detect_and_recognize_plate cv ocr path)
           = Return
               ((if truthy best_text then Some best_text else None),
                Some (marked cv image r))
       end.
Proof.
  split.
  - intro Hi. unfold SimpleDetector.detect_and_recognize_plate.
    now rewrite Hi.
  - intros image Hi Hh.
    assert (F : result (SimpleDetector.find_plate cv
                          (simple_contours cv image))
                = Return (option_map (boundingRect cv)
                            (find (keeps_region cv)
                               (simple_contours cv image)))).
    { unfold SimpleDetector.find_plate. apply for_each_find. intros c Hc.
      unfold keeps_region, aspect_of. fold (vertices_ok cv c).
      specialize (Hh c Hc). unfold height_of in Hh.
      destruct (vertices_ok cv c); [|reflexivity]. cbn [andb].
      destruct (boundingRect cv c) as [[[x y] w] h].
      rewrite result_bind, (result_truediv _ _ Hh).
      now destruct (strictly_between 2 7 (aspect w h)). }
    unfold SimpleDetector.detect_and_recognize_plate. rewrite Hi.
    do 6 (rewrite result_bind; cbn [call result snd]).
    cbv zeta. rewrite result_bind.
    fold (simple_thresh cv image). fold (simple_contours cv image).
    rewrite F.
    destruct (find (keeps_region cv) (simple_contours cv image)) as [c|];
      cbn [option_map].
    + cbv zeta. unfold simple_plate_pil, marked, region_of.
      destruct (boundingRect cv c) as [[[x y] w] h].
      do 4 (rewrite result_bind; cbn [call result snd]).
      unfold SimpleDetector.try_configs. rewrite config_loop_from.
      cbn [result snd]. now destruct (truthy _).
    + rewrite result_bind. reflexivity.
Qed.

Lemma simple_detector_answer_witness :
  result (SimpleDetector.detect_and_recognize_plate
            (Toy.seeing 10 40 40 10) Toy.blind "car.jpg")
  = Return (None, Some Toy.night)
  /\ result (SimpleDetector.detect_and_recognize_plate
               (Toy.cv (Some Toy.night) []) Toy.blind "car.jpg")
     = Return (Some (lit ""), Some Toy.night).
Proof.
  split.
  - pose proof (proj2 (simple_detector_answer (Toy.seeing 10 40 40 10)
                         Toy.blind "car.jpg") Toy.night eq_refl) as W.
    assert (E : find (keeps_region (Toy.seeing 10 40 40 10))
                  (simple_contours (Toy.seeing 10 40 40 10) Toy.night)
                = Some (Toy.box 10 40 40 10)) by (vm_compute; reflexivity).
    rewrite E in W. apply W.
    intros c [<-|[]]. discriminate.
  - pose proof (proj2 (simple_detector_answer (Toy.cv (Some Toy.night) [])
                         Toy.blind "car.jpg") Toy.night eq_refl) as W.
    assert (E : find (keeps_region (Toy.cv (Some Toy.night) []))
                  (simple_contours (Toy.cv (Some Toy.night) []) Toy.night)
                = None) by reflexivity.
    rewrite E in W. apply W. intros c [].
Defined.

(** Property X29.  [process_image] of [direct_ocr.py] returns
    [(None, None)] for a file it cannot read, without any OCR call.  For
    a readable image it makes exactly one OCR call, on the thresholded
    whole image, and no contour detection; it returns the image as read
    together with the normalized text, which its normalizer leaves
    unchanged. *)
Theorem direct_ocr_image_answer (cv : OpenCV) (ocr : Tesseract) (path : str) :
  (imread cv path = None ->
   DirectOcrImage.process_image cv ocr path
   = ([Cv "imread"], Return (None, None)))
  /\ forall image,
       imread cv path = Some image ->
       let reading :=
         image_to_string ocr (direct_image_input cv image)
           DirectOcrImage.custom_config in
       let text := DirectOcr.clean_and_format_plate reading in
       result (DirectOcrImage.process_image cv ocr path)
       = Return (Some text, Some image)
       /\ string_calls (trace (DirectOcrImage.process_image cv ocr path))
          = [DirectOcrImage.custom_config]
       /\ no_contour_detection
            (trace (DirectOcrImage.process_image cv ocr path))
       /\ DirectOcr.clean_and_format_plate text = text.
Proof.
  split.
  - intro Hi. unfold DirectOcrImage.process_image. now rewrite Hi.
  - intros image Hi. cbv zeta.
    unfold DirectOcrImage.process_image. rewrite Hi.
    split; [reflexivity|]. split; [reflexivity|]. split.
    + unfold no_contour_detection. cbn.
      intros [H|[H|[H|[H|[]]]]]; discriminate.
    + apply direct_idempotent.
Qed.

(** ** ASCII strings among the strings of code points *)

Lemma ascii_text_Forall (s : str) :
  ascii_text s <-> Forall (fun c => code c < 128) s.
Proof.
  unfold ascii_text. rewrite forallb_forall, Forall_forall.
  split; intros H c Hc; apply Nat.ltb_lt; auto.
Qed.

Lemma of_str_eqb (c a : ascii) :
  (N.of_nat (code c) =? N.of_nat (code a))%N = Ascii.eqb c a.
Proof.
  destruct (Ascii.eqb_spec c a) as [->|Hn].
  - apply N.eqb_refl.
  - apply N.eqb_neq. intros E. apply Hn.
    assert (E' : nat_of_ascii c = nat_of_ascii a) by (unfold code in E; lia).
    rewrite <- (ascii_nat_embedding c), <- (ascii_nat_embedding a).
    now rewrite E'.
Qed.

Lemma of_str_between (lo hi : nat) (c : ascii) :
  ((N.of_nat lo <=? N.of_nat (code c))
   && (N.of_nat (code c) <=? N.of_nat hi))%N = between lo hi c.
Proof.
  unfold between.
  destruct (Nat.leb_spec lo (code c)), (Nat.leb_spec (code c) hi),
    (N.leb_spec (N.of_nat lo) (N.of_nat (code c))),
    (N.leb_spec (N.of_nat (code c)) (N.of_nat hi)); cbn; try reflexivity; lia.
Qed.

Lemma of_str_is_AZ (c : ascii) :
  Unicode.is_AZ (N.of_nat (code c)) = is_AZ c.
Proof. exact (of_str_between 65 90 c). Qed.

Lemma of_str_is_O0 (c : ascii) :
  Unicode.is_O0 (N.of_nat (code c)) = is_O0 c.
Proof.
  unfold Unicode.is_O0, is_O0.
  now rewrite <- (of_str_eqb c "O"), <- (of_str_eqb c "0").
Qed.

Lemma of_str_slice (s : str) (i j : nat) :
  Unicode.slice (Unicode.of_str s) i j = Unicode.of_str (slice s i j).
Proof.
  unfold Unicode.slice, slice, Unicode.of_str.
  now rewrite <- firstn_map, <- skipn_map.
Qed.

Lemma of_str_spaced (s : str) :
  Unicode.spaced (Unicode.of_str s) = Unicode.of_str (spaced s).
Proof.
  unfold Unicode.spaced, spaced, upto, from. rewrite of_str_slice.
  unfold Unicode.of_str. rewrite !map_app.
  now rewrite <- firstn_map, <- skipn_map.
Qed.

Lemma of_str_length (s : str) :
  List.length (Unicode.of_str s) = len s.
Proof. apply length_map. Qed.

Lemma of_str_replace (a b : ascii) (s : str) :
  Unicode.replace (N.of_nat (code a)) (N.of_nat (code b)) (Unicode.of_str s)
  = Unicode.of_str (replace a b s).
Proof.
  unfold Unicode.replace, replace, Unicode.of_str. rewrite !map_map.
  apply map_ext. intros c. rewrite of_str_eqb. now destruct (Ascii.eqb c a).
Qed.

Lemma of_str_head_BOJ (s : str) :
  Unicode.head_BOJ (Unicode.of_str s) = head_BOJ s.
Proof.
  destruct s as [|b [|o [|j r]]]; try reflexivity.
  cbn [Unicode.of_str map Unicode.head_BOJ head_BOJ].
  now rewrite of_str_is_O0, <- (of_str_eqb b "B"), <- (of_str_eqb j "J").
Qed.

Lemma of_str_any_then_BOJ (s : str) :
  Unicode.any_then_BOJ (Unicode.of_str s) = any_then_BOJ s.
Proof.
  induction s as [|c r IH]; [reflexivity|].
  change (Unicode.any_then_BOJ (Unicode.of_str (c :: r)))
    with (Unicode.head_BOJ (Unicode.of_str (c :: r))
          || negb (N.of_nat (code c) =? 10)%N
             && Unicode.any_then_BOJ (Unicode.of_str r)).
  change (any_then_BOJ (c :: r))
    with (head_BOJ (c :: r) || negb (Ascii.eqb c newline) && any_then_BOJ r).
  now rewrite of_str_head_BOJ, IH, <- (of_str_eqb c newline).
Qed.

Lemma of_str_head_AA03_BOJ (s : str) :
  Unicode.head_AA03_BOJ (Unicode.of_str s) = head_AA03_BOJ s.
Proof.
  destruct s as [|a1 [|a2 [|o [|t r]]]]; try reflexivity.
  change (Unicode.head_AA03_BOJ (Unicode.of_str (a1 :: a2 :: o :: t :: r)))
    with ((N.of_nat (code a1) =? 65)%N && (N.of_nat (code a2) =? 65)%N
          && Unicode.is_O0 (N.of_nat (code o))
          && (N.of_nat (code t) =? 51)%N
          && Unicode.any_then_BOJ (Unicode.of_str r)).
  cbn [head_AA03_BOJ].
  now rewrite of_str_is_O0, of_str_any_then_BOJ, <- (of_str_eqb a1 "A"),
    <- (of_str_eqb a2 "A"), <- (of_str_eqb t "3").
Qed.

Lemma of_str_search (s : str) :
  Unicode.search_AA03_BOJ (Unicode.of_str s) = search_AA03_BOJ s.
Proof.
  induction s as [|c r IH]; [reflexivity|].
  change (Unicode.search_AA03_BOJ (Unicode.of_str (c :: r)))
    with (Unicode.head_AA03_BOJ (Unicode.of_str (c :: r))
          || Unicode.search_AA03_BOJ (Unicode.of_str r)).
  change (search_AA03_BOJ (c :: r))
    with (head_AA03_BOJ (c :: r) || search_AA03_BOJ r).
  now rewrite of_str_head_AA03_BOJ, IH.
Qed.

Lemma upper_char_ascii (c : ascii) : code c < 128 -> code (upper_char c) < 128.
Proof.
  intros H. unfold upper_char, is_az, between.
  destruct ((97 <=? code c) && (code c <=? 122)) eqn:E; [|exact H].
  apply andb_true_iff in E. destruct E as [E1 E2].
  apply Nat.leb_le in E1, E2. unfold code.
  rewrite nat_ascii_embedding; unfold code in *; lia.
Qed.

Section Agreement.

Variable db : Unicode.Characters.
Hypothesis Hdb : python_on_ascii db.

Lemma of_str_cleaned (s : str) :
  ascii_text s ->
  Unicode.cleaned db (Unicode.of_str s) = Unicode.of_str (cleaned s)
  /\ ascii_text (cleaned s).
Proof.
  rewrite !ascii_text_Forall. unfold Unicode.cleaned, cleaned, upper, join_alnum.
  induction 1 as [|c r Hc Hr [IH1 IH2]]; [split; [reflexivity|constructor]|].
  destruct (Hdb c Hc) as (Ha & Hu & _).
  cbn [Unicode.of_str map filter]. fold (Unicode.of_str r). rewrite Ha.
  destruct (isalnum c).
  - cbn [flat_map map]. rewrite Hu, IH1. split; [reflexivity|].
    constructor; [now apply upper_char_ascii|exact IH2].
  - now split.
Qed.

Lemma of_str_pattern (w : str) :
  ascii_text w ->
  Unicode.uk_plate_pattern db (Unicode.of_str w) = uk_plate_pattern w.
Proof.
  rewrite ascii_text_Forall. intros F.
  destruct w as [|a [|b [|c [|d [|e [|f [|g [|n [|m r]]]]]]]]];
    try reflexivity.
  - inversion_clear F as [|? ? _ F1]. inversion_clear F1 as [|? ? _ F2].
    inversion_clear F2 as [|? ? Hc F3]. inversion_clear F3 as [|? ? Hd _].
    destruct (Hdb _ Hc) as (_ & _ & Ec), (Hdb _ Hd) as (_ & _ & Ed).
    cbn [Unicode.of_str map Unicode.uk_plate_pattern uk_plate_pattern].
    now rewrite Ec, Ed, !of_str_is_AZ.
  - inversion_clear F as [|? ? _ F1]. inversion_clear F1 as [|? ? _ F2].
    inversion_clear F2 as [|? ? Hc F3]. inversion_clear F3 as [|? ? Hd _].
    destruct (Hdb _ Hc) as (_ & _ & Ec), (Hdb _ Hd) as (_ & _ & Ed).
    cbn [Unicode.of_str map Unicode.uk_plate_pattern uk_plate_pattern].
    now rewrite Ec, Ed, !of_str_is_AZ, <- (of_str_eqb n newline).
Qed.

Lemma ascii_text_slice (s : str) (i j : nat) :
  ascii_text s -> ascii_text (slice s i j).
Proof.
  rewrite !ascii_text_Forall. intros F. unfold slice.
  assert (Fs : Forall (fun c => code c < 128) (skipn i s)).
  { revert i. induction F as [|c r Hc Hr IH]; intros [|i]; cbn [skipn];
      auto. }
  generalize (j - i). induction Fs as [|c r Hc Hr IH]; intros [|n];
    cbn [firstn]; auto.
Qed.

Lemma of_str_first_window (s : str) (l : list nat) :
  ascii_text s ->
  Unicode.first_window db (Unicode.of_str s) l
  = option_map Unicode.of_str (first_window s l).
Proof.
  intros F. induction l as [|i l IH]; [reflexivity|].
  cbn [Unicode.first_window first_window]. cbv zeta.
  rewrite of_str_slice, of_str_pattern by now apply ascii_text_slice.
  destruct (uk_plate_pattern (slice s i (i + 7))); [reflexivity|exact IH].
Qed.

Lemma of_str_scan_windows (s : str) :
  ascii_text s ->
  Unicode.scan_windows db (Unicode.of_str s)
  = option_map Unicode.of_str (scan_windows s).
Proof.
  intros F. unfold Unicode.scan_windows, scan_windows.
  rewrite of_str_length. destruct (7 <=? len s); [|reflexivity].
  now apply of_str_first_window.
Qed.

Lemma ascii_text_replace (a b : ascii) (s : str) :
  code b < 128 -> ascii_text s -> ascii_text (replace a b s).
Proof.
  rewrite !ascii_text_Forall. intros Hb F. unfold replace.
  induction F as [|c r Hc Hr IH]; constructor; auto.
  now destruct (Ascii.eqb c a).
Qed.

Lemma of_str_clean (s : str) :
  ascii_text s ->
  Unicode.replace 73 49 (Unicode.replace 79 48
    (Unicode.cleaned db (Unicode.of_str s)))
  = Unicode.of_str (UKText.clean s)
  /\ ascii_text (UKText.clean s).
Proof.
  intros F. destruct (of_str_cleaned s F) as [E A]. rewrite E.
  unfold UKText.clean. fold (cleaned s). split.
  - now rewrite <- (of_str_replace "I" "1"), <- (of_str_replace "O" "0").
  - apply ascii_text_replace; [cbn; lia|].
    apply ascii_text_replace; [cbn; lia|exact A].
Qed.

End Agreement.

Lemma toy_characters_on_ascii : python_on_ascii Toy.characters.
Proof.
  intros [[] [] [] [] [] [] [] []] H; vm_compute in H;
    try (exfalso; lia); vm_compute; repeat split.
Qed.

(** Property X30.  The strings of [PyStr] are Python's ASCII strings.
    Let the character database be Python's on the ASCII range.  Then on
    every ASCII text each of the four normalizers, computed on the code
    points of the text with that database, gives the code points of
    what the normalizer of the same source gives on the text as a
    string of [PyStr]. *)
Theorem normalizers_on_ascii (db : Unicode.Characters) (text : str) :
  python_on_ascii db ->
  ascii_text text ->
  Unicode.uk_format_uk_plate db (Unicode.of_str text)
  = Unicode.of_str (UKText.format_uk_plate text)
  /\ Unicode.direct_clean_and_format_plate db (Unicode.of_str text)
     = Unicode.of_str (DirectOcr.clean_and_format_plate text)
  /\ Unicode.simple_clean_and_format_plate db (Unicode.of_str text)
     = Unicode.of_str (SimpleText.clean_and_format_plate text)
  /\ Unicode.pr_format_uk_plate db (Unicode.of_str text)
     = Unicode.of_str (PlateRecognizerText.format_uk_plate text).
Proof.
  intros Hdb F.
  destruct (of_str_cleaned db Hdb text F) as [E A].
  destruct (of_str_clean db Hdb text F) as [E' A'].
  unfold Unicode.uk_format_uk_plate, Unicode.direct_clean_and_format_plate,
    Unicode.simple_clean_and_format_plate, Unicode.pr_format_uk_plate,
    UKText.format_uk_plate, DirectOcr.clean_and_format_plate,
    SimpleText.clean_and_format_plate, PlateRecognizerText.format_uk_plate.
  cbv zeta. fold (cleaned text). rewrite E', E.
  rewrite of_str_search, !of_str_length.
  rewrite (of_str_scan_windows db Hdb _ A), (of_str_scan_windows db Hdb _ A').
  repeat split.
  - destruct (search_AA03_BOJ (UKText.clean text)); [reflexivity|].
    destruct (scan_windows (UKText.clean text)) as [w|]; cbn [option_map].
    + apply of_str_spaced.
    + destruct (len (UKText.clean text) =? 7);
        [apply of_str_spaced|reflexivity].
  - destruct (scan_windows (cleaned text)) as [w|]; cbn [option_map];
      [apply of_str_spaced|reflexivity].
  - destruct (scan_windows (cleaned text)) as [w|]; cbn [option_map].
    + apply of_str_spaced.
    + destruct (len (cleaned text) =? 7); [apply of_str_spaced|reflexivity].
  - destruct (len (cleaned text) =? 7); [apply of_str_spaced|reflexivity].
Qed.

Lemma normalizers_on_ascii_witness :
  Unicode.uk_format_uk_plate Toy.characters (Unicode.of_str (lit "ab-12 cde"))
  = Unicode.of_str (lit "AB12 CDE")
  /\ Unicode.uk_format_uk_plate Toy.characters
       (Unicode.of_str (lit "ab-12 cde"))
     = Unicode.of_str (UKText.format_uk_plate (lit "ab-12 cde")).
Proof.
  split; [vm_compute; reflexivity|].
  apply (@normalizers_on_ascii Toy.characters (lit "ab-12 cde")
           toy_characters_on_ascii eq_refl).
Defined.
